(** * Swarm Oracle: the agent swarm core, embedded and verified

    A shallow embedding of the agent layer of the repository
    (BaseAgent, AgentCoordinator, SwarmOrchestrator, DeliberationAgent,
    ExecutionAgent, AnalystAgent) together with the properties its
    specification states about it.

    Modelling conventions.
    - A JavaScript number that the code reads from its input is a finite
      rational ([Q]): IEEE rounding is not modelled.  Where the code divides
      by an array length the result may be [NaN] or infinite, and is a [num].
    - A property that may be absent ([undefined]) is an [option].
    - [Date.now()] is an explicit argument [now] (milliseconds, [Z]).
    - A statement that may throw returns an [outcome]; [try]/[catch] is a
      match on it.  [await] on the single logical thread is a plain call.
    - Object literals that cross an agent boundary (the Result of
      [processTask]) are dynamic objects ([jsval]), so that reading a
      property that was never written yields [undefined] as in the source.
    - The [reasoning] strings, which only format numbers for the log, and the
      logger calls are left out.
    - The four numeric analyses of the Analyst, the collectors (which call
      external providers) and the orchestrator's aggregation of their results
      are arbitrary functions that return or throw: what is proved holds
      whatever they compute. *)

From Stdlib Require Import ZArith QArith Qminmax Qabs Lqa Lia String List Bool Sorted.
From stdpp Require Import base option list gmap strings pretty.

Local Open Scope string_scope.

(** ** JavaScript values *)

Module JS.

Local Open Scope Q_scope.

Inductive num : Type :=
| Fin (q : Q)
| PInf
| NInf
| NaN.

Definition Qltb (x y : Q) : bool := negb (Qle_bool y x).

(** [x || d] where [x] is a property holding a finite number or absent:
    [undefined] and [0] are falsy. *)
Definition or_default (o : option Q) (d : Q) : Q :=
  match o with
  | Some q => if Qeq_bool q 0 then d else q
  | None => d
  end.

Definition num_add (a b : num) : num :=
  match a, b with
  | NaN, _ | _, NaN => NaN
  | Fin x, Fin y => Fin (x + y)
  | PInf, NInf | NInf, PInf => NaN
  | PInf, _ | _, PInf => PInf
  | NInf, _ | _, NInf => NInf
  end.

Definition num_neg (a : num) : num :=
  match a with
  | Fin x => Fin (- x)
  | PInf => NInf
  | NInf => PInf
  | NaN => NaN
  end.

Definition num_sub (a b : num) : num := num_add a (num_neg b).

(** [Math.max]: [NaN] if either argument is. *)
Definition num_max (a b : num) : num :=
  match a, b with
  | NaN, _ | _, NaN => NaN
  | PInf, _ | _, PInf => PInf
  | NInf, x | x, NInf => x
  | Fin x, Fin y => Fin (Qmax x y)
  end.

(** [a > b]: every comparison with [NaN] is false. *)
Definition num_gtb (a b : num) : bool :=
  match a, b with
  | NaN, _ | _, NaN => false
  | Fin x, Fin y => Qltb y x
  | PInf, PInf => false
  | PInf, _ => true
  | _, PInf => false
  | NInf, _ => false
  | Fin _, NInf => true
  end.

(** [a >= b] *)
Definition num_geb (a b : num) : bool :=
  match a, b with
  | NaN, _ | _, NaN => false
  | Fin x, Fin y => Qle_bool y x
  | PInf, _ => true
  | _, NInf => true
  | _, PInf => false
  | NInf, Fin _ => false
  end.

(** [a / n] where [n] is an array length or a count (so never [-0]). *)
Definition num_div_count (a : num) (n : nat) : num :=
  match a, n with
  | NaN, _ => NaN
  | PInf, _ => PInf
  | NInf, _ => NInf
  | Fin x, O =>
      if Qeq_bool x 0 then NaN else if Qle_bool 0 x then PInf else NInf
  | Fin x, S _ => Fin (x / inject_Z (Z.of_nat n))
  end.

(** [a * n] where [n] is a count. *)
Definition num_mul_count (a : num) (n : nat) : num :=
  match a, n with
  | NaN, _ => NaN
  | Fin x, _ => Fin (x * inject_Z (Z.of_nat n))
  | _, O => NaN
  | PInf, S _ => PInf
  | NInf, S _ => NInf
  end.

(** The same number, up to the representation of a fraction. *)
Definition num_eq (a b : num) : Prop :=
  match a, b with
  | Fin x, Fin y => x == y
  | PInf, PInf | NInf, NInf | NaN, NaN => True
  | _, _ => False
  end.

(** [b <= a] as a proposition; false as soon as [NaN] is involved. *)
Definition num_ge (a b : num) : Prop :=
  match a, b with
  | NaN, _ | _, NaN => False
  | Fin x, Fin y => y <= x
  | PInf, _ => True
  | _, NInf => True
  | _, PInf => False
  | NInf, Fin _ => False
  end.

#[local] Set Warnings "-register-all".

(** [b < a] as a proposition; false as soon as [NaN] is involved. *)
Definition num_gt (a b : num) : Prop :=
  match a, b with
  | NaN, _ | _, NaN => False
  | Fin x, Fin y => y < x
  | PInf, PInf => False
  | PInf, _ => True
  | _, PInf => False
  | NInf, _ => False
  | Fin _, NInf => True
  end.

Inductive jsval : Type :=
| VUndef
| VNull
| VBool (b : bool)
| VNum (n : num)
| VStr (s : string)
| VArr (xs : list jsval)
| VObj (fs : list (string * jsval)).

Definition num_truthy (n : num) : bool :=
  match n with
  | Fin q => negb (Qeq_bool q 0)
  | NaN => false
  | PInf | NInf => true
  end.

(** ToBoolean *)
Definition truthy (v : jsval) : bool :=
  match v with
  | VUndef | VNull => false
  | VBool b => b
  | VNum n => num_truthy n
  | VStr s => negb (String.eqb s "")
  | VArr _ | VObj _ => true
  end.

Fixpoint lookup_field (k : string) (fs : list (string * jsval)) : jsval :=
  match fs with
  | [] => VUndef
  | (k', v) :: fs' => if String.eqb k k' then v else lookup_field k fs'
  end.

(** [o.k] on an object built from a literal; a property that the literal
    does not list reads as [undefined]. *)
Definition field (k : string) (o : jsval) : jsval :=
  match o with
  | VObj fs => lookup_field k fs
  | _ => VUndef
  end.

Definition has_field (k : string) (o : jsval) : bool :=
  match o with
  | VObj fs => existsb (fun kv => String.eqb k kv.1) fs
  | _ => false
  end.

Definition is_null (v : jsval) : bool :=
  match v with
  | VNull => true
  | _ => false
  end.

Definition opt_js {A} (f : A -> jsval) (o : option A) : jsval :=
  match o with
  | Some a => f a
  | None => VUndef
  end.

Definition VQ (q : Q) : jsval := VNum (Fin q).
Definition VTime (t : Z) : jsval := VNum (Fin (inject_Z t)).

(** What a [throw] carries: an [Error] instance (a [TypeError] raised by the
    engine included) with its message, or any other value. *)
Inductive exn : Type :=
| ErrorObj (message : string)
| Thrown (v : jsval).

Inductive outcome (A : Type) : Type :=
| Ret (a : A)
| Throw (e : exn).
Arguments Ret {A} a.
Arguments Throw {A} e.

#[global] Instance outcome_ret : MRet outcome := @Ret.
#[global] Instance outcome_bind : MBind outcome :=
  fun A B f m => match m with Ret a => f a | Throw e => Throw e end.

(** [error instanceof Error ? error.message : 'Unknown error'] *)
Definition error_message (e : exn) : string :=
  match e with
  | ErrorObj m => m
  | Thrown _ => "Unknown error"
  end.

(** The engine's [TypeError] is an [Error] instance; the message texts are
    those of V8. *)
Definition TypeError (message : string) : exn := ErrorObj message.

(** [try { body } catch (error) { handler }] *)
Definition try_catch {A} (body : outcome A) (handler : exn -> outcome A)
  : outcome A :=
  match body with
  | Ret a => Ret a
  | Throw e => handler e
  end.

(** Use of a value that must not be [undefined]: destructuring it, reading
    a property of it, iterating it. *)
Definition require {A} (o : option A) (what : string) : outcome A :=
  match o with
  | Some a => Ret a
  | None => Throw (TypeError what)
  end.

(** [v.k] for any value: reading a property of [undefined] or [null]
    throws. *)
Definition get_prop (v : jsval) (k : string) : outcome jsval :=
  match v with
  | VUndef | VNull =>
      Throw (TypeError ("Cannot read properties of undefined (reading '" ++ k ++ "')"))
  | _ => Ret (field k v)
  end.

End JS.
Import JS.

(** ** DeliberationAgent: consensus facilitation and dispute resolution *)

Module Deliberation.

Local Open Scope Q_scope.

Inductive Direction : Type := bullish | bearish | neutral.

#[global] Instance Direction_eq_dec : EqDecision Direction.
Proof. solve_decision. Defined.

Definition direction_name (d : Direction) : string :=
  match d with
  | bullish => "bullish"
  | bearish => "bearish"
  | neutral => "neutral"
  end.

(** The [prediction] property of an analyst prediction. *)
Record PredictionBody : Type := {
  body_direction : option Direction;
  body_strength : option Q
}.

Record Prediction : Type := {
  agentId : option string;
  prediction : option PredictionBody;
  confidence : option Q
}.

(** [const directions = { bullish: 0, bearish: 0, neutral: 0 }] *)
Record Directions : Type := {
  n_bullish : nat;
  n_bearish : nat;
  n_neutral : nat
}.

Definition count_of (ds : Directions) (d : Direction) : nat :=
  match d with
  | bullish => n_bullish ds
  | bearish => n_bearish ds
  | neutral => n_neutral ds
  end.

(** [directions[d]++] *)
Definition bump (ds : Directions) (d : Direction) : Directions :=
  match d with
  | bullish => {| n_bullish := S (n_bullish ds); n_bearish := n_bearish ds; n_neutral := n_neutral ds |}
  | bearish => {| n_bullish := n_bullish ds; n_bearish := S (n_bearish ds); n_neutral := n_neutral ds |}
  | neutral => {| n_bullish := n_bullish ds; n_bearish := n_bearish ds; n_neutral := S (n_neutral ds) |}
  end.

Record Analysis : Type := {
  totalPredictions : nat;
  directions : Directions;
  averageStrength : num;
  analysis_averageConfidence : num;
  predictions : list Prediction
}.

(** One turn of the [for (const prediction of predictions)] loop over the
    three accumulators [directions], [strengths], [confidences]. *)
Definition tally (acc : Directions * list Q * list Q) (p : Prediction)
  : Directions * list Q * list Q :=
  let '(ds, strengths, confidences) := acc in
  let confidences' := (confidences ++ [or_default (confidence p) 0.5])%list in
  match prediction p with
  | Some body =>
      match body_direction body with
      | Some d =>
          (bump ds d, (strengths ++ [or_default (body_strength body) 0.5])%list, confidences')
      | None => (ds, strengths, confidences')
      end
  | None => (ds, strengths, confidences')
  end.

(** [xs.reduce((sum, x) => sum + x, 0)] *)
Definition sum_from_zero (xs : list Q) : Q := fold_left Qplus xs 0.

Definition average (xs : list Q) : num :=
  num_div_count (Fin (sum_from_zero xs)) (length xs).

Definition analyzePredictions (ps : list Prediction) : Analysis :=
  let acc :=
    fold_left tally ps ({| n_bullish := 0; n_bearish := 0; n_neutral := 0 |}, [], []) in
  {| totalPredictions := length ps;
     directions := acc.1.1;
     averageStrength := average acc.1.2;
     analysis_averageConfidence := average acc.2;
     predictions := ps |}.

Record Consensus : Type := {
  hasConsensus : bool;
  direction : Direction;
  strength : num;
  threshold : Q;
  supportingAgents : num;
  averageConfidence : num
}.

(** [(a, b) => directions[a[0]] > directions[b[0]] ? a : b] *)
Definition pick (ds : Directions) (a b : Direction * nat) : Direction * nat :=
  if (count_of ds b.1 <? count_of ds a.1)%nat then a else b.

(** [Object.entries(directions).reduce(pick)]: the entries come in insertion
    order, and [reduce] without an initial value starts from the first. *)
Definition dominantDirection (ds : Directions) : Direction * nat :=
  fold_left (pick ds)
    [(bearish, n_bearish ds); (neutral, n_neutral ds)]
    (bullish, n_bullish ds).

Definition calculateConsensus (analysis : Analysis) (threshold : Q) : Consensus :=
  let total := totalPredictions analysis in
  let dominant := dominantDirection (directions analysis) in
  let consensusRatio :=
    num_div_count (Fin (inject_Z (Z.of_nat dominant.2))) total in
  {| hasConsensus := num_geb consensusRatio (Fin threshold);
     direction := dominant.1;
     strength := consensusRatio;
     threshold := threshold;
     supportingAgents := num_mul_count consensusRatio total;
     averageConfidence := analysis_averageConfidence analysis |}.

(** Scenario A of the specification: three predictions, two bullish and
    one bearish, with confidences 0.9, 0.7, 0.6. *)
Definition scenario_A (a1 a2 a3 : option string) : list Prediction :=
  [ {| agentId := a1;
       prediction := Some {| body_direction := Some bullish; body_strength := None |};
       confidence := Some 0.9 |};
    {| agentId := a2;
       prediction := Some {| body_direction := Some bullish; body_strength := None |};
       confidence := Some 0.7 |};
    {| agentId := a3;
       prediction := Some {| body_direction := Some bearish; body_strength := None |};
       confidence := Some 0.6 |} ].

Definition consensus_js (c : Consensus) : jsval :=
  VObj [("hasConsensus", VBool (hasConsensus c));
        ("direction", VStr (direction_name (direction c)));
        ("strength", VNum (strength c));
        ("threshold", VQ (threshold c));
        ("supportingAgents", VNum (supportingAgents c));
        ("averageConfidence", VNum (averageConfidence c))].

(** An evidence item: [source] and [timestamp] (milliseconds). *)
Record Evidence : Type := {
  source : string;
  timestamp : Z
}.

(** The argument of [facilitateConsensus] and [resolveDispute]: the callers
    pass object literals of different shapes, the callees read [task.data]. *)
Record DelibData : Type := {
  data_predictions : option (list Prediction);
  data_threshold : option Q;
  data_conflictingPredictions : option (list Prediction);
  data_evidence : option (list Evidence)
}.

Record DelibArg : Type := {
  arg_proposals : option (list Prediction);
  arg_consensusThreshold : option Q;
  arg_threshold : option Q;
  arg_data : option DelibData
}.

(** [{}] *)
Definition empty_arg : DelibArg :=
  {| arg_proposals := None; arg_consensusThreshold := None;
     arg_threshold := None; arg_data := None |}.

Record Agent : Type := {
  id : string;
  deliberationType : string
}.

Definition facilitateConsensus (self : Agent) (now : Z) (task : DelibArg)
  : outcome jsval :=
  data ← require (arg_data task)
    "Cannot destructure property 'predictions' of 'task.data' as it is undefined.";
  ps ← require (data_predictions data) "predictions is not iterable";
  let analysis := analyzePredictions ps in
  let consensus := calculateConsensus analysis (or_default (data_threshold data) 0.8) in
  Ret (VObj [("agentId", VStr (id self));
             ("deliberationType", VStr "consensus");
             ("timestamp", VTime now);
             ("consensus", consensus_js consensus);
             ("confidence", VNum (strength consensus));
             ("participatingAgents", VArr (map (fun p => opt_js VStr (agentId p)) ps))]).

Definition calculateEvidenceWeight (now : Z) (evidence : Evidence) : Q :=
  let weight := 0.5 in
  let weight := if String.eqb (source evidence) "onchain" then weight + 0.3 else weight in
  let weight := if String.eqb (source evidence) "news" then weight + 0.2 else weight in
  let weight := if String.eqb (source evidence) "social" then weight + 0.1 else weight in
  let ageHours := inject_Z (now - timestamp evidence) / inject_Z (1000 * 60 * 60) in
  let weight :=
    if Qltb ageHours 1 then weight + 0.2
    else if Qltb ageHours 24 then weight + 0.1
    else weight in
  Qmin 1 weight.

Record Conflict : Type := {
  agents : option string * option string;
  severity : num
}.

(** [Math.abs(pred1.confidence - pred2.confidence)]; an absent confidence
    makes the difference [NaN]. *)
Definition confidence_delta (pred1 pred2 : Prediction) : num :=
  match confidence pred1, confidence pred2 with
  | Some a, Some b => Fin (Qabs (a - b))
  | _, _ => NaN
  end.

(** [pred.prediction.direction] *)
Definition direction_of (pred : Prediction) : outcome (option Direction) :=
  body ← require (prediction pred)
    "Cannot read properties of undefined (reading 'direction')";
  Ret (body_direction body).

(** The inner loop, [for (j = i + 1; ...)], for a fixed [pred1]. *)
Fixpoint conflicts_with (pred1 : Prediction) (rest : list Prediction)
    (conflicts : list Conflict) : outcome (list Conflict) :=
  match rest with
  | [] => Ret conflicts
  | pred2 :: rest' =>
      d1 ← direction_of pred1;
      d2 ← direction_of pred2;
      conflicts_with pred1 rest'
        (if decide (d1 = d2) then conflicts
         else (conflicts ++ [{| agents := (agentId pred1, agentId pred2);
                                severity := confidence_delta pred1 pred2 |}])%list)
  end.

(** The outer loop, [for (i = 0; ...)]. *)
Fixpoint all_conflicts (preds : list Prediction) (conflicts : list Conflict)
  : outcome (list Conflict) :=
  match preds with
  | [] => Ret conflicts
  | pred1 :: rest =>
      conflicts' ← conflicts_with pred1 rest conflicts;
      all_conflicts rest conflicts'
  end.

(** [for (const item of evidence) evidenceWeights[item.source] = ...]: the
    weights are keyed by source, a later item overwrites an earlier one of
    the same source.  On a plain object the key ['__proto__'] is the
    prototype accessor, and assigning a number to it does nothing. *)
Definition weigh (now : Z) (evidenceWeights : gmap string Q) (item : Evidence)
  : gmap string Q :=
  if String.eqb (source item) "__proto__" then evidenceWeights
  else <[source item := calculateEvidenceWeight now item]> evidenceWeights.

Record Resolution : Type := {
  conflicts : list Conflict;
  evidenceWeights : gmap string Q;
  totalConflicts : nat;
  evidenceCount : nat
}.

Definition analyzeConflict (now : Z)
    (conflictingPredictions : option (list Prediction))
    (evidence : option (list Evidence)) : outcome Resolution :=
  preds ← require conflictingPredictions
    "Cannot read properties of undefined (reading 'length')";
  cs ← all_conflicts preds [];
  items ← require evidence "evidence is not iterable";
  Ret {| conflicts := cs;
         evidenceWeights := fold_left (weigh now) items ∅;
         totalConflicts := length cs;
         evidenceCount := length items |}.

Record Decision : Type := {
  resolution : string;
  decision_confidence : num;
  strategy : string;
  requiresHumanReview : bool
}.

(** [Object.values(resolution.evidenceWeights).some(weight => weight > 0.8)] *)
Definition hasStrongEvidence (r : Resolution) : bool :=
  existsb (fun kv : string * Q => Qltb 0.8 kv.2) (map_to_list (evidenceWeights r)).

(** [conflicts.reduce((sum, c) => sum + c.severity, 0) / conflicts.length] *)
Definition conflictSeverity (r : Resolution) : num :=
  num_div_count
    (fold_left (fun sum c => num_add sum (severity c)) (conflicts r) (Fin 0))
    (length (conflicts r)).

Definition makeResolutionDecision (r : Resolution) : Decision :=
  {| resolution := if hasStrongEvidence r then "evidence_based" else "majority_vote";
     decision_confidence :=
       if hasStrongEvidence r then Fin 0.9
       else num_max (Fin 0.3) (num_sub (Fin 1) (conflictSeverity r));
     strategy :=
       if hasStrongEvidence r then "Follow strongest evidence"
       else "Defer to majority consensus";
     requiresHumanReview := num_gtb (conflictSeverity r) (Fin 0.8) |}.

(** The decision as [resolveDispute] derives it from the conflicting
    predictions and the evidence. *)
Definition resolution_decision (now : Z)
    (conflictingPredictions : option (list Prediction))
    (evidence : option (list Evidence)) : outcome Decision :=
  r ← analyzeConflict now conflictingPredictions evidence;
  Ret (makeResolutionDecision r).

Definition conflict_js (c : Conflict) : jsval :=
  VObj [("agents", VArr [opt_js VStr (agents c).1; opt_js VStr (agents c).2]);
        ("type", VStr "directional_conflict");
        ("severity", VNum (severity c))].

Definition resolution_js (r : Resolution) : jsval :=
  VObj [("conflicts", VArr (map conflict_js (conflicts r)));
        ("evidenceWeights",
           VObj (map (fun kv : string * Q => (kv.1, VQ kv.2))
                     (map_to_list (evidenceWeights r))));
        ("totalConflicts", VQ (inject_Z (Z.of_nat (totalConflicts r))));
        ("evidenceCount", VQ (inject_Z (Z.of_nat (evidenceCount r))))].

Definition decision_js (d : Decision) : jsval :=
  VObj [("resolution", VStr (resolution d));
        ("confidence", VNum (decision_confidence d));
        ("strategy", VStr (strategy d));
        ("requiresHumanReview", VBool (requiresHumanReview d))].

Definition resolveDispute (self : Agent) (now : Z) (task : DelibArg)
  : outcome jsval :=
  data ← require (arg_data task)
    "Cannot destructure property 'conflictingPredictions' of 'task.data' as it is undefined.";
  r ← analyzeConflict now (data_conflictingPredictions data) (data_evidence data);
  let decision := makeResolutionDecision r in
  preds ← require (data_conflictingPredictions data)
    "Cannot read properties of undefined (reading 'map')";
  Ret (VObj [("agentId", VStr (id self));
             ("deliberationType", VStr "dispute_resolution");
             ("timestamp", VTime now);
             ("decision", decision_js decision);
             ("confidence", VNum (decision_confidence decision));
             ("conflictingAgents", VArr (map (fun p => opt_js VStr (agentId p)) preds));
             ("resolution", resolution_js r)]).

(** [deliberate(proposals, consensusThreshold)] hands both callees an object
    literal with the properties [proposals] and [consensusThreshold] (resp.
    [threshold]); neither literal has a [data] property. *)
Definition deliberate (self : Agent) (now : Z)
    (proposals : list Prediction) (consensusThreshold : Q) : outcome jsval :=
  if String.eqb (deliberationType self) "facilitator" then
    facilitateConsensus self now
      {| arg_proposals := Some proposals;
         arg_consensusThreshold := Some consensusThreshold;
         arg_threshold := None;
         arg_data := None |}
  else if String.eqb (deliberationType self) "resolver" then
    resolveDispute self now
      {| arg_proposals := Some proposals;
         arg_consensusThreshold := None;
         arg_threshold := Some consensusThreshold;
         arg_data := None |}
  else
    Throw (ErrorObj ("Unknown deliberation type: " ++ deliberationType self)).

(** A task as the Deliberator reads it; [data] is whatever else the sender
    put under that name, this agent never reads it. *)
Record Task : Type := {
  task_type : string;
  proposals : option (list Prediction);
  consensus_threshold : option Q;
  dispute : option DelibArg;
  data : jsval
}.

Definition failure (self : Agent) (now : Z) (task : Task) (error : string) : jsval :=
  VObj [("agentId", VStr (id self));
        ("taskType", VStr (task_type task));
        ("timestamp", VTime now);
        ("success", VBool false);
        ("error", VStr error)].

Definition processTask (self : Agent) (now : Z) (task : Task) : outcome jsval :=
  try_catch
    (if String.eqb (task_type task) "deliberate" then
       result ← deliberate self now
                  (default [] (proposals task))
                  (or_default (consensus_threshold task) 0.8);
       Ret (VObj [("agentId", VStr (id self));
                  ("taskType", VStr "deliberation");
                  ("timestamp", VTime now);
                  ("success", VBool true);
                  ("result", result)])
     else if String.eqb (task_type task) "resolve_dispute" then
       resolution ← resolveDispute self now (default empty_arg (dispute task));
       Ret (VObj [("agentId", VStr (id self));
                  ("taskType", VStr "dispute_resolution");
                  ("timestamp", VTime now);
                  ("success", VBool true);
                  ("resolution", resolution)])
     else
       Ret (failure self now task "Unknown task type"))
    (fun error => Ret (failure self now task (error_message error))).

End Deliberation.

(** ** ExecutionAgent: risk management, cross-chain plans, MEV protection *)

Module Execution.

Local Open Scope Q_scope.

Record PredictionIn : Type := { confidence : option Q }.
Record MarketData : Type := { volatility : option Q }.
Record Transaction : Type := { tx_amount : option Q }.
Record MarketConditions : Type := { liquidity : option Q }.

(** [task.data], with the properties that the three sub-roles destructure. *)
Record ExecData : Type := {
  prediction : option PredictionIn;
  marketData : option MarketData;
  riskParameters : jsval;
  sourceChain : option string;
  targetChain : option string;
  amount : option Q;
  operation : option string;
  transaction : option Transaction;
  marketConditions : option MarketConditions
}.

Record Details : Type := { details_data : option ExecData }.

(** [{}] *)
Definition empty_details : Details := {| details_data := None |}.

Record Agent : Type := {
  id : string;
  executionType : string
}.

Record RiskAssessment : Type := {
  overall : Q;
  assessment_confidence : Q;
  riskLevel : string
}.

(** [overall > 0.7 ? 'high' : overall > 0.4 ? 'medium' : 'low'] *)
Definition level_of (overall : Q) : string :=
  if Qltb 0.7 overall then "high"
  else if Qltb 0.4 overall then "medium"
  else "low".

Definition assessRisk (prediction : option PredictionIn)
    (marketData : option MarketData) (riskParameters : jsval)
  : outcome RiskAssessment :=
  p ← require prediction
    "Cannot read properties of undefined (reading 'confidence')";
  let confidenceRisk := 1 - or_default (confidence p) 0.5 in
  m ← require marketData
    "Cannot read properties of undefined (reading 'volatility')";
  let volatilityRisk := or_default (volatility m) 0.2 / 0.5 in
  let overall := Qmin 1 ((confidenceRisk + volatilityRisk) / 2) in
  Ret {| overall := overall;
         assessment_confidence := 0.8;
         riskLevel := level_of overall |}.

Record Recommendation : Type := {
  action : string;
  maxExposure : Q
}.

Definition generateRiskRecommendation (riskAssessment : RiskAssessment)
  : Recommendation :=
  if String.eqb (riskLevel riskAssessment) "high" then
    {| action := "reject"; maxExposure := 0 |}
  else if String.eqb (riskLevel riskAssessment) "medium" then
    {| action := "proceed_with_caution"; maxExposure := 0.5 |}
  else
    {| action := "proceed"; maxExposure := 0.8 |}.

Definition assessment_js (r : RiskAssessment) : jsval :=
  VObj [("overall", VQ (overall r));
        ("confidence", VQ (assessment_confidence r));
        ("riskLevel", VStr (riskLevel r))].

Definition recommendation_js (r : Recommendation) : jsval :=
  VObj [("action", VStr (action r)); ("maxExposure", VQ (maxExposure r))].

Definition manageRisk (self : Agent) (now : Z) (task : Details) : outcome jsval :=
  data ← require (details_data task)
    "Cannot destructure property 'prediction' of 'task.data' as it is undefined.";
  riskAssessment ← assessRisk (prediction data) (marketData data) (riskParameters data);
  let recommendation := generateRiskRecommendation riskAssessment in
  Ret (VObj [("agentId", VStr (id self));
             ("executionType", VStr "risk_management");
             ("timestamp", VTime now);
             ("riskAssessment", assessment_js riskAssessment);
             ("recommendation", recommendation_js recommendation);
             ("confidence", VQ (assessment_confidence riskAssessment))]).

(** [amount * 0.005]; an absent amount makes it [NaN]. *)
Definition fee_of (amount : option Q) : num :=
  match amount with
  | Some a => Fin (a * 0.005)
  | None => NaN
  end.

Definition executeCrossChain (self : Agent) (now : Z) (task : Details)
  : outcome jsval :=
  data ← require (details_data task)
    "Cannot destructure property 'sourceChain' of 'task.data' as it is undefined.";
  let executionPlan :=
    VObj [("sourceChain", opt_js VStr (sourceChain data));
          ("targetChain", opt_js VStr (targetChain data));
          ("amount", opt_js VQ (amount data));
          ("operation", opt_js VStr (operation data));
          ("bridge", VStr "Chainlink CCIP");
          ("estimatedTime", VQ 15);
          ("fees", VObj [("total", VNum (fee_of (amount data)))])] in
  Ret (VObj [("agentId", VStr (id self));
             ("executionType", VStr "cross_chain");
             ("timestamp", VTime now);
             ("executionPlan", executionPlan);
             ("confidence", VQ 0.9);
             ("status", VStr "planned")]).

Record MEVRisk : Type := {
  mev_overall : Q;
  slippage : Q;
  mev_riskLevel : string
}.

Definition assessMEVRisk (transaction : option Transaction)
    (marketConditions : option MarketConditions) : outcome MEVRisk :=
  t ← require transaction
    "Cannot read properties of undefined (reading 'amount')";
  c ← require marketConditions
    "Cannot read properties of undefined (reading 'liquidity')";
  let slippageRisk :=
    Qmin 1 (or_default (tx_amount t) 0 / or_default (liquidity c) 1000000 * 100) in
  Ret {| mev_overall := slippageRisk;
         slippage := slippageRisk;
         mev_riskLevel := level_of slippageRisk |}.

Definition selectProtectionStrategy (mevRisk : MEVRisk) : jsval :=
  if String.eqb (mev_riskLevel mevRisk) "high" then
    VObj [("primary", VStr "private_mempool"); ("gasStrategy", VStr "aggressive_gas")]
  else if String.eqb (mev_riskLevel mevRisk) "medium" then
    VObj [("primary", VStr "split_transaction"); ("gasStrategy", VStr "standard_gas")]
  else
    VObj [("primary", VStr "standard_protection"); ("gasStrategy", VStr "standard_gas")].

Definition protectFromMEV (self : Agent) (now : Z) (task : Details)
  : outcome jsval :=
  data ← require (details_data task)
    "Cannot destructure property 'transaction' of 'task.data' as it is undefined.";
  mevRisk ← assessMEVRisk (transaction data) (marketConditions data);
  Ret (VObj [("agentId", VStr (id self));
             ("executionType", VStr "mev_protection");
             ("timestamp", VTime now);
             ("mevRisk", VObj [("overall", VQ (mev_overall mevRisk));
                               ("slippage", VQ (slippage mevRisk));
                               ("riskLevel", VStr (mev_riskLevel mevRisk))]);
             ("protectionStrategy", selectProtectionStrategy mevRisk);
             ("confidence", VQ 0.85)]).

Definition execute (self : Agent) (now : Z) (details : Details) : outcome jsval :=
  if String.eqb (executionType self) "risk_manager" then manageRisk self now details
  else if String.eqb (executionType self) "cross_chain" then executeCrossChain self now details
  else if String.eqb (executionType self) "mev_protector" then protectFromMEV self now details
  else Throw (ErrorObj ("Unknown execution type: " ++ executionType self)).

(** A task as the Executor reads it; [data] is never read by this agent. *)
Record Task : Type := {
  task_type : string;
  tradeDetails : option Details;
  riskData : option Details;
  bridgeData : option Details;
  data : jsval
}.

Definition success (self : Agent) (now : Z) (taskType : string) (result : jsval)
  : jsval :=
  VObj [("agentId", VStr (id self));
        ("taskType", VStr taskType);
        ("timestamp", VTime now);
        ("success", VBool true);
        ("result", result)].

Definition failure (self : Agent) (now : Z) (task : Task) (error : string) : jsval :=
  VObj [("agentId", VStr (id self));
        ("taskType", VStr (task_type task));
        ("timestamp", VTime now);
        ("success", VBool false);
        ("error", VStr error)].

Definition processTask (self : Agent) (now : Z) (task : Task) : outcome jsval :=
  try_catch
    (if String.eqb (task_type task) "execute_trade" then
       result ← execute self now (default empty_details (tradeDetails task));
       Ret (success self now "execution" result)
     else if String.eqb (task_type task) "manage_risk" then
       riskResult ← manageRisk self now (default empty_details (riskData task));
       Ret (success self now "risk_management" riskResult)
     else if String.eqb (task_type task) "cross_chain_bridge" then
       bridgeResult ← executeCrossChain self now (default empty_details (bridgeData task));
       Ret (success self now "cross_chain" bridgeResult)
     else
       Ret (failure self now task "Unknown task type"))
    (fun error => Ret (failure self now task (error_message error))).

End Execution.

(** ** AnalystAgent: task dispatch

    The four analyses (technical, fundamental, sentiment, correlation) are
    numeric routines over the collected data; here they are arbitrary
    functions that return an analysis or throw, so that what is proved about
    [processTask] holds whatever they compute. *)

Module Analyst.

Record Agent : Type := {
  id : string;
  analysisType : string
}.

Record Task : Type := {
  task_type : string;
  data : jsval
}.

Definition isArray (v : jsval) : bool :=
  match v with
  | VArr _ => true
  | _ => false
  end.

Definition elements (v : jsval) : list jsval :=
  match v with
  | VArr xs => xs
  | _ => []
  end.

(** The extraction of [dataArray] from [task.data]. *)
Definition dataArray_of (task : Task) : list jsval :=
  if truthy (data task) then
    if isArray (data task) then elements (data task)
    else if truthy (field "dataCollection" (data task))
            && isArray (field "dataCollection" (data task))
    then elements (field "dataCollection" (data task))
    else if truthy (field "marketData" (data task))
    then [field "marketData" (data task)]
    else []
  else [].

Definition failure (self : Agent) (now : Z) (task : Task) (error : string) : jsval :=
  VObj [("agentId", VStr (id self));
        ("taskType", VStr (task_type task));
        ("timestamp", VTime now);
        ("success", VBool false);
        ("error", VStr error)].

Section Analyses.

Variables performTechnicalAnalysis performFundamentalAnalysis
          performSentimentAnalysis performCorrelationAnalysis
  : list jsval -> outcome jsval.

Definition analyzeData (self : Agent) (data : list jsval) : outcome jsval :=
  if String.eqb (analysisType self) "technical" then performTechnicalAnalysis data
  else if String.eqb (analysisType self) "fundamental" then performFundamentalAnalysis data
  else if String.eqb (analysisType self) "sentiment" then performSentimentAnalysis data
  else if String.eqb (analysisType self) "correlation" then performCorrelationAnalysis data
  else Throw (ErrorObj ("Unknown analysis type: " ++ analysisType self)).

Definition processTask (self : Agent) (now : Z) (task : Task) : outcome jsval :=
  try_catch
    (if String.eqb (task_type task) "analyze_data" then
       analysis ← analyzeData self (dataArray_of task);
       Ret (VObj [("agentId", VStr (id self));
                  ("taskType", VStr "analysis");
                  ("timestamp", VTime now);
                  ("success", VBool true);
                  ("analysis", analysis)])
     else
       Ret (failure self now task "Unknown task type"))
    (fun error => Ret (failure self now task (error_message error))).

End Analyses.

End Analyst.

(** ** BaseAgent: lifecycle counters, private memory, health predicate *)

Module Base.

Inductive Status : Type := active | inactive | error.

#[global] Instance Status_eq_dec : EqDecision Status.
Proof. solve_decision. Defined.

Record AgentMemory : Type := {
  mem_id : string;
  mem_timestamp : Z;
  mem_type : string;
  mem_data : jsval;
  mem_metadata : option jsval
}.

(** [Omit<AgentMemory, 'id' | 'timestamp'>] *)
Record MemoryInput : Type := {
  in_type : string;
  in_data : jsval;
  in_metadata : option jsval
}.

Record Agent : Type := {
  id : string;
  type : string;
  status : Status;
  startTime : Z;
  lastActivityTime : Z;
  tasksCompleted : nat;
  errorCount : nat;
  memory : list AgentMemory;
  maxMemorySize : nat
}.

(** The state right after the constructor. *)
Definition new_agent (id type : string) : Agent :=
  {| id := id; type := type; status := inactive; startTime := 0;
     lastActivityTime := 0; tasksCompleted := 0; errorCount := 0;
     memory := []; maxMemorySize := 1000 |}.

Definition set_memory (self : Agent) (memory : list AgentMemory) : Agent :=
  {| id := id self; type := type self; status := status self;
     startTime := startTime self; lastActivityTime := lastActivityTime self;
     tasksCompleted := tasksCompleted self; errorCount := errorCount self;
     memory := memory; maxMemorySize := maxMemorySize self |}.

Definition set_lastActivityTime (self : Agent) (t : Z) : Agent :=
  {| id := id self; type := type self; status := status self;
     startTime := startTime self; lastActivityTime := t;
     tasksCompleted := tasksCompleted self; errorCount := errorCount self;
     memory := memory self; maxMemorySize := maxMemorySize self |}.

(** [l.slice(-n)] for a non-negative [n]: [-0] is [0], so [slice(-0)] is
    the whole array; otherwise the last [n] elements. *)
Definition slice_last {A} (n : nat) (l : list A) : list A :=
  match n with
  | O => l
  | S _ => drop (length l - n) l
  end.

(** The entry built by [storeMemory]; [stamp] stands for the text
    [`${Date.now()}_${Math.random().toString(36).substr(2, 9)}`]. *)
Definition memoryItem (self : Agent) (now : Z) (stamp : string)
    (input : MemoryInput) : AgentMemory :=
  {| mem_id := id self ++ "_" ++ stamp;
     mem_timestamp := now;
     mem_type := in_type input;
     mem_data := in_data input;
     mem_metadata := in_metadata input |}.

(** [storeMemory], up to the write-through: the agent after the push and the
    trim.  The entry is then handed to [coordinator.storeAgentMemory]; that
    call comes last, so whether it throws or not the memory is as here. *)
Definition storeMemory (self : Agent) (now : Z) (stamp : string)
    (input : MemoryInput) : Agent :=
  let pushed := (memory self ++ [memoryItem self now stamp input])%list in
  if (maxMemorySize self <? length pushed)%nat
  then set_memory self (slice_last (maxMemorySize self) pushed)
  else set_memory self pushed.

(** [sort((a, b) => b.timestamp - a.timestamp)]: the sort is stable, so the
    result is the insertion sort below, newest first, entries of equal
    timestamp in their array order. *)
Fixpoint insert_desc (m : AgentMemory) (sorted : list AgentMemory)
  : list AgentMemory :=
  match sorted with
  | [] => [m]
  | y :: rest =>
      if (mem_timestamp m <? mem_timestamp y)%Z
      then y :: insert_desc m rest
      else m :: y :: rest
  end.

Definition sort_desc (l : list AgentMemory) : list AgentMemory :=
  foldr insert_desc [] l.

(** [getRecentMemories(limit)]: [Array.prototype.sort] sorts [this.memory]
    itself, so the call also leaves the agent's memory reordered. *)
Definition getRecentMemories (self : Agent) (limit : nat)
  : Agent * list AgentMemory :=
  let sorted := sort_desc (memory self) in
  (set_memory self sorted, take limit sorted).

(** [getMemoriesByType(type, limit)]: [filter] copies, the memory is left
    as it is. *)
Definition getMemoriesByType (self : Agent) (type : string) (limit : nat)
  : list AgentMemory :=
  take limit
    (sort_desc (List.filter (fun m => String.eqb (mem_type m) type) (memory self))).

(** A history of [storeMemory] calls, each with its clock reading, its
    generated stamp and its input: the agent at the end, and the entries
    that were appended, in order. *)
Fixpoint stores (self : Agent) (inputs : list (Z * string * MemoryInput))
  : Agent * list AgentMemory :=
  match inputs with
  | [] => (self, [])
  | (now, stamp, input) :: rest =>
      let r := stores (storeMemory self now stamp input) rest in
      (r.1, memoryItem self now stamp input :: r.2)
  end.

Definition isHealthy (self : Agent) (now : Z) : bool :=
  bool_decide (status self = active)
  && (now - lastActivityTime self <? 300000)%Z.

(** [handleMessage]: the base implementation only touches the clock. *)
Definition handleMessage (self : Agent) (now : Z) : Agent :=
  set_lastActivityTime self now.

End Base.

(** ** AgentCoordinator: live registry, mailboxes, swarm health *)

Module Coordinator.

Local Open Scope Q_scope.

Record AgentMessage : Type := {
  msg_id : string;
  fromAgentId : string;
  toAgentId : string;
  msg_type : jsval;
  msg_data : jsval;
  msg_timestamp : Z
}.

(** What the coordinator asks the persistence gateway to write. *)
Inductive DbWrite : Type :=
| StoreAgentRegistration (agentId type : string) (timestamp : Z)
| UpdateAgentStatus (agentId status : string)
| StoreMessage (m : AgentMessage)
| StoreAgentMemory (agentId : string) (m : Base.AgentMemory).

(** The gateway: every write throws while it is not connected. *)
Record Db : Type := {
  connected : bool;
  writes : list DbWrite
}.

Definition db_write (db : Db) (w : DbWrite) : Db * outcome unit :=
  if connected db
  then ({| connected := true; writes := (writes db ++ [w])%list |}, Ret tt)
  else (db, Throw (ErrorObj "Database not connected")).

(** The registry holds the agent objects themselves; an entry here is the
    current state of the object registered under that id. *)
Record State : Type := {
  agents : gmap string Base.Agent;
  messageQueues : gmap string (list AgentMessage);
  dbManager : option Db
}.

(** [if (this.dbManager) await this.dbManager.<write>] *)
Definition persist (dbManager : option Db) (w : DbWrite)
  : option Db * outcome unit :=
  match dbManager with
  | Some db => let r := db_write db w in (Some r.1, r.2)
  | None => (None, Ret tt)
  end.

Definition registerAgent (c : State) (now : Z) (agent : Base.Agent)
  : State * outcome unit :=
  let agents' := <[Base.id agent := agent]> (agents c) in
  let queues' := <[Base.id agent := []]> (messageQueues c) in
  let r := persist (dbManager c)
             (StoreAgentRegistration (Base.id agent) (Base.type agent) now) in
  ({| agents := agents'; messageQueues := queues'; dbManager := r.1 |}, r.2).

Definition unregisterAgent (c : State) (agentId : string)
  : State * outcome unit :=
  let r := persist (dbManager c) (UpdateAgentStatus agentId "unregistered") in
  ({| agents := delete agentId (agents c);
      messageQueues := delete agentId (messageQueues c);
      dbManager := r.1 |}, r.2).

(** [message.type || 'generic']; [message] itself must not be nullish. *)
Definition type_of_message (message : jsval) : outcome jsval :=
  match message with
  | VUndef | VNull =>
      Throw (TypeError "Cannot read properties of undefined (reading 'type')")
  | _ => Ret (if truthy (field "type" message)
              then field "type" message else VStr "generic")
  end.

(** [sendMessage]; [stamp] stands for the generated part of the message id. *)
Definition sendMessage (c : State) (now : Z) (stamp : string)
    (fromAgentId toAgentId : string) (message : jsval) : State * outcome unit :=
  match type_of_message message with
  | Throw e => (c, Throw e)
  | Ret ty =>
      let messageWithId :=
        {| msg_id := "msg_" ++ stamp; fromAgentId := fromAgentId;
           toAgentId := toAgentId; msg_type := ty; msg_data := message;
           msg_timestamp := now |} in
      let delivered :=
        match messageQueues c !! toAgentId with
        | Some queue =>
            (<[toAgentId := (queue ++ [messageWithId])%list]> (messageQueues c),
             alter (fun recipient => Base.handleMessage recipient now)
                   toAgentId (agents c))
        | None => (messageQueues c, agents c)
        end in
      let r := persist (dbManager c) (StoreMessage messageWithId) in
      ({| agents := delivered.2; messageQueues := delivered.1;
          dbManager := r.1 |}, r.2)
  end.

Definition storeAgentMemory (c : State) (agentId : string)
    (m : Base.AgentMemory) : State * outcome unit :=
  let r := persist (dbManager c) (StoreAgentMemory agentId m) in
  ({| agents := agents c; messageQueues := messageQueues c;
      dbManager := r.1 |}, r.2).

(** The loop of [healthCheck] over [this.agents.values()]. *)
Definition healthyAgents (c : State) (now : Z) : nat :=
  length (filter (fun kv : string * Base.Agent => Base.isHealthy kv.2 now = true)
                 (map_to_list (agents c))).

Definition totalAgents (c : State) : nat := size (agents c).

Definition healthRatio (c : State) (now : Z) : Q :=
  if (0 <? totalAgents c)%nat
  then inject_Z (Z.of_nat (healthyAgents c now))
       / inject_Z (Z.of_nat (totalAgents c))
  else 0.

Definition healthCheck (c : State) (now : Z) : bool :=
  Qltb 0.8 (healthRatio c now).

End Coordinator.

(** ** SwarmOrchestrator: the four-stage pipeline

    The collectors call external providers and [aggregateMarketData] adds
    up whatever the collectors returned; both are arbitrary functions here,
    as are the analyses of the analysts.  What each stage calls is recorded
    as a trace of events. *)

Module Orchestrator.

Local Open Scope Q_scope.

Record SwarmAgents : Type := {
  dataCollectors : list string;
  analysts : list Analyst.Agent;
  deliberation : list Deliberation.Agent;
  execution : list Execution.Agent
}.

Record Task : Type := {
  task_type : string;
  market : jsval;
  data : jsval
}.

Inductive Event : Type :=
| CollectData (collector : string)
| AnalyzeData (analyst : string)
| BuildConsensus (facilitator : string)
| ExecuteMarketDecision
| AssessRisk (riskManager : string).

#[global] Instance Event_eq_dec : EqDecision Event.
Proof. solve_decision. Defined.

Section Pipeline.

(** [processTask] of the collector with the given id. *)
Variable collectorProcessTask : string -> Z -> jsval -> outcome jsval.
Variable aggregateMarketData : Z -> list jsval -> outcome jsval.
Variables performTechnicalAnalysis performFundamentalAnalysis
          performSentimentAnalysis performCorrelationAnalysis
  : list jsval -> outcome jsval.

Definition analystProcessTask : Analyst.Agent -> Z -> Analyst.Task -> outcome jsval :=
  Analyst.processTask performTechnicalAnalysis performFundamentalAnalysis
                      performSentimentAnalysis performCorrelationAnalysis.

(** [try { return await f } catch { return null }] *)
Definition or_null (r : outcome jsval) : jsval :=
  match r with
  | Ret v => v
  | Throw _ => VNull
  end.

(** [results.filter(result => result !== null)] *)
Definition non_null (results : list jsval) : list jsval :=
  List.filter (fun r => negb (is_null r)) results.

Definition collectMarketData (agents : SwarmAgents) (now : Z) (market : jsval)
  : list Event * list jsval :=
  (map CollectData (dataCollectors agents),
   non_null
     (map (fun c =>
             or_null (collectorProcessTask c now
                        (VObj [("type", VStr "collect_data");
                               ("data", VObj [("market", market);
                                              ("timestamp", VTime now)])])))
          (dataCollectors agents))).

Definition analyzeMarketData (agents : SwarmAgents) (now : Z)
    (dataCollection : list jsval) : list Event * list jsval :=
  (map (fun a => AnalyzeData (Analyst.id a)) (analysts agents),
   non_null
     (map (fun a =>
             or_null
               (marketData ← aggregateMarketData now dataCollection;
                analystProcessTask a now
                  {| Analyst.task_type := "analyze_data";
                     Analyst.data :=
                       VObj [("dataCollection", VArr dataCollection);
                             ("marketData", marketData);
                             ("timestamp", VTime now)] |}))
          (analysts agents))).

(** [agents.find(agent => agent.getType() === t)] *)
Definition find_facilitator (agents : SwarmAgents) : option Deliberation.Agent :=
  List.find (fun a => String.eqb (Deliberation.deliberationType a) "facilitator")
            (deliberation agents).

Definition find_riskManager (agents : SwarmAgents) : option Execution.Agent :=
  List.find (fun a => String.eqb (Execution.executionType a) "risk_manager")
            (execution agents).

Definition buildConsensus (agents : SwarmAgents) (now : Z)
    (analysisResults : list jsval) : list Event * outcome jsval :=
  match find_facilitator agents with
  | None => ([], Throw (ErrorObj "No consensus facilitator available"))
  | Some facilitator =>
      ([BuildConsensus (Deliberation.id facilitator)],
       Deliberation.processTask facilitator now
         {| Deliberation.task_type := "build_consensus";
            Deliberation.proposals := None;
            Deliberation.consensus_threshold := None;
            Deliberation.dispute := None;
            Deliberation.data :=
              VObj [("predictions", VArr analysisResults);
                    ("threshold", VQ 0.8);
                    ("timestamp", VTime now)] |})
  end.

Definition executeMarketDecision (agents : SwarmAgents) (now : Z)
    (consensus : jsval) (task : Task) : list Event * outcome unit :=
  match find_riskManager agents with
  | None => ([ExecuteMarketDecision], Ret tt)
  | Some riskManager =>
      ([ExecuteMarketDecision; AssessRisk (Execution.id riskManager)],
       prediction ← get_prop consensus "consensus";
       riskAssessment ←
         Execution.processTask riskManager now
           {| Execution.task_type := "assess_risk";
              Execution.tradeDetails := None;
              Execution.riskData := None;
              Execution.bridgeData := None;
              Execution.data :=
                VObj [("prediction", prediction);
                      ("marketData", VObj [("market", market task)]);
                      ("riskParameters",
                         VObj [("positionSize", VQ 0.1);
                               ("portfolioSize", VQ 1)])] |};
       recommendation ← get_prop riskAssessment "recommendation";
       action ← get_prop recommendation "action";
       Ret tt)
  end.

Definition processMarketPredictionTask (agents : SwarmAgents) (now : Z)
    (task : Task) : list Event * outcome unit :=
  let collected := collectMarketData agents now (market task) in
  let analysed := analyzeMarketData agents now collected.2 in
  let built := buildConsensus agents now analysed.2 in
  match built.2 with
  | Throw e => ((collected.1 ++ analysed.1 ++ built.1)%list, Throw e)
  | Ret consensus =>
      match get_prop consensus "hasConsensus" with
      | Throw e => ((collected.1 ++ analysed.1 ++ built.1)%list, Throw e)
      | Ret flag =>
          if truthy flag then
            let executed := executeMarketDecision agents now consensus task in
            ((collected.1 ++ analysed.1 ++ built.1 ++ executed.1)%list, executed.2)
          else
            ((collected.1 ++ analysed.1 ++ built.1)%list, Ret tt)
      end
  end.

(** The task as the collectors and analysts receive it when the
    orchestrator passes it on unchanged. *)
Definition task_js (task : Task) : jsval :=
  VObj [("type", VStr (task_type task));
        ("market", market task);
        ("data", data task)].

(** Each call sits in its own [try]/[catch] that only logs. *)
Definition processDataCollectionTask (agents : SwarmAgents) (now : Z)
    (task : Task) : list Event * outcome unit :=
  (map CollectData (dataCollectors agents), Ret tt).

Definition processAnalysisTask (agents : SwarmAgents) (now : Z)
    (task : Task) : list Event * outcome unit :=
  (map (fun a => AnalyzeData (Analyst.id a)) (analysts agents), Ret tt).

Definition processTask (agents : SwarmAgents) (now : Z) (task : Task)
  : list Event * outcome unit :=
  let r :=
    if String.eqb (task_type task) "market_prediction"
    then processMarketPredictionTask agents now task
    else if String.eqb (task_type task) "data_collection"
    then processDataCollectionTask agents now task
    else if String.eqb (task_type task) "analysis"
    then processAnalysisTask agents now task
    else ([], Ret tt) in
  (r.1, try_catch r.2 (fun _ => Ret tt)).

End Pipeline.

End Orchestrator.

(** ** Notions of the specification

    The quantities that the specification speaks of, stated on the inputs
    and independently of how the code computes them. *)

Module Spec.

Local Open Scope Q_scope.

(** The direction a prediction votes for, if any. *)
Definition vote (p : Deliberation.Prediction) : option Deliberation.Direction :=
  match Deliberation.prediction p with
  | Some body => Deliberation.body_direction body
  | None => None
  end.

(** How many of the predictions vote for [d]. *)
Definition votes (d : Deliberation.Direction) (ps : list Deliberation.Prediction)
  : nat :=
  length (List.filter (fun p => bool_decide (vote p = Some d)) ps).

(** The share of [d] among the [N] predictions: votes for [d] over [N]. *)
Definition vote_share (d : Deliberation.Direction)
    (ps : list Deliberation.Prediction) : num :=
  num_div_count (Fin (inject_Z (Z.of_nat (votes d ps)))) (length ps).

(** [d] is a plurality direction: no direction has more votes. *)
Definition plurality (d : Deliberation.Direction)
    (ps : list Deliberation.Prediction) : Prop :=
  forall d', (votes d' ps <= votes d ps)%nat.

(** A Result as the specification describes it: [agentId], [taskType] and
    [timestamp] are present, [success] is a boolean, and when it is [false]
    the [error] is a string. *)
Definition well_formed_result (r : jsval) : bool :=
  has_field "agentId" r && has_field "taskType" r && has_field "timestamp" r
  && match field "success" r with
     | VBool true => true
     | VBool false =>
         match field "error" r with
         | VStr _ => true
         | _ => false
         end
     | _ => false
     end.

(** The registered agents whose health predicate holds, and their ratio
    over all registered agents. *)
Definition healthy_count (c : Coordinator.State) (now : Z) : nat :=
  size (filter (fun kv : string * Base.Agent => Base.isHealthy kv.2 now = true)
               (Coordinator.agents c)).

Definition health_ratio (c : Coordinator.State) (now : Z) : Q :=
  inject_Z (Z.of_nat (healthy_count c now))
  / inject_Z (Z.of_nat (size (Coordinator.agents c))).

(** The provenance bonus and the recency bonus of an evidence item, the
    latter on its age in milliseconds. *)
Definition source_bonus (source : string) : Q :=
  if decide (source = "onchain") then 0.3
  else if decide (source = "news") then 0.2
  else if decide (source = "social") then 0.1
  else 0.

Definition recency_bonus (age_ms : Z) : Q :=
  if decide (age_ms < 3600000)%Z then 0.2
  else if decide (age_ms < 86400000)%Z then 0.1
  else 0.

Definition evidence_weight (now : Z) (e : Deliberation.Evidence) : Q :=
  Qmin 1 (0.5 + source_bonus (Deliberation.source e)
          + recency_bonus (now - Deliberation.timestamp e)).



(** The last evidence item of a given source, if any. *)
Definition last_of_source (source : string) (items : list Deliberation.Evidence)
  : option Deliberation.Evidence :=
  last (List.filter (fun e => String.eqb (Deliberation.source e) source) items).

End Spec.

(** ** Concrete inputs *)

Module Scenario.

Definition agent_at (id : string) (status : Base.Status) (last : Z) : Base.Agent :=
  {| Base.id := id; Base.type := "technical"; Base.status := status;
     Base.startTime := 0; Base.lastActivityTime := last;
     Base.tasksCompleted := 0; Base.errorCount := 0;
     Base.memory := []; Base.maxMemorySize := 1000 |}.

(** Five registered agents at time 1000; four are active and were last
    active at that time, the fifth is in the [error] state. *)
Definition five_agents : Coordinator.State :=
  {| Coordinator.agents :=
       <["a1" := agent_at "a1" Base.active 1000]>
       (<["a2" := agent_at "a2" Base.active 1000]>
       (<["a3" := agent_at "a3" Base.active 1000]>
       (<["a4" := agent_at "a4" Base.active 1000]>
       (<["a5" := agent_at "a5" Base.error 1000]> ∅))));
     Coordinator.messageQueues := ∅;
     Coordinator.dbManager := None |}.

(** Two on-chain evidence items seen at time 200000000: the first is
    stamped with that time, the second is more than two days old. *)
Definition fresh_onchain : Deliberation.Evidence :=
  {| Deliberation.source := "onchain"; Deliberation.timestamp := 200000000 |}.

Definition stale_onchain : Deliberation.Evidence :=
  {| Deliberation.source := "onchain"; Deliberation.timestamp := 0 |}.

(** An agent holding one entry stamped 5, and an entry to store. *)
Definition earlier_entry : Base.AgentMemory :=
  {| Base.mem_id := "a_0"; Base.mem_timestamp := 5; Base.mem_type := "decision";
     Base.mem_data := VStr "hold"; Base.mem_metadata := None |}.

Definition agent_with (entry : Base.AgentMemory) : Base.Agent :=
  Base.set_memory (Base.new_agent "a" "technical") [entry].

Definition later_input : Base.MemoryInput :=
  {| Base.in_type := "observation"; Base.in_data := VStr "spike";
     Base.in_metadata := None |}.

(** A collector at the default cap of 1000 entries: one entry stored per
    millisecond, then a read of the recent entries, then one more store. *)
Definition observation (t : nat) : Base.MemoryInput :=
  {| Base.in_type := "data_collection";
     Base.in_data := VQ (inject_Z (Z.of_nat t));
     Base.in_metadata := None |}.

Definition store_at (a : Base.Agent) (t : nat) : Base.Agent :=
  Base.storeMemory a (Z.of_nat t) (pretty t) (observation t).

Definition filled : Base.Agent :=
  fold_left store_at (seq 1 1000) (Base.new_agent "twitter-collector" "twitter").

Definition filled_then_read : Base.Agent := (Base.getRecentMemories filled 5).1.

Definition timestamps (a : Base.Agent) : list Z :=
  map Base.mem_timestamp (Base.memory a).

End Scenario.

(** ** BaseAgent: lifecycle, counters and metrics

    The remaining methods of the base agent.  Consecutive readings of the
    clock inside one method are taken as one reading. *)

Module Lifecycle.

Local Open Scope Q_scope.

Definition with_status (self : Base.Agent) (status : Base.Status) (last : Z)
  : Base.Agent :=
  {| Base.id := Base.id self; Base.type := Base.type self;
     Base.status := status; Base.startTime := Base.startTime self;
     Base.lastActivityTime := last;
     Base.tasksCompleted := Base.tasksCompleted self;
     Base.errorCount := Base.errorCount self;
     Base.memory := Base.memory self;
     Base.maxMemorySize := Base.maxMemorySize self |}.

(** The agent's side of [start]: the fields it sets before it registers. *)
Definition started (self : Base.Agent) (now : Z) : Base.Agent :=
  {| Base.id := Base.id self; Base.type := Base.type self;
     Base.status := Base.active; Base.startTime := now;
     Base.lastActivityTime := now;
     Base.tasksCompleted := Base.tasksCompleted self;
     Base.errorCount := Base.errorCount self;
     Base.memory := Base.memory self;
     Base.maxMemorySize := Base.maxMemorySize self |}.

(** The agent's side of [stop]. *)
Definition stopped (self : Base.Agent) : Base.Agent :=
  with_status self Base.inactive (Base.lastActivityTime self).

(** [start]: the agent sets its fields, then registers itself. *)
Definition start (self : Base.Agent) (c : Coordinator.State) (now : Z)
  : Base.Agent * (Coordinator.State * outcome unit) :=
  (started self now, Coordinator.registerAgent c now (started self now)).

(** [stop]: the agent goes inactive, then unregisters its id. *)
Definition stop (self : Base.Agent) (c : Coordinator.State)
  : Base.Agent * (Coordinator.State * outcome unit) :=
  (stopped self, Coordinator.unregisterAgent c (Base.id self)).

Definition updateStatus (self : Base.Agent) (status : Base.Status) (now : Z)
  : Base.Agent :=
  with_status self status now.

Definition recordTaskCompletion (self : Base.Agent) (now : Z) : Base.Agent :=
  {| Base.id := Base.id self; Base.type := Base.type self;
     Base.status := Base.status self; Base.startTime := Base.startTime self;
     Base.lastActivityTime := now;
     Base.tasksCompleted := S (Base.tasksCompleted self);
     Base.errorCount := Base.errorCount self;
     Base.memory := Base.memory self;
     Base.maxMemorySize := Base.maxMemorySize self |}.

(** [recordError], up to the timer it sets. *)
Definition recordError (self : Base.Agent) (now : Z) : Base.Agent :=
  {| Base.id := Base.id self; Base.type := Base.type self;
     Base.status := Base.error; Base.startTime := Base.startTime self;
     Base.lastActivityTime := now;
     Base.tasksCompleted := Base.tasksCompleted self;
     Base.errorCount := S (Base.errorCount self);
     Base.memory := Base.memory self;
     Base.maxMemorySize := Base.maxMemorySize self |}.

(** The callback of the timer set by [recordError], when it fires. *)
Definition recoveryTimer (self : Base.Agent) : Base.Agent :=
  if bool_decide (Base.status self = Base.error)
  then with_status self Base.active (Base.lastActivityTime self)
  else self.

Definition calculatePerformanceScore (self : Base.Agent) (now : Z) : Q :=
  let uptime := inject_Z (now - Base.startTime self) in
  let errorRate :=
    inject_Z (Z.of_nat (Base.errorCount self))
    / Qmax (inject_Z (Z.of_nat (Base.tasksCompleted self))) 1 in
  let activityScore :=
    inject_Z (Z.of_nat (Base.tasksCompleted self))
    / Qmax (uptime / 3600000) 1 in
  let baseScore := Qmin 100 (activityScore * 10) in
  let errorPenalty := errorRate * 50 in
  Qmax 0 (baseScore - errorPenalty).

Record AgentMetrics : Type := {
  metrics_id : string;
  metrics_type : string;
  metrics_status : Base.Status;
  uptime : Z;
  metrics_tasksCompleted : nat;
  metrics_lastActivityTime : Z;
  performanceScore : Q;
  metrics_errorCount : nat
}.

Definition getMetrics (self : Base.Agent) (now : Z) : AgentMetrics :=
  {| metrics_id := Base.id self;
     metrics_type := Base.type self;
     metrics_status := Base.status self;
     uptime := if (0 <? Base.startTime self)%Z
               then (now - Base.startTime self)%Z else 0%Z;
     metrics_tasksCompleted := Base.tasksCompleted self;
     metrics_lastActivityTime := Base.lastActivityTime self;
     performanceScore := calculatePerformanceScore self now;
     metrics_errorCount := Base.errorCount self |}.

(** What can happen to an agent object: a call of one of its methods, or
    the recovery timer firing. *)
Inductive Op : Type :=
| Start (now : Z)
| Stop
| UpdateStatus (status : Base.Status) (now : Z)
| RecordTaskCompletion (now : Z)
| RecordError (now : Z)
| RecoveryTimer
| StoreMemory (now : Z) (stamp : string) (input : Base.MemoryInput)
| GetMemoriesByType (type : string) (limit : nat)
| GetRecentMemories (limit : nat)
| HandleMessage (now : Z).

Definition step (self : Base.Agent) (op : Op) : Base.Agent :=
  match op with
  | Start now => started self now
  | Stop => stopped self
  | UpdateStatus status now => updateStatus self status now
  | RecordTaskCompletion now => recordTaskCompletion self now
  | RecordError now => recordError self now
  | RecoveryTimer => recoveryTimer self
  | StoreMemory now stamp input => Base.storeMemory self now stamp input
  | GetMemoriesByType _ _ => self
  | GetRecentMemories limit => (Base.getRecentMemories self limit).1
  | HandleMessage now => Base.handleMessage self now
  end.

Definition run (self : Base.Agent) (ops : list Op) : Base.Agent :=
  fold_left step ops self.

Definition is_RecordError (op : Op) : bool :=
  match op with
  | RecordError _ => true
  | _ => false
  end.

Definition is_RecordTaskCompletion (op : Op) : bool :=
  match op with
  | RecordTaskCompletion _ => true
  | _ => false
  end.

End Lifecycle.

(** ** SwarmOrchestrator: the task queue *)

Module TaskQueue.

(** [addTask]: [this.taskQueue.push(task)]. *)
Definition addTask (taskQueue : list Orchestrator.Task) (task : Orchestrator.Task)
  : list Orchestrator.Task :=
  (taskQueue ++ [task])%list.

(** One tick of the processing interval: if the queue is not empty, the
    first task is shifted out; it is the task then handed to [processTask]. *)
Definition tick (taskQueue : list Orchestrator.Task)
  : list Orchestrator.Task * option Orchestrator.Task :=
  match taskQueue with
  | [] => ([], None)
  | task :: rest => (rest, Some task)
  end.

Inductive Op : Type :=
| AddTask (task : Orchestrator.Task)
| Tick.

(** The queue and the tasks handed to [processTask] so far, in order. *)
Definition step (s : list Orchestrator.Task * list Orchestrator.Task) (op : Op)
  : list Orchestrator.Task * list Orchestrator.Task :=
  match op with
  | AddTask task => (addTask s.1 task, s.2)
  | Tick =>
      match (tick s.1).2 with
      | Some task => ((tick s.1).1, (s.2 ++ [task])%list)
      | None => ((tick s.1).1, s.2)
      end
  end.

Definition run (ops : list Op) : list Orchestrator.Task * list Orchestrator.Task :=
  fold_left step ops ([], []).

Definition added (ops : list Op) : list Orchestrator.Task :=
  omap (fun op => match op with AddTask task => Some task | Tick => None end) ops.

Definition ticks (ops : list Op) : nat :=
  length (List.filter (fun op => match op with Tick => true | _ => false end) ops).

End TaskQueue.

(** ** AnalystAgent: the numeric routines

    The routines behind the four analyses, on collected data whose
    properties are typed: an absent property is [None], a price point is the
    [price] it carries, if any. *)

Module Indicators.

Local Open Scope Q_scope.

Record Datum : Type := {
  d_type : option string;
  sentiment : option Q;
  value : option Q;
  expected : option Q
}.

(** ToBoolean of a possibly absent finite number. *)
Definition truthy_num (o : option Q) : bool :=
  match o with
  | Some q => negb (Qeq_bool q 0)
  | None => false
  end.

(** [d.type === t] *)
Definition has_type (t : string) (d : Datum) : bool :=
  bool_decide (d_type d = Some t).

(** *** Fundamental analysis *)

Definition news_step (score : Q) (item : Datum) : Q :=
  match sentiment item with
  | Some s =>
      if negb (Qeq_bool s 0)
      then score + (if Qltb 0 s then 0.1 else - 0.1)
      else score
  | None => score
  end.

Definition economic_step (score : Q) (item : Datum) : Q :=
  match value item, expected item with
  | Some v, Some e =>
      if negb (Qeq_bool v 0) && negb (Qeq_bool e 0)
      then score + (v - e) / e * 0.05
      else score
  | _, _ => score
  end.

Definition calculateFundamentalScore (newsData economicData : list Datum) : Q :=
  let score := fold_left news_step newsData 0.5 in
  let score := fold_left economic_step economicData score in
  Qmax 0 (Qmin 1 score).

Definition generateFundamentalSignals (newsData economicData : list Datum)
  : list string :=
  let signals := if (5 <? length newsData)%nat
                 then ["High news activity detected"] else [] in
  let signals := if (0 <? length economicData)%nat
                 then (signals ++ ["Economic data available for analysis"])%list
                 else signals in
  if (0 <? length signals)%nat then signals else ["Limited fundamental data"].

Record FundamentalAnalysis : Type := {
  fa_score : Q;
  fa_signals : list string;
  fa_confidence : Q;
  newsCount : nat;
  economicIndicators : nat;
  overallSentiment : string
}.

Definition performFundamentalAnalysis (data : list Datum) : FundamentalAnalysis :=
  let newsData := List.filter (has_type "news") data in
  let economicData := List.filter (has_type "economic") data in
  let fundamentalScore := calculateFundamentalScore newsData economicData in
  {| fa_score := fundamentalScore;
     fa_signals := generateFundamentalSignals newsData economicData;
     fa_confidence := Qmin (inject_Z (Z.of_nat (length newsData)) / 10) 1;
     newsCount := length newsData;
     economicIndicators := length economicData;
     overallSentiment := if Qltb 0.5 fundamentalScore then "positive" else "negative" |}.

(** *** Sentiment analysis *)

Definition sentiment_step (acc : Q * nat) (item : Datum) : Q * nat :=
  match sentiment item with
  | Some s => (acc.1 + s, S acc.2)
  | None => acc
  end.

Definition calculateSentimentScore (socialData newsData : list Datum) : Q :=
  let acc := fold_left sentiment_step (socialData ++ newsData)%list (0, O) in
  if (0 <? acc.2)%nat
  then (acc.1 / inject_Z (Z.of_nat acc.2) + 1) / 2
  else 0.5.

Definition generateSentimentSignals (score : Q) : list string :=
  if Qltb 0.7 score then ["Very positive sentiment detected"]
  else if Qltb 0.6 score then ["Positive sentiment trend"]
  else if Qltb score 0.3 then ["Very negative sentiment detected"]
  else if Qltb score 0.4 then ["Negative sentiment trend"]
  else ["Neutral sentiment"].

Record SentimentAnalysis : Type := {
  sa_sentiment : string;
  sa_score : Q;
  sa_confidence : Q;
  sa_signals : list string;
  sa_sources : option (nat * nat)
}.

Definition is_social (d : Datum) : bool :=
  has_type "social" d || has_type "twitter" d || has_type "reddit" d.

Definition performSentimentAnalysis (data : list Datum) : SentimentAnalysis :=
  let socialData := List.filter is_social data in
  let newsData := List.filter (has_type "news") data in
  if ((length socialData =? 0) && (length newsData =? 0))%nat then
    {| sa_sentiment := "neutral"; sa_score := 0.5; sa_confidence := 0.1;
       sa_signals := ["No sentiment data available"]; sa_sources := None |}
  else
    let sentimentScore := calculateSentimentScore socialData newsData in
    {| sa_sentiment :=
         if Qltb 0.6 sentimentScore then "bullish"
         else if Qltb sentimentScore 0.4 then "bearish"
         else "neutral";
       sa_score := sentimentScore;
       sa_confidence :=
         Qmin (inject_Z (Z.of_nat (length socialData + length newsData)) / 20) 1;
       sa_signals := generateSentimentSignals sentimentScore;
       sa_sources := Some (length socialData, length newsData) |}.

(** *** Correlation analysis *)

Record Correlations : Type := {
  priceVolume : Q;
  priceSocial : Q;
  volumeSocial : Q
}.

Definition calculateCorrelations (priceData volumeData socialData : list Datum)
  : Correlations :=
  {| priceVolume :=
       if ((0 <? length priceData) && (0 <? length volumeData))%nat then 0.6 else 0;
     priceSocial :=
       if ((0 <? length priceData) && (0 <? length socialData))%nat then 0.4 else 0;
     volumeSocial :=
       if ((0 <? length volumeData) && (0 <? length socialData))%nat then 0.3 else 0 |}.

Definition generateCorrelationSignals (correlations : Correlations) : list string :=
  let signals := if Qltb 0.5 (priceVolume correlations)
                 then ["Strong price-volume correlation"] else [] in
  let signals := if Qltb 0.5 (priceSocial correlations)
                 then (signals ++ ["Social sentiment correlates with price"])%list
                 else signals in
  if (0 <? length signals)%nat then signals else ["Weak correlations detected"].

Record CorrelationAnalysis : Type := {
  ca_correlations : Correlations;
  ca_signals : list string;
  ca_confidence : Q
}.

Definition performCorrelationAnalysis (data : list Datum) : CorrelationAnalysis :=
  let priceData := List.filter (has_type "price") data in
  let volumeData := List.filter (has_type "volume") data in
  let socialData := List.filter (has_type "social") data in
  let correlations := calculateCorrelations priceData volumeData socialData in
  {| ca_correlations := correlations;
     ca_signals := generateCorrelationSignals correlations;
     ca_confidence := Qmin (inject_Z (Z.of_nat (length priceData)) / 10) 1 |}.

(** *** Technical indicators

    A series of price points is the list of their [price] properties;
    [prices[i]?.price || 0] reads an absent or zero price as 0. *)

Definition price_at (p : option Q) : Q := or_default p 0.

(** The loop of [calculateRSI] from index 1 on: [prev] is the price at the
    index before, the accumulator holds [gains] and [losses]. *)
Fixpoint rsi_loop (prev : Q) (rest : list (option Q)) (acc : Q * Q) : Q * Q :=
  match rest with
  | [] => acc
  | p :: rest' =>
      let change := price_at p - prev in
      rsi_loop (price_at p) rest'
        (if Qltb 0 change then (acc.1 + change, acc.2)
         else (acc.1, acc.2 + Qabs change))
  end.

Definition calculateRSI (prices : list (option Q)) : Q :=
  match prices with
  | p0 :: (_ :: _) as rest =>
      let acc := rsi_loop (price_at p0) rest (0, 0) in
      let avgGain := acc.1 / inject_Z (Z.of_nat (length prices)) in
      let avgLoss := acc.2 / inject_Z (Z.of_nat (length prices)) in
      if Qeq_bool avgLoss 0 then 100
      else 100 - 100 / (1 + avgGain / avgLoss)
  | _ => 50
  end.

(** [ema = price * multiplier + ema * (1 - multiplier)] *)
Definition ema_step (multiplier : Q) (ema : Q) (p : option Q) : Q :=
  price_at p * multiplier + ema * (1 - multiplier).

(** The loop runs over the indices from 1 below [min(length, period)]. *)
Definition calculateEMA (prices : list (option Q)) (period : nat) : Q :=
  match prices with
  | [] => 0
  | p0 :: _ =>
      let multiplier := 2 / (inject_Z (Z.of_nat period) + 1) in
      fold_left (ema_step multiplier) (tail (take period prices)) (price_at p0)
  end.

Record MACD : Type := {
  macd : Q;
  signal : Q;
  histogram : Q
}.

Definition calculateMACD (prices : list (option Q)) : MACD :=
  if (length prices <? 12)%nat then {| macd := 0; signal := 0; histogram := 0 |}
  else
    let ema12 := calculateEMA prices 12 in
    let ema26 := calculateEMA prices 26 in
    {| macd := ema12 - ema26;
       signal := (ema12 - ema26) * 0.9;
       histogram := (ema12 - ema26) * 0.1 |}.

End Indicators.

(** ** DatabaseManager: the in-memory store behind the coordinator

    The methods that the coordinator calls ([storeAgentRegistration],
    [updateAgentStatus], [storeAgentMemory], [getAgentMemories],
    [storeMessage], [getMessages], [close]); they work on maps and arrays
    held by the manager and refuse to work while it is not connected. *)

Module Gateway.

(** [agentInfo] as the coordinator writes it, with the two stamps added by
    the store. *)
Record AgentRecord : Type := {
  rec_agentId : string;
  rec_type : string;
  rec_timestamp : Z;
  rec_status : string;
  createdAt : Z;
  lastUpdated : Z
}.

Record StoredMemory : Type := {
  stored_memory : Base.AgentMemory;
  memory_storedAt : Z
}.

Record StoredMessage : Type := {
  stored_message : Coordinator.AgentMessage;
  message_storedAt : Z
}.

Record State : Type := {
  connected : bool;
  agentData : gmap string AgentRecord;
  memoryData : gmap string (list StoredMemory);
  messageData : list StoredMessage
}.

(** The manager right after construction. *)
Definition initial : State :=
  {| connected := false; agentData := ∅; memoryData := ∅; messageData := [] |}.

Definition not_connected {A} : outcome A :=
  Throw (ErrorObj "Database not connected").

Definition storeAgentRegistration (db : State) (now : Z)
    (agentId type : string) (timestamp : Z) (status : string)
  : State * outcome unit :=
  if connected db then
    ({| connected := connected db;
        agentData :=
          <[agentId := {| rec_agentId := agentId; rec_type := type;
                          rec_timestamp := timestamp; rec_status := status;
                          createdAt := now; lastUpdated := now |}]> (agentData db);
        memoryData := memoryData db;
        messageData := messageData db |}, Ret tt)
  else (db, not_connected).

Definition updateAgentStatus (db : State) (now : Z) (agentId status : string)
  : State * outcome unit :=
  if connected db then
    match agentData db !! agentId with
    | Some existingData =>
        ({| connected := connected db;
            agentData :=
              <[agentId := {| rec_agentId := rec_agentId existingData;
                              rec_type := rec_type existingData;
                              rec_timestamp := rec_timestamp existingData;
                              rec_status := status;
                              createdAt := createdAt existingData;
                              lastUpdated := now |}]> (agentData db);
            memoryData := memoryData db;
            messageData := messageData db |}, Ret tt)
    | None => (db, Ret tt)
    end
  else (db, not_connected).

(** [if (memories.length > 100) memories.splice(0, memories.length - 100)] *)
Definition keep_last_100 {A} (memories : list A) : list A :=
  if (100 <? length memories)%nat
  then drop (length memories - 100) memories
  else memories.

Definition storeAgentMemory (db : State) (now : Z) (agentId : string)
    (memory : Base.AgentMemory) : State * outcome unit :=
  if connected db then
    let memories := default [] (memoryData db !! agentId) in
    let pushed :=
      (memories ++ [{| stored_memory := memory; memory_storedAt := now |}])%list in
    ({| connected := connected db;
        agentData := agentData db;
        memoryData := <[agentId := keep_last_100 pushed]> (memoryData db);
        messageData := messageData db |}, Ret tt)
  else (db, not_connected).

(** [sort((a, b) => b.timestamp - a.timestamp)] on a copy: the stable sort,
    newest first, for any array whose elements carry a timestamp. *)
Fixpoint insert_desc {A} (timestamp : A -> Z) (x : A) (sorted : list A) : list A :=
  match sorted with
  | [] => [x]
  | y :: rest =>
      if (timestamp x <? timestamp y)%Z
      then y :: insert_desc timestamp x rest
      else x :: y :: rest
  end.

Definition sort_desc {A} (timestamp : A -> Z) (l : list A) : list A :=
  foldr (insert_desc timestamp) [] l.

Definition memory_timestamp (m : StoredMemory) : Z :=
  Base.mem_timestamp (stored_memory m).

Definition message_timestamp (m : StoredMessage) : Z :=
  Coordinator.msg_timestamp (stored_message m).

Definition getAgentMemories (db : State) (agentId : string) (limit : nat)
  : outcome (list StoredMemory) :=
  if connected db then
    Ret (sort_desc memory_timestamp
           (Base.slice_last limit (default [] (memoryData db !! agentId))))
  else not_connected.

Definition storeMessage (db : State) (now : Z) (message : Coordinator.AgentMessage)
  : State * outcome unit :=
  if connected db then
    let pushed :=
      (messageData db ++ [{| stored_message := message; message_storedAt := now |}])%list in
    ({| connected := connected db;
        agentData := agentData db;
        memoryData := memoryData db;
        messageData :=
          if (1000 <? length pushed)%nat
          then Base.slice_last 1000 pushed else pushed |}, Ret tt)
  else (db, not_connected).

(** [msg.fromAgentId === agentId || msg.toAgentId === agentId] *)
Definition involves (agentId : string) (m : StoredMessage) : bool :=
  String.eqb (Coordinator.fromAgentId (stored_message m)) agentId
  || String.eqb (Coordinator.toAgentId (stored_message m)) agentId.

(** [getMessages(agentId?, limit)]: an absent or empty [agentId] is falsy
    and selects every message. *)
Definition getMessages (db : State) (agentId : option string) (limit : nat)
  : outcome (list StoredMessage) :=
  if connected db then
    let messages :=
      match agentId with
      | Some a =>
          if String.eqb a "" then messageData db
          else List.filter (involves a) (messageData db)
      | None => messageData db
      end in
    Ret (sort_desc message_timestamp (Base.slice_last limit messages))
  else not_connected.

Definition close (db : State) : State :=
  if connected db
  then {| connected := false; agentData := ∅; memoryData := ∅; messageData := [] |}
  else db.

End Gateway.

(** ** AgentCoordinator: histories of calls

    The coordinator after a sequence of [registerAgent], [unregisterAgent]
    and [sendMessage] calls.  A call that throws (a persistence gateway that
    is not connected, a message that is [undefined]) leaves the coordinator
    in the state it had reached when it threw. *)

Module Registry.

Inductive Op : Type :=
| RegisterAgent (now : Z) (agent : Base.Agent)
| UnregisterAgent (agentId : string)
| SendMessage (now : Z) (stamp fromAgentId toAgentId : string) (message : jsval).

Definition step (c : Coordinator.State) (op : Op) : Coordinator.State :=
  match op with
  | RegisterAgent now agent => (Coordinator.registerAgent c now agent).1
  | UnregisterAgent agentId => (Coordinator.unregisterAgent c agentId).1
  | SendMessage now stamp fromAgentId toAgentId message =>
      (Coordinator.sendMessage c now stamp fromAgentId toAgentId message).1
  end.

Definition run (c : Coordinator.State) (ops : list Op) : Coordinator.State :=
  fold_left step ops c.

(** [new AgentCoordinator(dbManager)] *)
Definition new_coordinator (dbManager : option Coordinator.Db) : Coordinator.State :=
  {| Coordinator.agents := ∅; Coordinator.messageQueues := ∅;
     Coordinator.dbManager := dbManager |}.

End Registry.

(** ** Further notions and concrete inputs *)

Module Notions.

Local Open Scope Q_scope.

(** A prediction carries a [prediction] body. *)
Definition has_body (p : Deliberation.Prediction) : Prop :=
  is_Some (Deliberation.prediction p).

(** A prediction carries a body with the given direction (possibly none). *)
Definition points_to (d : option Deliberation.Direction)
    (p : Deliberation.Prediction) : Prop :=
  exists body, Deliberation.prediction p = Some body
               /\ Deliberation.body_direction body = d.

(** A prediction carries a confidence within [0,1]. *)
Definition confident (p : Deliberation.Prediction) : Prop :=
  exists c, Deliberation.confidence p = Some c /\ 0 <= c /\ c <= 1.

(** The severity of a conflict is a finite number within [0,1]. *)
Definition unit_severity (c : Deliberation.Conflict) : Prop :=
  exists q, Deliberation.severity c = Fin q /\ 0 <= q /\ q <= 1.

(** The registry and the mailboxes hold the same ids, and every agent is
    registered under its own id. *)
Definition consistent (c : Coordinator.State) : Prop :=
  (forall id : string,
      is_Some (Coordinator.agents c !! id)
      <-> is_Some (Coordinator.messageQueues c !! id))
  /\ (forall (id : string) (a : Base.Agent),
        Coordinator.agents c !! id = Some a -> Base.id a = id).

(** Every registered agent is healthy. *)
Definition all_healthy (c : Coordinator.State) (now : Z) : Prop :=
  forall (id : string) (a : Base.Agent),
    Coordinator.agents c !! id = Some a -> Base.isHealthy a now = true.

(** A price series, read as the code reads it, that never falls after the
    price [prev]. *)
Fixpoint never_falls (prev : Q) (rest : list (option Q)) : Prop :=
  match rest with
  | [] => True
  | p :: rest' =>
      (prev <= Indicators.price_at p)%Q /\ never_falls (Indicators.price_at p) rest'
  end.


(** A datum that cannot move the fundamental score: as a news item it has
    no sentiment or the sentiment 0, as an economic item it lacks a non-zero
    [value] or a non-zero [expected]. *)
Definition uninformative (d : Indicators.Datum) : Prop :=
  (Indicators.has_type "news" d = true ->
   Indicators.truthy_num (Indicators.sentiment d) = false)
  /\ (Indicators.has_type "economic" d = true ->
      Indicators.truthy_num (Indicators.value d)
      && Indicators.truthy_num (Indicators.expected d) = false).

(** A datum whose sentiment, if it has one, lies within [-1,1]. *)
Definition unit_sentiment (d : Indicators.Datum) : Prop :=
  match Indicators.sentiment d with
  | Some s => - (1) <= s /\ s <= 1
  | None => True
  end.

(** Newest first. *)
Definition newest_first {A} (timestamp : A -> Z) (l : list A) : Prop :=
  StronglySorted (fun a b => (timestamp b <= timestamp a)%Z) l.

End Notions.

Module Cases.

Local Open Scope Q_scope.

Definition pred (name : string) (d : Deliberation.Direction) (c : Q)
  : Deliberation.Prediction :=
  {| Deliberation.agentId := Some name;
     Deliberation.prediction :=
       Some {| Deliberation.body_direction := Some d;
               Deliberation.body_strength := None |};
     Deliberation.confidence := Some c |}.

Definition two_bullish : list Deliberation.Prediction :=
  [pred "a1" Deliberation.bullish 0.9; pred "a2" Deliberation.bullish 0.7].

Definition split_vote : list Deliberation.Prediction :=
  [pred "a1" Deliberation.bullish 0.9; pred "a2" Deliberation.bearish 0.6].

(** An agent that holds one entry, and two stores at times 6 and 7. *)
Definition two_stores : list (Z * string * Base.MemoryInput) :=
  [(6%Z, "1", Scenario.later_input); (7%Z, "2", Scenario.later_input)].

(** A coordinator without a persistence gateway and with nothing
    registered. *)
Definition empty_coordinator : Coordinator.State :=
  {| Coordinator.agents := ∅; Coordinator.messageQueues := ∅;
     Coordinator.dbManager := None |}.

(** Three registered agents at time 1000, one of them inactive. *)
Definition three_agents : Coordinator.State :=
  {| Coordinator.agents :=
       <["a1" := Scenario.agent_at "a1" Base.active 1000]>
       (<["a2" := Scenario.agent_at "a2" Base.active 1000]>
       (<["a3" := Scenario.agent_at "a3" Base.inactive 1000]> ∅));
     Coordinator.messageQueues := ∅;
     Coordinator.dbManager := None |}.

(** A news item with a sentiment and a tweet without one. *)
Definition mixed_feed : list Indicators.Datum :=
  [{| Indicators.d_type := Some "news"; Indicators.sentiment := Some 0.5;
      Indicators.value := None; Indicators.expected := None |};
   {| Indicators.d_type := Some "twitter"; Indicators.sentiment := None;
      Indicators.value := None; Indicators.expected := None |}].


End Cases.

(** * Properties *)

(** ** Numbers *)

Lemma Qltb_lt (x y : Q) : JS.Qltb x y = true <-> (x < y)%Q.
Proof.
  unfold JS.Qltb. rewrite negb_true_iff.
  split.
  - intros H. apply Qnot_le_lt. intros Hle.
    apply Qle_bool_iff in Hle. congruence.
  - intros H. destruct (Qle_bool y x) eqn:E; [|reflexivity].
    apply Qle_bool_iff in E. exfalso. eapply Qlt_not_le; eauto.
Qed.

Lemma Qltb_false (x y : Q) : JS.Qltb x y = false <-> (y <= x)%Q.
Proof.
  unfold JS.Qltb. rewrite negb_false_iff. apply Qle_bool_iff.
Qed.

Lemma num_geb_ge (a b : num) : num_geb a b = true <-> num_ge a b.
Proof.
  destruct a, b; simpl; try apply Qle_bool_iff;
    split; intros; try discriminate; try contradiction; auto.
Qed.

(** ** Consensus *)

Section ConsensusFacts.

Import Deliberation Spec.

Lemma votes_cons (d : Direction) (p : Prediction) (ps : list Prediction) :
  votes d (p :: ps) =
  ((if bool_decide (vote p = Some d) then 1 else 0) + votes d ps)%nat.
Proof.
  unfold votes. simpl. destruct (bool_decide (vote p = Some d)); reflexivity.
Qed.

Lemma count_of_bump (ds : Directions) (d d' : Direction) :
  count_of (bump ds d) d' =
  ((if bool_decide (Some d = Some d') then 1 else 0) + count_of ds d')%nat.
Proof. destruct d, d'; reflexivity. Qed.

Lemma tally_counts (ps : list Prediction) :
  forall (acc : Directions * list Q * list Q) (d : Direction),
    count_of (fold_left tally ps acc).1.1 d
    = (count_of acc.1.1 d + votes d ps)%nat.
Proof.
  induction ps as [|p ps IH]; intros [[ds ss] cs] d.
  - simpl. unfold votes. simpl. lia.
  - simpl fold_left. rewrite IH, votes_cons.
    unfold tally, vote.
    destruct (prediction p) as [body|]; simpl; [|lia].
    destruct (body_direction body) as [d0|]; simpl; [|lia].
    rewrite count_of_bump. lia.
Qed.

Lemma analyzePredictions_counts (ps : list Prediction) (d : Direction) :
  count_of (directions (analyzePredictions ps)) d = votes d ps.
Proof.
  unfold analyzePredictions. simpl. rewrite tally_counts.
  destruct d; reflexivity.
Qed.

Lemma dominantDirection_max (ds : Directions) :
  (dominantDirection ds).2 = count_of ds (dominantDirection ds).1
  /\ forall d, (count_of ds d <= count_of ds (dominantDirection ds).1)%nat.
Proof.
  destruct ds as [b e n]. unfold dominantDirection, pick.
  cbn [fold_left fst snd count_of n_bullish n_bearish n_neutral].
  destruct (Nat.ltb_spec e b);
    cbn [fst snd count_of n_bullish n_bearish n_neutral];
    match goal with
    | |- context [Nat.ltb ?x ?y] => destruct (Nat.ltb_spec x y)
    end;
    cbn [fst snd count_of n_bullish n_bearish n_neutral];
    (split; [reflexivity | intros []; cbn [count_of n_bullish n_bearish n_neutral]; lia]).
Qed.

End ConsensusFacts.

(** C1.  The consensus calculation over any list of predictions and any
    threshold: the direction it returns is a plurality direction, the
    strength it returns is that direction's vote share (its votes over the
    number of predictions; [NaN] when there are none), and [hasConsensus]
    holds exactly when that share is at least the threshold.  For
    {bullish, bullish, bearish} at threshold 0.8 the record is
    [hasConsensus = false], [direction = bullish], [strength = 2/3]. *)
Theorem consensus_is_plurality_share :
  (forall (ps : list Deliberation.Prediction) (T : Q),
      Spec.plurality
        (Deliberation.direction
           (Deliberation.calculateConsensus (Deliberation.analyzePredictions ps) T)) ps
      /\ Deliberation.strength
           (Deliberation.calculateConsensus (Deliberation.analyzePredictions ps) T)
         = Spec.vote_share
             (Deliberation.direction
                (Deliberation.calculateConsensus (Deliberation.analyzePredictions ps) T)) ps
      /\ (Deliberation.hasConsensus
            (Deliberation.calculateConsensus (Deliberation.analyzePredictions ps) T) = true
          <-> num_ge
                (Spec.vote_share
                   (Deliberation.direction
                      (Deliberation.calculateConsensus (Deliberation.analyzePredictions ps) T)) ps)
                (Fin T)))
  /\ (forall (p : Deliberation.Prediction) (ps : list Deliberation.Prediction) (T : Q),
        Deliberation.strength
          (Deliberation.calculateConsensus
             (Deliberation.analyzePredictions (p :: ps)) T)
        = Fin (inject_Z
                 (Z.of_nat
                    (Spec.votes
                       (Deliberation.direction
                          (Deliberation.calculateConsensus
                             (Deliberation.analyzePredictions (p :: ps)) T))
                       (p :: ps)))
               / inject_Z (Z.of_nat (length (p :: ps)))))
  /\ (forall (a1 a2 a3 : option string),
        Deliberation.hasConsensus
          (Deliberation.calculateConsensus
             (Deliberation.analyzePredictions (Deliberation.scenario_A a1 a2 a3)) 0.8) = false
        /\ Deliberation.direction
             (Deliberation.calculateConsensus
                (Deliberation.analyzePredictions (Deliberation.scenario_A a1 a2 a3)) 0.8)
           = Deliberation.bullish
        /\ num_eq
             (Deliberation.strength
                (Deliberation.calculateConsensus
                   (Deliberation.analyzePredictions (Deliberation.scenario_A a1 a2 a3)) 0.8))
             (Fin (2 # 3))).
Proof.
  assert (Hshare : forall (ps : list Deliberation.Prediction) (T : Q),
      Deliberation.strength
        (Deliberation.calculateConsensus (Deliberation.analyzePredictions ps) T)
      = Spec.vote_share
          (Deliberation.direction
             (Deliberation.calculateConsensus (Deliberation.analyzePredictions ps) T)) ps).
  { intros ps T.
    pose proof (dominantDirection_max
                  (Deliberation.directions (Deliberation.analyzePredictions ps)))
      as [Hcount _].
    unfold Deliberation.calculateConsensus, Spec.vote_share.
    cbn [Deliberation.strength Deliberation.direction].
    rewrite Hcount, analyzePredictions_counts. reflexivity. }
  split; [|split].
  - intros ps T.
    pose proof (dominantDirection_max
                  (Deliberation.directions (Deliberation.analyzePredictions ps)))
      as [_ Hmax].
    specialize (Hshare ps T).
    split; [|split].
    + intros d'. cbn [Deliberation.calculateConsensus Deliberation.direction].
      rewrite <- !analyzePredictions_counts. apply Hmax.
    + exact Hshare.
    + rewrite <- Hshare. cbn [Deliberation.calculateConsensus Deliberation.hasConsensus Deliberation.strength].
      apply num_geb_ge.
  - intros p ps T. rewrite Hshare. reflexivity.
  - intros a1 a2 a3. repeat split.
Qed.

(** ** The deliberation entry point *)

(** Handed a task with [data], the facilitator does report the consensus
    computed from [data.predictions] at [data.threshold || 0.8]. *)
Lemma facilitateConsensus_with_data (self : Deliberation.Agent) (now : Z)
    (task : Deliberation.DelibArg) (data : Deliberation.DelibData)
    (ps : list Deliberation.Prediction) :
  Deliberation.arg_data task = Some data ->
  Deliberation.data_predictions data = Some ps ->
  exists r,
    Deliberation.facilitateConsensus self now task = Ret r
    /\ field "consensus" r
       = Deliberation.consensus_js
           (Deliberation.calculateConsensus (Deliberation.analyzePredictions ps)
              (or_default (Deliberation.data_threshold data) 0.8)).
Proof.
  intros Hdata Hps. unfold Deliberation.facilitateConsensus.
  rewrite Hdata. simpl. rewrite Hps. simpl.
  eexists. split; reflexivity.
Qed.

(** [deliberate] never gets past the first statement of its callee: the
    argument it builds has no [data]. *)
Lemma deliberate_throws (self : Deliberation.Agent) (now : Z)
    (ps : list Deliberation.Prediction) (T : Q) :
  exists e, Deliberation.deliberate self now ps T = Throw e.
Proof.
  unfold Deliberation.deliberate.
  destruct (String.eqb _ "facilitator"); [eexists; reflexivity|].
  destruct (String.eqb _ "resolver"); eexists; reflexivity.
Qed.

(** C2.  What the code does on a 'deliberate' task.  For a facilitator,
    whatever the proposals and the threshold, [processTask] returns the
    failure Result: [success] is [false], there is no [result], hence no
    consensus record with [hasConsensus], [direction] and [strength]; the
    error is the engine's complaint that [task.data] is undefined.  This is
    so in particular for scenario A at threshold 0.8. *)
Theorem deliberate_task_yields_no_consensus :
  (forall (name : string) (now : Z)
          (ps : option (list Deliberation.Prediction)) (T : option Q)
          (dispute : option Deliberation.DelibArg) (data : jsval),
      exists r,
        Deliberation.processTask
          {| Deliberation.id := name; Deliberation.deliberationType := "facilitator" |}
          now
          {| Deliberation.task_type := "deliberate";
             Deliberation.proposals := ps;
             Deliberation.consensus_threshold := T;
             Deliberation.dispute := dispute;
             Deliberation.data := data |}
        = Ret r
        /\ field "success" r = VBool false
        /\ field "result" r = VUndef
        /\ field "error" r
           = VStr "Cannot destructure property 'predictions' of 'task.data' as it is undefined.")
  /\ Deliberation.processTask
       {| Deliberation.id := "consensus-facilitator";
          Deliberation.deliberationType := "facilitator" |}
       1000
       {| Deliberation.task_type := "deliberate";
          Deliberation.proposals :=
            Some (Deliberation.scenario_A (Some "a1") (Some "a2") (Some "a3"));
          Deliberation.consensus_threshold := Some 0.8%Q;
          Deliberation.dispute := None;
          Deliberation.data := VUndef |}
     = Ret (VObj [("agentId", VStr "consensus-facilitator");
                  ("taskType", VStr "deliberate");
                  ("timestamp", VTime 1000);
                  ("success", VBool false);
                  ("error",
                   VStr "Cannot destructure property 'predictions' of 'task.data' as it is undefined.")]).
Proof.
  split.
  - intros. eexists. split; [reflexivity|]. repeat split.
  - reflexivity.
Qed.

(** ** Results of [processTask] *)

Lemma failure_well_formed_execution (self : Execution.Agent) (now : Z)
    (task : Execution.Task) (msg : string) :
  Spec.well_formed_result (Execution.failure self now task msg) = true.
Proof. reflexivity. Qed.

Lemma failure_well_formed_deliberation (self : Deliberation.Agent) (now : Z)
    (task : Deliberation.Task) (msg : string) :
  Spec.well_formed_result (Deliberation.failure self now task msg) = true.
Proof. reflexivity. Qed.

Lemma failure_well_formed_analyst (self : Analyst.Agent) (now : Z)
    (task : Analyst.Task) (msg : string) :
  Spec.well_formed_result (Analyst.failure self now task msg) = true.
Proof. reflexivity. Qed.

(** A body that returns a well-formed Result or throws, wrapped in the
    [catch] that builds the failure Result, returns a well-formed Result. *)
Lemma try_catch_well_formed (body : outcome jsval) (fail : string -> jsval) :
  (forall msg, Spec.well_formed_result (fail msg) = true) ->
  (forall r, body = Ret r -> Spec.well_formed_result r = true) ->
  exists r,
    try_catch body (fun error => Ret (fail (error_message error))) = Ret r
    /\ Spec.well_formed_result r = true.
Proof.
  intros Hfail Hbody. destruct body as [r|e]; simpl; eauto.
Qed.

Ltac case_task_type :=
  repeat match goal with
         | |- context [if String.eqb ?a ?b then _ else _] =>
             destruct (String.eqb a b)
         | H : context [if String.eqb ?a ?b then _ else _] |- _ =>
             destruct (String.eqb a b)
         end.

Ltac bind_result H :=
  match type of H with
  | (mbind _ ?m = Ret _) =>
      let E := fresh "E" in destruct m eqn:E; simpl in H; [|discriminate]
  | (?m ≫= _ = Ret _) =>
      let E := fresh "E" in destruct m eqn:E; simpl in H; [|discriminate]
  end.

(** C5.  [processTask] of the Executor, of the Analyst (whatever its four
    analyses return or throw) and of the Deliberator returns normally on
    every task, with a Result that carries [agentId], [taskType],
    [timestamp] and a boolean [success]; when [success] is [false] its
    [error] is a string. *)
Theorem processTask_always_returns_result :
  (forall (self : Execution.Agent) (now : Z) (task : Execution.Task),
      exists r, Execution.processTask self now task = Ret r
                /\ Spec.well_formed_result r = true)
  /\ (forall (technical fundamental sentiment correlation : list jsval -> outcome jsval)
             (self : Analyst.Agent) (now : Z) (task : Analyst.Task),
        exists r,
          Analyst.processTask technical fundamental sentiment correlation
            self now task = Ret r
          /\ Spec.well_formed_result r = true)
  /\ (forall (self : Deliberation.Agent) (now : Z) (task : Deliberation.Task),
        exists r, Deliberation.processTask self now task = Ret r
                  /\ Spec.well_formed_result r = true).
Proof.
  split; [|split].
  - intros self now task. unfold Execution.processTask.
    apply (try_catch_well_formed _ (Execution.failure self now task)).
    + intros msg. reflexivity.
    + intros r H. case_task_type.
      * bind_result H. injection H as <-. reflexivity.
      * bind_result H. injection H as <-. reflexivity.
      * bind_result H. injection H as <-. reflexivity.
      * injection H as <-. reflexivity.
  - intros technical fundamental sentiment correlation self now task.
    unfold Analyst.processTask.
    apply (try_catch_well_formed _ (Analyst.failure self now task)).
    + intros msg. reflexivity.
    + intros r H. case_task_type.
      * bind_result H. injection H as <-. reflexivity.
      * injection H as <-. reflexivity.
  - intros self now task. unfold Deliberation.processTask.
    apply (try_catch_well_formed _ (Deliberation.failure self now task)).
    + intros msg. reflexivity.
    + intros r H. case_task_type.
      * bind_result H. injection H as <-. reflexivity.
      * bind_result H. injection H as <-. reflexivity.
      * injection H as <-. reflexivity.
Qed.

(** The task that the orchestrator's execute stage would send is of no
    type the Executor knows. *)
Example executor_on_unknown_type :
  Execution.processTask
    {| Execution.id := "risk-manager"; Execution.executionType := "risk_manager" |}
    7
    {| Execution.task_type := "assess_risk"; Execution.tradeDetails := None;
       Execution.riskData := None; Execution.bridgeData := None;
       Execution.data := VObj [] |}
  = Ret (VObj [("agentId", VStr "risk-manager");
               ("taskType", VStr "assess_risk");
               ("timestamp", VTime 7);
               ("success", VBool false);
               ("error", VStr "Unknown task type")]).
Proof. reflexivity. Qed.

(** A 'manage_risk' task without [riskData] makes [manageRisk] throw on
    [task.data]; the Result carries the message. *)
Example executor_on_throwing_task :
  Execution.processTask
    {| Execution.id := "risk-manager"; Execution.executionType := "risk_manager" |}
    7
    {| Execution.task_type := "manage_risk"; Execution.tradeDetails := None;
       Execution.riskData := None; Execution.bridgeData := None;
       Execution.data := VUndef |}
  = Ret (VObj [("agentId", VStr "risk-manager");
               ("taskType", VStr "manage_risk");
               ("timestamp", VTime 7);
               ("success", VBool false);
               ("error",
                VStr "Cannot destructure property 'prediction' of 'task.data' as it is undefined.")]).
Proof. reflexivity. Qed.

(** An analysis that throws something that is no [Error] is reported as
    'Unknown error'. *)
Example analyst_on_thrown_value :
  Analyst.processTask
    (fun _ => Throw (Thrown (VStr "boom"))) (fun _ => Ret VNull)
    (fun _ => Ret VNull) (fun _ => Ret VNull)
    {| Analyst.id := "technical-analyst"; Analyst.analysisType := "technical" |}
    7
    {| Analyst.task_type := "analyze_data"; Analyst.data := VUndef |}
  = Ret (VObj [("agentId", VStr "technical-analyst");
               ("taskType", VStr "analyze_data");
               ("timestamp", VTime 7);
               ("success", VBool false);
               ("error", VStr "Unknown error")]).
Proof. reflexivity. Qed.

(** ** The pipeline *)

Section PipelineFacts.

Variable collectorProcessTask : string -> Z -> jsval -> outcome jsval.
Variable aggregateMarketData : Z -> list jsval -> outcome jsval.
Variables technical fundamental sentiment correlation
  : list jsval -> outcome jsval.

Import Orchestrator.

(** The task that [buildConsensus] sends to the facilitator. *)
Lemma build_consensus_unmatched (facilitator : Deliberation.Agent) (now : Z)
    (payload : jsval) :
  Deliberation.processTask facilitator now
    {| Deliberation.task_type := "build_consensus";
       Deliberation.proposals := None;
       Deliberation.consensus_threshold := None;
       Deliberation.dispute := None;
       Deliberation.data := payload |}
  = Ret (VObj [("agentId", VStr (Deliberation.id facilitator));
               ("taskType", VStr "build_consensus");
               ("timestamp", VTime now);
               ("success", VBool false);
               ("error", VStr "Unknown task type")]).
Proof. reflexivity. Qed.

Lemma collect_events_not_execute (cs : list string) :
  ~ In ExecuteMarketDecision (map CollectData cs).
Proof. rewrite in_map_iff. intros (c & H & _). discriminate. Qed.

Lemma analyze_events_not_execute (l : list Analyst.Agent) :
  ~ In ExecuteMarketDecision (map (fun a => AnalyzeData (Analyst.id a)) l).
Proof. rewrite in_map_iff. intros (c & H & _). discriminate. Qed.

Lemma market_prediction_trace (agents : SwarmAgents) (now : Z) (task : Task) :
  (processMarketPredictionTask collectorProcessTask aggregateMarketData
     technical fundamental sentiment correlation agents now task).1
  = (map CollectData (dataCollectors agents)
     ++ map (fun a => AnalyzeData (Analyst.id a)) (analysts agents)
     ++ match find_facilitator agents with
        | Some f => [BuildConsensus (Deliberation.id f)]
        | None => []
        end)%list.
Proof.
  unfold processMarketPredictionTask, buildConsensus.
  destruct (find_facilitator agents) as [f|]; reflexivity.
Qed.

End PipelineFacts.

(** C3.  On every market-prediction task, whatever the collectors and the
    analysts do: if there is a facilitator, the consensus stage sends it a
    task of type 'build_consensus' and gets back the failure Result of the
    unmatched branch, with [success = false], the error 'Unknown task type'
    and no [hasConsensus] property; the trace of the task, through
    [processMarketPredictionTask] as through the orchestrator's
    [processTask], never contains the execute stage. *)
Theorem market_prediction_never_executes :
  forall (collectorProcessTask : string -> Z -> jsval -> outcome jsval)
         (aggregateMarketData : Z -> list jsval -> outcome jsval)
         (technical fundamental sentiment correlation : list jsval -> outcome jsval)
         (agents : Orchestrator.SwarmAgents) (now : Z)
         (market data : jsval) (analysisResults : list jsval),
    (match Orchestrator.find_facilitator agents with
    | Some f =>
        exists r,
          Orchestrator.buildConsensus agents now analysisResults
          = ([Orchestrator.BuildConsensus (Deliberation.id f)], Ret r)
          /\ field "taskType" r = VStr "build_consensus"
          /\ field "success" r = VBool false
          /\ field "error" r = VStr "Unknown task type"
          /\ has_field "hasConsensus" r = false
          /\ truthy (field "hasConsensus" r) = false
    | None =>
        Orchestrator.buildConsensus agents now analysisResults
        = ([], Throw (ErrorObj "No consensus facilitator available"))
     end)
    /\ (Orchestrator.ExecuteMarketDecision ∉
         fst (Orchestrator.processMarketPredictionTask collectorProcessTask
                aggregateMarketData technical fundamental sentiment correlation
                agents now
                {| Orchestrator.task_type := "market_prediction";
                   Orchestrator.market := market;
                   Orchestrator.data := data |}))
    /\ (Orchestrator.ExecuteMarketDecision ∉
         fst (Orchestrator.processTask collectorProcessTask
                aggregateMarketData technical fundamental sentiment correlation
                agents now
                {| Orchestrator.task_type := "market_prediction";
                   Orchestrator.market := market;
                   Orchestrator.data := data |})).
Proof.
  intros.
  assert (Hnot : Orchestrator.ExecuteMarketDecision ∉
         (Orchestrator.processMarketPredictionTask collectorProcessTask
            aggregateMarketData technical fundamental sentiment correlation
            agents now
            {| Orchestrator.task_type := "market_prediction";
               Orchestrator.market := market;
               Orchestrator.data := data |}).1).
  { rewrite market_prediction_trace, list_elem_of_In, !in_app_iff.
    intros [H|[H|H]].
    - eapply collect_events_not_execute; eauto.
    - eapply analyze_events_not_execute; eauto.
    - destruct (Orchestrator.find_facilitator agents); simpl in H;
        [destruct H as [H|[]]; discriminate | contradiction]. }
  split; [|split].
  - unfold Orchestrator.buildConsensus.
    destruct (Orchestrator.find_facilitator agents) as [f|]; [|reflexivity].
    eexists. split; [reflexivity|]. repeat split.
  - exact Hnot.
  - exact Hnot.
Qed.

(** ** Swarm health *)

Section HealthFacts.

Import Coordinator.

(** The loop counter of [healthCheck] is the number of registered agents
    whose health predicate holds. *)
Lemma healthyAgents_count (c : State) (now : Z) :
  healthyAgents c now = Spec.healthy_count c now.
Proof.
  unfold healthyAgents, Spec.healthy_count.
  generalize (agents c). intros m.
  induction m as [|i a m Hi Hfold IH] using map_first_key_ind.
  - rewrite map_to_list_empty, map_filter_empty, map_size_empty. reflexivity.
  - rewrite map_to_list_insert_first_key by assumption.
    rewrite filter_cons. destruct (decide _) as [Hh|Hh].
    + rewrite map_filter_insert_True by exact Hh.
      rewrite map_size_insert_None
        by (apply map_lookup_filter_None; left; exact Hi).
      simpl. rewrite IH. reflexivity.
    + rewrite map_filter_insert_not' by (try exact Hh; intros; rewrite Hi in *; discriminate).
      exact IH.
Qed.

Lemma healthy_count_le (c : State) (now : Z) :
  (Spec.healthy_count c now <= totalAgents c)%nat.
Proof. apply map_size_filter. Qed.

End HealthFacts.

(** C4, as the specification states it, fails: with four healthy agents
    out of five the ratio is 0.8, which is at least 0.8, and [healthCheck]
    answers [false]. *)
Lemma healthCheck_at_four_of_five :
  ~ (Coordinator.healthCheck Scenario.five_agents 1000 = true
     <-> (0.8 <= Spec.health_ratio Scenario.five_agents 1000)%Q).
Proof.
  intros [_ H].
  assert (Hratio : (0.8 <= Spec.health_ratio Scenario.five_agents 1000)%Q)
    by (vm_compute; discriminate).
  specialize (H Hratio). vm_compute in H. discriminate.
Qed.

(** C4, amended.  [healthCheck] answers [true] exactly when the ratio of
    healthy registered agents is strictly above 0.8, that is when
    [4 * total < 5 * healthy]; on an empty registry it answers [false]. *)
Theorem healthCheck_strictly_above_80_percent :
  forall (c : Coordinator.State) (now : Z),
    (Coordinator.healthCheck c now = true
     <-> (0.8 < Spec.health_ratio c now)%Q)
    /\ (Coordinator.healthCheck c now = true
        <-> (4 * size (Coordinator.agents c) < 5 * Spec.healthy_count c now)%nat).
Proof.
  intros c now.
  assert (Hcode : Coordinator.healthCheck c now = true
                  <-> (4 * size (Coordinator.agents c) < 5 * Spec.healthy_count c now)%nat).
  { unfold Coordinator.healthCheck, Coordinator.healthRatio, Coordinator.totalAgents.
    rewrite healthyAgents_count, Qltb_lt.
    pose proof (healthy_count_le c now) as Hle.
    unfold Coordinator.totalAgents in Hle.
    destruct (size (Coordinator.agents c)) as [|n] eqn:Hn.
    - simpl. split; [intros H; vm_compute in H; discriminate | lia].
    - change (0 <? S n)%nat with true. cbv iota.
      unfold Qlt, Qdiv, Qmult, Qinv, inject_Z. simpl Qnum. simpl Qden.
      rewrite Pos2Z.inj_mul. simpl (Z.pos 1). lia. }
  split; [|exact Hcode].
  rewrite Hcode. unfold Spec.health_ratio.
  pose proof (healthy_count_le c now) as Hle.
  unfold Coordinator.totalAgents in Hle.
  destruct (size (Coordinator.agents c)) as [|n] eqn:Hn.
  - assert (Spec.healthy_count c now = 0%nat) as -> by lia.
    split; [lia | intros H; vm_compute in H; discriminate].
  - unfold Qlt, Qdiv, Qmult, Qinv, inject_Z. simpl Qnum. simpl Qden.
    rewrite Pos2Z.inj_mul. simpl (Z.pos 1). lia.
Qed.

(** ** Evidence weights and the resolution decision *)

Section ResolutionFacts.

Import Deliberation.

Local Open Scope Q_scope.

Lemma age_lt_hours (age : Z) (h : Z) :
  (0 < h)%Z ->
  Qltb (inject_Z age / inject_Z (1000 * 60 * 60)) (inject_Z h) = true
  <-> (age < h * 3600000)%Z.
Proof.
  intros Hh. rewrite Qltb_lt.
  change (1000 * 60 * 60)%Z with 3600000%Z.
  unfold Qlt, Qdiv, Qmult, Qinv, inject_Z. simpl Qnum. simpl Qden. lia.
Qed.

Lemma age_ltb_hours (age : Z) (h : Z) :
  (0 < h)%Z ->
  Qltb (inject_Z age / inject_Z (1000 * 60 * 60)) (inject_Z h)
  = bool_decide (age < h * 3600000)%Z.
Proof.
  intros Hh. apply eq_true_iff_eq.
  rewrite bool_decide_eq_true. apply age_lt_hours. exact Hh.
Qed.

(** The weight computed by the code is the weight as the specification
    words it: base, provenance bonus, recency bonus, capped at 1. *)
Lemma calculateEvidenceWeight_spec (now : Z) (e : Evidence) :
  calculateEvidenceWeight now e == Spec.evidence_weight now e.
Proof.
  unfold calculateEvidenceWeight, Spec.evidence_weight,
    Spec.source_bonus, Spec.recency_bonus.
  change (Qltb ?a 1) with (Qltb a (inject_Z 1)).
  change (Qltb ?a 24) with (Qltb a (inject_Z 24)).
  rewrite !age_ltb_hours by lia.
  change (1 * 3600000)%Z with 3600000%Z.
  change (24 * 3600000)%Z with 86400000%Z.
  destruct e as [src ts]; simpl.
  repeat match goal with
         | |- context [String.eqb ?a ?b] => destruct (String.eqb_spec a b)
         end;
    repeat (case_bool_decide; try lia);
    repeat (case_decide; try congruence; try lia);
    subst; try discriminate;
    apply Q.min_compat; try reflexivity; ring.
Qed.

End ResolutionFacts.

Section DecisionFacts.

Import Deliberation.

Local Open Scope Q_scope.

(** The weight kept for a source is that of the last item of that source. *)
Lemma weights_lookup (now : Z) (items : list Evidence) :
  forall (m : gmap string Q) (s : string),
    s <> "__proto__" ->
    fold_left (weigh now) items m !! s
    = match Spec.last_of_source s items with
      | Some e => Some (calculateEvidenceWeight now e)
      | None => m !! s
      end.
Proof.
  induction items as [|e items IH]; intros m s Hs.
  - reflexivity.
  - simpl fold_left. rewrite IH by exact Hs.
    unfold Spec.last_of_source. simpl List.filter.
    unfold weigh at 1.
    destruct (String.eqb_spec (source e) s) as [<-|Hne].
    + destruct (String.eqb_spec (source e) "__proto__"); [contradiction|].
      rewrite last_cons, lookup_insert_eq.
      destruct (last _); reflexivity.
    + destruct (String.eqb_spec (source e) "__proto__"); [reflexivity|].
      rewrite lookup_insert_ne by exact Hne. reflexivity.
Qed.

Lemma weights_lookup_proto (now : Z) (items : list Evidence) :
  forall m : gmap string Q,
    fold_left (weigh now) items m !! "__proto__" = m !! "__proto__".
Proof.
  induction items as [|e items IH]; intros m; [reflexivity|].
  simpl fold_left. rewrite IH. unfold weigh.
  destruct (String.eqb_spec (source e) "__proto__") as [|Hne]; [reflexivity|].
  apply lookup_insert_ne. exact Hne.
Qed.

Lemma hasStrongEvidence_iff (r : Resolution) :
  hasStrongEvidence r = true
  <-> exists (s : string) (w : Q), evidenceWeights r !! s = Some w /\ 0.8 < w.
Proof.
  unfold hasStrongEvidence. rewrite existsb_exists. split.
  - intros ([s w] & Hin & Hw). exists s, w. split.
    + apply elem_of_map_to_list, list_elem_of_In. exact Hin.
    + apply Qltb_lt. exact Hw.
  - intros (s & w & Hs & Hw). exists (s, w). split.
    + apply list_elem_of_In, elem_of_map_to_list. exact Hs.
    + apply Qltb_lt. exact Hw.
Qed.

Lemma num_gtb_gt (a b : num) : num_gtb a b = true <-> num_gt a b.
Proof.
  destruct a, b; simpl; try apply Qltb_lt;
    split; intros; try discriminate; try contradiction; auto.
Qed.

Lemma analyzeConflict_weights (now : Z) (ps : option (list Prediction))
    (items : list Evidence) (r : Resolution) :
  analyzeConflict now ps (Some items) = Ret r ->
  evidenceWeights r = fold_left (weigh now) items ∅.
Proof.
  unfold analyzeConflict. destruct ps as [l|]; simpl; [|discriminate].
  destruct (all_conflicts l []); simpl; [|discriminate].
  intros [= <-]. reflexivity.
Qed.

End DecisionFacts.

(** C6, as the specification states it, fails: the first of the two
    on-chain items weighs more than 0.8, yet the decision is
    'majority_vote', because the weight kept for the source 'onchain' is the
    one of the second, stale item. *)
Lemma stale_evidence_hides_strong_evidence :
  exists d,
    Deliberation.resolution_decision 200000000 (Some [])
      (Some [Scenario.fresh_onchain; Scenario.stale_onchain]) = Ret d
    /\ ~ (Deliberation.resolution d = "evidence_based"
          <-> Exists (fun e => (0.8 < Deliberation.calculateEvidenceWeight 200000000 e)%Q)
                [Scenario.fresh_onchain; Scenario.stale_onchain]).
Proof.
  eexists. split; [reflexivity|].
  intros [_ H].
  assert (Hstrong :
    Exists (fun e => (0.8 < Deliberation.calculateEvidenceWeight 200000000 e)%Q)
      [Scenario.fresh_onchain; Scenario.stale_onchain]).
  { apply Exists_cons_hd. vm_compute. reflexivity. }
  specialize (H Hstrong). vm_compute in H. discriminate.
Qed.

(** C6, amended.  Every evidence item weighs base 0.5, plus 0.3, 0.2 or 0.1
    for the source 'onchain', 'news' or 'social', plus 0.2 if it is less
    than an hour old, else 0.1 if less than 24 hours old, capped at 1.  The
    weights are kept per source: the weight of a source is that of its last
    item.  The decision is 'evidence_based' exactly when the weight kept for
    some source exceeds 0.8, and 'majority_vote' otherwise;
    [requiresHumanReview] is set exactly when the average conflict severity
    exceeds 0.8.  A single on-chain item stamped now weighs 1 and yields
    'evidence_based'. *)
Theorem resolver_weights_and_decision :
  (forall (now : Z) (e : Deliberation.Evidence),
      (Deliberation.calculateEvidenceWeight now e == Spec.evidence_weight now e)%Q)
  /\ (forall (now : Z) (ps : option (list Deliberation.Prediction))
             (items : list Deliberation.Evidence),
        match Deliberation.analyzeConflict now ps (Some items) with
        | Ret r =>
            forall s : string,
              Deliberation.evidenceWeights r !! s
              = if decide (s = "__proto__") then None
                else Deliberation.calculateEvidenceWeight now
                       <$> Spec.last_of_source s items
        | Throw _ => True
        end)
  /\ (forall r : Deliberation.Resolution,
        (Deliberation.resolution (Deliberation.makeResolutionDecision r) = "evidence_based"
         <-> exists (s : string) (w : Q),
               Deliberation.evidenceWeights r !! s = Some w /\ (0.8 < w)%Q)
        /\ (Deliberation.resolution (Deliberation.makeResolutionDecision r) = "majority_vote"
            <-> ~ exists (s : string) (w : Q),
                    Deliberation.evidenceWeights r !! s = Some w /\ (0.8 < w)%Q)
        /\ (Deliberation.requiresHumanReview (Deliberation.makeResolutionDecision r) = true
            <-> num_gt (Deliberation.conflictSeverity r) (Fin 0.8)))
  /\ (forall (now : Z),
        (Deliberation.calculateEvidenceWeight now
           {| Deliberation.source := "onchain"; Deliberation.timestamp := now |} == 1)%Q
        /\ (exists d,
              Deliberation.resolution_decision now (Some [])
                (Some [{| Deliberation.source := "onchain";
                          Deliberation.timestamp := now |}]) = Ret d
              /\ Deliberation.resolution d = "evidence_based")).
Proof.
  assert (Hscenario : forall now : Z,
    (Deliberation.calculateEvidenceWeight now
       {| Deliberation.source := "onchain"; Deliberation.timestamp := now |} == 1)%Q).
  { intros now. rewrite calculateEvidenceWeight_spec.
    unfold Spec.evidence_weight. simpl. rewrite Z.sub_diag. reflexivity. }
  split; [|split; [|split]].
  - apply calculateEvidenceWeight_spec.
  - intros now ps items.
    destruct (Deliberation.analyzeConflict now ps (Some items)) as [r|] eqn:E;
      [|exact I].
    intros s. rewrite (analyzeConflict_weights _ _ _ _ E).
    destruct (decide (s = "__proto__")) as [->|Hs].
    + rewrite weights_lookup_proto. apply lookup_empty.
    + rewrite weights_lookup by exact Hs.
      destruct (Spec.last_of_source s items); reflexivity.
  - intros r. pose proof (hasStrongEvidence_iff r) as Hs.
    unfold Deliberation.makeResolutionDecision. simpl.
    split; [|split].
    + rewrite <- Hs. destruct (Deliberation.hasStrongEvidence r);
        split; intros; try reflexivity; discriminate.
    + rewrite <- Hs. destruct (Deliberation.hasStrongEvidence r);
        split; intros H; try reflexivity; try discriminate.
      exfalso. apply H. reflexivity.
    + apply num_gtb_gt.
  - intros now. split; [apply Hscenario|].
    eexists. split; [reflexivity|].
    unfold Deliberation.makeResolutionDecision. simpl.
    assert (Deliberation.hasStrongEvidence
              {| Deliberation.conflicts := [];
                 Deliberation.evidenceWeights :=
                   fold_left (Deliberation.weigh now)
                     [{| Deliberation.source := "onchain";
                         Deliberation.timestamp := now |}] ∅;
                 Deliberation.totalConflicts := 0;
                 Deliberation.evidenceCount := 1 |} = true) as Hstrong.
    { apply hasStrongEvidence_iff. eexists "onchain", _. split.
      - simpl. unfold Deliberation.weigh. simpl. apply lookup_insert_eq.
      - rewrite Hscenario. reflexivity. }
    simpl in Hstrong. rewrite Hstrong. reflexivity.
Qed.

(** ** Risk management *)

Section RiskFacts.

Import Execution.

Local Open Scope Q_scope.




End RiskFacts.




(** ** Agent memory *)

Section MemoryFacts.

Import Base.

Local Open Scope list_scope.

Lemma memory_set_memory (self : Agent) (l : list AgentMemory) :
  memory (set_memory self l) = l.
Proof. reflexivity. Qed.

Lemma maxMemorySize_storeMemory (self : Agent) (now : Z) (stamp : string)
    (input : MemoryInput) :
  maxMemorySize (storeMemory self now stamp input) = maxMemorySize self.
Proof. unfold storeMemory. destruct (_ <? _)%nat; reflexivity. Qed.

(** What [storeMemory] leaves in memory: the array with the new entry
    pushed, cut down to its last [maxMemorySize] entries when longer. *)
Lemma memory_storeMemory (self : Agent) (now : Z) (stamp : string)
    (input : MemoryInput) :
  memory (storeMemory self now stamp input)
  = if (maxMemorySize self <? length (memory self) + 1)%nat
    then slice_last (maxMemorySize self)
           (memory self ++ [memoryItem self now stamp input])
    else memory self ++ [memoryItem self now stamp input].
Proof.
  unfold storeMemory. rewrite length_app. simpl length.
  destruct (_ <? _)%nat; reflexivity.
Qed.

(** With a positive cap the memory never exceeds it after a store. *)
Lemma storeMemory_within_cap (self : Agent) (now : Z) (stamp : string)
    (input : MemoryInput) :
  (0 < maxMemorySize self)%nat ->
  (length (memory (storeMemory self now stamp input)) <= maxMemorySize self)%nat.
Proof.
  intros Hpos. rewrite memory_storeMemory.
  destruct (Nat.ltb_spec (maxMemorySize self) (length (memory self) + 1)) as [Hlt|Hge].
  - unfold slice_last. destruct (maxMemorySize self) as [|n] eqn:Hn; [lia|].
    rewrite length_drop, length_app. simpl. lia.
  - rewrite length_app. simpl. lia.
Qed.

(** The entries kept by a store are the last ones of the array, unchanged
    and in array order, and the new entry is the last of them. *)
Lemma storeMemory_keeps_tail (self : Agent) (now : Z) (stamp : string)
    (input : MemoryInput) :
  exists kept,
    kept `suffix_of` memory self
    /\ memory (storeMemory self now stamp input)
       = kept ++ [memoryItem self now stamp input].
Proof.
  rewrite memory_storeMemory.
  destruct (Nat.ltb_spec (maxMemorySize self) (length (memory self) + 1)) as [Hlt|Hge].
  - unfold slice_last. destruct (maxMemorySize self) as [|n] eqn:Hn.
    + exists (memory self). split; [reflexivity|reflexivity].
    + exists (drop (length (memory self) - n) (memory self)). split.
      * apply suffix_drop.
      * rewrite length_app. simpl length.
        rewrite drop_app_le by lia. f_equal. f_equal. lia.
  - exists (memory self). split; reflexivity.
Qed.

(** The last [n] elements of a list ([n] positive), as [slice(-n)] gives
    them. *)
Lemma slice_last_drop {A} (n : nat) (l : list A) :
  (0 < n)%nat -> slice_last n l = drop (length l - n) l.
Proof. destruct n; [lia|reflexivity]. Qed.

Lemma memory_storeMemory_drop (self : Agent) (now : Z) (stamp : string)
    (input : MemoryInput) :
  (0 < maxMemorySize self)%nat ->
  memory (storeMemory self now stamp input)
  = slice_last (maxMemorySize self)
      (memory self ++ [memoryItem self now stamp input]).
Proof.
  intros Hpos. rewrite memory_storeMemory.
  destruct (Nat.ltb_spec (maxMemorySize self) (length (memory self) + 1)) as [Hlt|Hge];
    [reflexivity|].
  rewrite slice_last_drop by exact Hpos.
  rewrite length_app. simpl length.
  replace (length (memory self) + 1 - maxMemorySize self)%nat with 0%nat by lia.
  reflexivity.
Qed.

Lemma slice_last_snoc {A} (n : nat) (l : list A) (x : A) :
  (0 < n)%nat ->
  slice_last n (slice_last n l ++ [x]) = slice_last n (l ++ [x]).
Proof.
  intros Hpos. rewrite !slice_last_drop by exact Hpos.
  rewrite !length_app, length_drop. simpl length.
  destruct (Nat.le_gt_cases (length l) n) as [Hle|Hgt].
  - replace (length l - n)%nat with 0%nat by lia. simpl drop.
    f_equal. lia.
  - rewrite (drop_app_le l [x]) by lia.
    rewrite drop_app_le by (rewrite length_drop; lia).
    rewrite drop_drop. f_equal. f_equal. lia.
Qed.

Lemma slice_last_app {A} (n : nat) (l t : list A) :
  (0 < n)%nat ->
  slice_last n (slice_last n l ++ t) = slice_last n (l ++ t).
Proof.
  intros Hpos. induction t as [|y t IH] using rev_ind.
  - rewrite !app_nil_r, !slice_last_drop by exact Hpos.
    rewrite length_drop.
    replace (length l - (length l - n) - n)%nat with 0%nat by lia.
    reflexivity.
  - rewrite !app_assoc.
    rewrite <- slice_last_snoc by exact Hpos. rewrite IH.
    apply slice_last_snoc. exact Hpos.
Qed.

(** A history of stores alone, from a memory within its cap: the memory
    ends up holding the last [maxMemorySize] entries of everything appended,
    in the order of the stores. *)
Lemma stores_retain_most_recent (inputs : list (Z * string * MemoryInput)) :
  forall self : Agent,
    (0 < maxMemorySize self)%nat ->
    (length (memory self) <= maxMemorySize self)%nat ->
    memory (stores self inputs).1
    = slice_last (maxMemorySize self) (memory self ++ (stores self inputs).2).
Proof.
  induction inputs as [|[[now stamp] input] rest IH]; intros self Hpos Hlen.
  - simpl. rewrite app_nil_r, slice_last_drop by exact Hpos.
    replace (length (memory self) - maxMemorySize self)%nat with 0%nat by lia.
    reflexivity.
  - simpl stores. cbn [fst snd].
    rewrite IH.
    + rewrite maxMemorySize_storeMemory.
      rewrite memory_storeMemory_drop by exact Hpos.
      replace (memory self
               ++ memoryItem self now stamp input
                  :: (stores (storeMemory self now stamp input) rest).2)
        with ((memory self ++ [memoryItem self now stamp input])
              ++ (stores (storeMemory self now stamp input) rest).2)
        by (rewrite <- app_assoc; reflexivity).
      apply slice_last_app. exact Hpos.
    + rewrite maxMemorySize_storeMemory. exact Hpos.
    + rewrite maxMemorySize_storeMemory.
      apply storeMemory_within_cap. exact Hpos.
Qed.

(** Sorting puts an entry that is newer than all the others first. *)
Lemma sort_desc_newest_last (l : list AgentMemory) (x : AgentMemory) :
  Forall (fun m => (mem_timestamp m < mem_timestamp x)%Z) l ->
  sort_desc (l ++ [x]) = x :: sort_desc l.
Proof.
  induction 1 as [|y l Hy Hl IH]; [reflexivity|].
  simpl. rewrite IH. simpl.
  destruct (Z.ltb_spec (mem_timestamp y) (mem_timestamp x)); [reflexivity|lia].
Qed.

End MemoryFacts.

(** C8, as the specification states it, fails: an entry stored in the same
    millisecond as the one already held is not the one that
    [getRecentMemories(1)] returns; the older entry, which comes first in
    the array, stays first after the stable sort. *)
Lemma same_millisecond_store_not_returned :
  (Base.getRecentMemories
     (Base.storeMemory (Scenario.agent_with Scenario.earlier_entry) 5 "1"
        Scenario.later_input) 1).2
  = [Scenario.earlier_entry]
  /\ Base.mem_type Scenario.earlier_entry <> Base.in_type Scenario.later_input
  /\ Base.mem_data Scenario.earlier_entry <> Base.in_data Scenario.later_input.
Proof. split; [reflexivity|]. split; discriminate. Qed.

(** C8, amended.  When every entry held by the agent is stamped strictly
    before the time of the store, [getRecentMemories(1)] right after
    [storeMemory] returns exactly one entry, the one just stored, with the
    type and the data that were stored. *)
Theorem recent_memory_round_trip :
  forall (self : Base.Agent) (now : Z) (stamp : string) (input : Base.MemoryInput),
    Forall (fun m => (Base.mem_timestamp m < now)%Z) (Base.memory self) ->
    exists m,
      (Base.getRecentMemories (Base.storeMemory self now stamp input) 1).2 = [m]
      /\ m = Base.memoryItem self now stamp input
      /\ Base.mem_type m = Base.in_type input
      /\ Base.mem_data m = Base.in_data input.
Proof.
  intros self now stamp input Hold.
  exists (Base.memoryItem self now stamp input).
  split; [|repeat split].
  unfold Base.getRecentMemories. cbn [snd].
  destruct (storeMemory_keeps_tail self now stamp input) as (kept & Hsuffix & ->).
  rewrite sort_desc_newest_last; [reflexivity|].
  destruct Hsuffix as [dropped Heq]. rewrite Heq in Hold.
  apply Forall_app in Hold. exact (proj2 Hold).
Qed.

(** The amended C8 on an agent that holds an entry stamped 5, storing at
    time 6. *)
Lemma recent_memory_round_trip_witness :
  exists m,
    (Base.getRecentMemories
       (Base.storeMemory (Scenario.agent_with Scenario.earlier_entry) 6 "1"
          Scenario.later_input) 1).2 = [m]
    /\ m = Base.memoryItem (Scenario.agent_with Scenario.earlier_entry) 6 "1"
             Scenario.later_input
    /\ Base.mem_type m = Base.in_type Scenario.later_input
    /\ Base.mem_data m = Base.in_data Scenario.later_input.
Proof.
  apply (recent_memory_round_trip
           (Scenario.agent_with Scenario.earlier_entry) 6 "1" Scenario.later_input).
  simpl. repeat constructor.
Defined.

(** C9 on the code.  A collector at the default cap of 1000 holds the
    entries stamped 1 to 1000.  Storing the entry stamped 1001 right away
    evicts the oldest entry and keeps 2 to 1001.  But after one call of
    [getRecentMemories], which sorts the memory itself newest first, the
    same store evicts the entry stamped 1000, the most recent one before
    the store, and keeps the oldest entry, stamped 1: the memory is within
    its cap, but what it retains is not the most recently appended
    entries. *)
Theorem storeMemory_after_read_evicts_newest :
  Base.maxMemorySize Scenario.filled_then_read = 1000%nat
  /\ Scenario.timestamps Scenario.filled = map Z.of_nat (seq 1 1000)
  /\ Scenario.timestamps (Scenario.store_at Scenario.filled 1001)
     = map Z.of_nat (seq 2 1000)
  /\ Scenario.timestamps Scenario.filled_then_read
     = map Z.of_nat (rev (seq 1 1000))
  /\ Scenario.timestamps (Scenario.store_at Scenario.filled_then_read 1001)
     = (map Z.of_nat (rev (seq 1 999)) ++ [1001%Z])%list
  /\ length (Base.memory (Scenario.store_at Scenario.filled_then_read 1001))
     = 1000%nat.
Proof. vm_compute. repeat split. Qed.

(** ** The registry *)

(** C10.  After [registerAgent(a)], whether or not the write to the
    persistence gateway succeeds: the registry maps [a]'s id to [a], the
    mailbox of that id is empty, every other registry entry and mailbox is
    as before, and the registry has one entry per id (its size grows by one
    for a new id and is unchanged for a known one).  In particular a message
    waiting in the mailbox, such as one just delivered by [sendMessage], is
    gone after a re-registration. *)
Theorem registerAgent_upsert_and_mailbox_reset :
  forall (c : Coordinator.State) (now : Z) (a : Base.Agent),
    Coordinator.agents (Coordinator.registerAgent c now a).1 !! Base.id a = Some a
    /\ Coordinator.messageQueues (Coordinator.registerAgent c now a).1 !! Base.id a
       = Some []
    /\ delete (Base.id a) (Coordinator.agents (Coordinator.registerAgent c now a).1)
       = delete (Base.id a) (Coordinator.agents c)
    /\ delete (Base.id a)
         (Coordinator.messageQueues (Coordinator.registerAgent c now a).1)
       = delete (Base.id a) (Coordinator.messageQueues c)
    /\ size (Coordinator.agents (Coordinator.registerAgent c now a).1)
       = match Coordinator.agents c !! Base.id a with
         | Some _ => size (Coordinator.agents c)
         | None => S (size (Coordinator.agents c))
         end
    /\ (forall (sent : Z) (stamp from : string) (fields : list (string * jsval)),
          exists m,
            Coordinator.messageQueues
              (Coordinator.sendMessage (Coordinator.registerAgent c now a).1
                 sent stamp from (Base.id a) (VObj fields)).1 !! Base.id a
            = Some [m]
            /\ Coordinator.messageQueues
                 (Coordinator.registerAgent
                    (Coordinator.sendMessage (Coordinator.registerAgent c now a).1
                       sent stamp from (Base.id a) (VObj fields)).1
                    now a).1 !! Base.id a
               = Some []).
Proof.
  intros c now a. unfold Coordinator.registerAgent. cbn [fst Coordinator.agents Coordinator.messageQueues].
  split; [apply lookup_insert_eq|].
  split; [apply lookup_insert_eq|].
  split; [apply delete_insert_eq|].
  split; [apply delete_insert_eq|].
  split.
  - rewrite map_size_insert. destruct (Coordinator.agents c !! Base.id a); reflexivity.
  - intros sent stamp from fields. eexists. split.
    + unfold Coordinator.sendMessage.
      cbn [Coordinator.type_of_message fst Coordinator.messageQueues Coordinator.agents].
      rewrite lookup_insert_eq. cbn [fst snd Coordinator.messageQueues].
      rewrite lookup_insert_eq. reflexivity.
    + apply lookup_insert_eq.
Qed.

(** * Further properties of the code *)

(** ** Consensus and dispute resolution *)

Section MoreDeliberationFacts.

Import Deliberation.

Local Open Scope Q_scope.




End MoreDeliberationFacts.


Section ConflictFacts.

Import Deliberation.

Local Open Scope Q_scope.
Local Open Scope list_scope.

Lemma direction_of_returns (p : Prediction) :
  (exists d, direction_of p = Ret d) <-> Notions.has_body p.
Proof.
  unfold direction_of, Notions.has_body.
  destruct (prediction p) as [body|]; simpl; split.
  - intros _. eexists. reflexivity.
  - intros _. eexists. reflexivity.
  - intros [d H]. discriminate.
  - intros [b H]. discriminate.
Qed.

Lemma conflicts_with_returns (pred1 : Prediction) (rest : list Prediction) :
  forall acc,
    (exists cs, conflicts_with pred1 rest acc = Ret cs)
    <-> rest = [] \/ (Notions.has_body pred1 /\ Forall Notions.has_body rest).
Proof.
  induction rest as [|pred2 rest IH]; intros acc.
  - simpl. split; [auto | intros _; eexists; reflexivity].
  - simpl. split.
    + intros [cs H]. right.
      destruct (direction_of pred1) as [d1|] eqn:E1; simpl in H; [|discriminate].
      destruct (direction_of pred2) as [d2|] eqn:E2; simpl in H; [|discriminate].
      assert (H1 : Notions.has_body pred1) by (apply direction_of_returns; eauto).
      assert (H2 : Notions.has_body pred2) by (apply direction_of_returns; eauto).
      split; [exact H1|]. constructor; [exact H2|].
      assert (Hrec : exists cs', conflicts_with pred1 rest
                 (if decide (d1 = d2) then acc
                  else acc ++ [{| agents := (agentId pred1, agentId pred2);
                                  severity := confidence_delta pred1 pred2 |}])
                 = Ret cs') by eauto.
      apply IH in Hrec. destruct Hrec as [->|[_ Hr]]; [constructor|exact Hr].
    + intros [Hnil|[H1 Hall]]; [discriminate|].
      inversion Hall as [|? ? H2 Hr]; subst.
      destruct (proj2 (direction_of_returns pred1) H1) as [d1 E1].
      destruct (proj2 (direction_of_returns pred2) H2) as [d2 E2].
      rewrite E1, E2. simpl.
      apply IH. right. split; [exact H1|exact Hr].
Qed.

Lemma all_conflicts_returns (preds : list Prediction) :
  forall acc,
    (exists cs, all_conflicts preds acc = Ret cs)
    <-> (length preds <= 1)%nat \/ Forall Notions.has_body preds.
Proof.
  induction preds as [|p rest IH]; intros acc.
  - simpl. split; [intros _; left; lia | intros _; eexists; reflexivity].
  - simpl all_conflicts. split.
    + intros [cs H].
      destruct (conflicts_with p rest acc) as [cs'|] eqn:E; simpl in H; [|discriminate].
      assert (Hw : exists x, conflicts_with p rest acc = Ret x) by eauto.
      apply conflicts_with_returns in Hw. destruct Hw as [->|[Hp Hr]].
      * left. simpl. lia.
      * right. constructor; assumption.
    + intros Hcase.
      assert (Hw : exists x, conflicts_with p rest acc = Ret x).
      { apply conflicts_with_returns. destruct Hcase as [Hlen|Hall].
        - left. destruct rest; [reflexivity | simpl in Hlen; lia].
        - right. inversion Hall; subst. split; assumption. }
      destruct Hw as [cs' ->]. simpl. apply IH.
      destruct Hcase as [Hlen|Hall].
      * left. simpl in Hlen. lia.
      * right. inversion Hall; assumption.
Qed.

(** What [conflicts_with] adds satisfies any property that holds of the
    conflict of [pred1] with each later prediction. *)
Lemma conflicts_with_Forall (P : Conflict -> Prop) (pred1 : Prediction)
    (rest : list Prediction) :
  Forall (fun pred2 => P {| agents := (agentId pred1, agentId pred2);
                            severity := confidence_delta pred1 pred2 |}) rest ->
  forall acc cs,
    Forall P acc -> conflicts_with pred1 rest acc = Ret cs -> Forall P cs.
Proof.
  induction 1 as [|pred2 rest H2 Hr IH]; intros acc cs Hacc H.
  - simpl in H. injection H as <-. exact Hacc.
  - simpl in H.
    destruct (direction_of pred1) as [d1|]; simpl in H; [|discriminate].
    destruct (direction_of pred2) as [d2|]; simpl in H; [|discriminate].
    eapply IH; [|exact H].
    destruct (decide (d1 = d2)); [exact Hacc|].
    apply Forall_app. split; [exact Hacc|]. constructor; [exact H2|constructor].
Qed.

Lemma all_conflicts_Forall (P : Conflict -> Prop) (preds : list Prediction) :
  (forall pred1 pred2, In pred1 preds -> In pred2 preds ->
     P {| agents := (agentId pred1, agentId pred2);
          severity := confidence_delta pred1 pred2 |}) ->
  forall acc cs,
    Forall P acc -> all_conflicts preds acc = Ret cs -> Forall P cs.
Proof.
  induction preds as [|p rest IH]; intros HP acc cs Hacc H.
  - simpl in H. injection H as <-. exact Hacc.
  - simpl in H.
    destruct (conflicts_with p rest acc) as [cs'|] eqn:E; simpl in H; [|discriminate].
    eapply IH; [| |exact H].
    + intros p1 p2 H1 H2. apply HP; right; assumption.
    + eapply conflicts_with_Forall; [|exact Hacc|exact E].
      apply List.Forall_forall. intros p2 H2. apply HP; [left; reflexivity|right; exact H2].
Qed.

Lemma conflicts_with_length (pred1 : Prediction) (rest : list Prediction) :
  forall acc cs,
    conflicts_with pred1 rest acc = Ret cs ->
    (length acc <= length cs <= length acc + length rest)%nat.
Proof.
  induction rest as [|pred2 rest IH]; intros acc cs H.
  - simpl in H. injection H as <-. simpl. lia.
  - simpl in H.
    destruct (direction_of pred1) as [d1|]; simpl in H; [|discriminate].
    destruct (direction_of pred2) as [d2|]; simpl in H; [|discriminate].
    apply IH in H. destruct (decide (d1 = d2)).
    + simpl. lia.
    + rewrite length_app in H. simpl in *. lia.
Qed.

Lemma all_conflicts_length (preds : list Prediction) :
  forall acc cs,
    all_conflicts preds acc = Ret cs ->
    (2 * length cs <= 2 * length acc + length preds * (length preds - 1))%nat.
Proof.
  induction preds as [|p rest IH]; intros acc cs H.
  - simpl in H. injection H as <-. simpl. lia.
  - simpl in H.
    destruct (conflicts_with p rest acc) as [cs'|] eqn:E; simpl in H; [|discriminate].
    apply conflicts_with_length in E. apply IH in H.
    simpl length. replace (S (length rest) - 1)%nat with (length rest) by lia.
    destruct (length rest) as [|m]; simpl in *; nia.
Qed.

Lemma conflicts_with_unanimous (d : option Direction) (pred1 : Prediction)
    (rest : list Prediction) :
  Notions.points_to d pred1 -> Forall (Notions.points_to d) rest ->
  forall acc, conflicts_with pred1 rest acc = Ret acc.
Proof.
  intros (b1 & Hb1 & Hd1). induction 1 as [|pred2 rest (b2 & Hb2 & Hd2) Hr IH];
    intros acc; [reflexivity|].
  simpl. unfold direction_of. rewrite Hb1, Hb2. simpl.
  rewrite Hd1, Hd2. destruct (decide (d = d)); [apply IH|congruence].
Qed.

Lemma all_conflicts_unanimous (d : option Direction) (preds : list Prediction) :
  Forall (Notions.points_to d) preds ->
  forall acc, all_conflicts preds acc = Ret acc.
Proof.
  induction 1 as [|p rest Hp Hr IH]; intros acc; [reflexivity|].
  simpl. rewrite (conflicts_with_unanimous d) by assumption. simpl. apply IH.
Qed.

End ConflictFacts.

(** X2.  [analyzeConflict], given the list of conflicting predictions and
    the list of evidence, returns a resolution exactly when there is at most
    one prediction or every prediction carries a [prediction] body;
    otherwise reading [pred.prediction.direction] throws. *)
Theorem analyzeConflict_returns_iff :
  forall (now : Z) (preds : list Deliberation.Prediction)
         (items : list Deliberation.Evidence),
    (exists r, Deliberation.analyzeConflict now (Some preds) (Some items) = Ret r)
    <-> ((length preds <= 1)%nat \/ Forall Notions.has_body preds).
Proof.
  intros now preds items. unfold Deliberation.analyzeConflict. simpl.
  rewrite <- (all_conflicts_returns preds []).
  destruct (Deliberation.all_conflicts preds []) as [cs|e]; simpl; split.
  - intros _. eexists. reflexivity.
  - intros _. eexists. reflexivity.
  - intros [r H]. discriminate.
  - intros [cs H]. discriminate.
Qed.

(** X3.  The conflicts found among [n] predictions are at most
    [n (n - 1) / 2], one per pair, and [totalConflicts] is their number. *)
Theorem analyzeConflict_at_most_one_conflict_per_pair :
  forall (now : Z) (preds : option (list Deliberation.Prediction))
         (items : option (list Deliberation.Evidence)),
    match Deliberation.analyzeConflict now preds items with
    | Ret r =>
        Deliberation.totalConflicts r = length (Deliberation.conflicts r)
        /\ (2 * Deliberation.totalConflicts r
            <= length (default [] preds) * (length (default [] preds) - 1))%nat
    | Throw _ => True
    end.
Proof.
  intros now preds items. unfold Deliberation.analyzeConflict.
  destruct preds as [ps|]; simpl; [|exact I].
  destruct (Deliberation.all_conflicts ps []) as [cs|] eqn:E; simpl; [|exact I].
  destruct items as [its|]; simpl; [|exact I].
  split; [reflexivity|].
  apply all_conflicts_length in E. simpl in E. lia.
Qed.

(** X4.  When all predictions carry a body with one and the same
    direction there is no conflict: human review is not required, and the
    confidence of the decision is 0.9 under strong evidence and [NaN]
    otherwise (the average severity of no conflict is 0/0). *)
Theorem unanimous_predictions_have_no_conflict :
  forall (now : Z) (d : option Deliberation.Direction)
         (preds : list Deliberation.Prediction)
         (items : list Deliberation.Evidence),
    Forall (Notions.points_to d) preds ->
    exists r,
      Deliberation.analyzeConflict now (Some preds) (Some items) = Ret r
      /\ Deliberation.conflicts r = []
      /\ Deliberation.requiresHumanReview (Deliberation.makeResolutionDecision r)
         = false
      /\ Deliberation.decision_confidence (Deliberation.makeResolutionDecision r)
         = if Deliberation.hasStrongEvidence r then Fin 0.9 else NaN.
Proof.
  intros now d preds items Hall.
  unfold Deliberation.analyzeConflict. simpl.
  rewrite (all_conflicts_unanimous d preds Hall). simpl.
  eexists. split; [reflexivity|]. split; [reflexivity|].
  unfold Deliberation.makeResolutionDecision. simpl. split; [reflexivity|].
  destruct (Deliberation.hasStrongEvidence _); reflexivity.
Qed.

(** X4 on two bullish predictions and no evidence. *)
Lemma unanimous_predictions_have_no_conflict_witness :
  exists r,
    Deliberation.analyzeConflict 0 (Some Cases.two_bullish) (Some []) = Ret r
    /\ Deliberation.conflicts r = []
    /\ Deliberation.requiresHumanReview (Deliberation.makeResolutionDecision r)
       = false
    /\ Deliberation.decision_confidence (Deliberation.makeResolutionDecision r)
       = if Deliberation.hasStrongEvidence r then Fin 0.9 else NaN.
Proof.
  apply (unanimous_predictions_have_no_conflict 0 (Some Deliberation.bullish)
           Cases.two_bullish []).
  repeat constructor; eexists; split; reflexivity.
Defined.

Section SeverityFacts.

Import Deliberation.

Local Open Scope Q_scope.

Lemma confidence_delta_unit (pred1 pred2 : Prediction) :
  Notions.confident pred1 -> Notions.confident pred2 ->
  Notions.unit_severity {| agents := (agentId pred1, agentId pred2);
                   severity := confidence_delta pred1 pred2 |}.
Proof.
  intros (a & Ha & Ha0 & Ha1) (b & Hb & Hb0 & Hb1).
  unfold Notions.unit_severity, confidence_delta. cbn [severity]. rewrite Ha, Hb.
  eexists. split; [reflexivity|]. split; [apply Qabs_nonneg|].
  apply Qabs_Qle_condition. split; lra.
Qed.

Lemma severity_sum (cs : list Conflict) :
  Forall Notions.unit_severity cs ->
  forall s0 : Q,
    exists s,
      fold_left (fun sum c => num_add sum (severity c)) cs (Fin s0) = Fin s
      /\ s0 <= s /\ s <= s0 + inject_Z (Z.of_nat (length cs)).
Proof.
  induction 1 as [|c cs (q & Hq & Hq0 & Hq1) Hcs IH]; intros s0.
  - exists s0. split; [reflexivity|]. simpl length.
    change (inject_Z (Z.of_nat 0)) with 0. split; lra.
  - simpl fold_left. rewrite Hq. simpl num_add.
    destruct (IH (s0 + q)) as (s & Hs & Hlo & Hhi).
    exists s. split; [exact Hs|]. split; [lra|].
    simpl length. rewrite Nat2Z.inj_succ, <- Z.add_1_r, inject_Z_plus.
    change (inject_Z 1) with 1. lra.
Qed.

Lemma positive_count (n : nat) : 0 < inject_Z (Z.of_nat (S n)).
Proof. unfold Qlt, inject_Z. simpl. lia. Qed.

End SeverityFacts.

(** X5.  When every prediction carries a confidence within [0,1] and the
    analysis finds at least one conflict, the confidence of the decision is
    a finite number within [0.3, 1]. *)
Theorem decision_confidence_bounds :
  forall (now : Z) (preds : list Deliberation.Prediction)
         (items : list Deliberation.Evidence),
    Forall Notions.confident preds ->
    match Deliberation.analyzeConflict now (Some preds) (Some items) with
    | Ret r =>
        Deliberation.conflicts r = []
        \/ exists q,
             Deliberation.decision_confidence
               (Deliberation.makeResolutionDecision r) = Fin q
             /\ (0.3 <= q)%Q /\ (q <= 1)%Q
    | Throw _ => True
    end.
Proof.
  intros now preds items Hconf.
  unfold Deliberation.analyzeConflict. simpl.
  destruct (Deliberation.all_conflicts preds []) as [cs|] eqn:E; simpl; [|exact I].
  assert (Hunit : Forall Notions.unit_severity cs).
  { eapply all_conflicts_Forall; [|constructor|exact E].
    intros p1 p2 H1 H2. rewrite List.Forall_forall in Hconf.
    apply confidence_delta_unit; apply Hconf; assumption. }
  destruct cs as [|c cs]; [left; reflexivity|right].
  unfold Deliberation.makeResolutionDecision. cbn [Deliberation.decision_confidence].
  destruct (Deliberation.hasStrongEvidence _).
  - exists 0.9%Q. split; [reflexivity|]. split; discriminate.
  - unfold Deliberation.conflictSeverity. cbn [Deliberation.conflicts].
    destruct (severity_sum (c :: cs) Hunit 0) as (s & Hs & Hlo & Hhi).
    rewrite Hs. simpl length in *. cbn [num_div_count num_neg num_sub num_add num_max].
    eexists. split; [reflexivity|].
    pose proof (positive_count (length cs)) as Hpos.
    set (n := inject_Z (Z.of_nat (S (length cs)))) in *.
    assert (H0 : (0 <= s / n)%Q).
    { apply Qle_shift_div_l; [exact Hpos|lra]. }
    assert (H1 : (s / n <= 1)%Q).
    { apply Qle_shift_div_r; [exact Hpos|lra]. }
    split; [apply Q.le_max_l|].
    apply Q.max_lub; [discriminate|lra].
Qed.

(** X5 on a bullish and a bearish prediction with confidences 0.9 and 0.6. *)
Lemma decision_confidence_bounds_witness :
  match Deliberation.analyzeConflict 0 (Some Cases.split_vote) (Some []) with
  | Ret r =>
      Deliberation.conflicts r = []
      \/ exists q,
           Deliberation.decision_confidence
             (Deliberation.makeResolutionDecision r) = Fin q
           /\ (0.3 <= q)%Q /\ (q <= 1)%Q
  | Throw _ => True
  end.
Proof.
  apply (decision_confidence_bounds 0 Cases.split_vote []).
  repeat constructor; eexists; (split; [reflexivity|split; discriminate]).
Defined.

(** X6.  The weight of an evidence item is within [0.5, 1], and it exceeds
    0.8 exactly for an on-chain item less than 24 hours old and for a news
    item less than one hour old: social evidence, and evidence from any
    other source, never counts as strong. *)
Theorem strong_evidence_is_recent_onchain_or_news :
  forall (now : Z) (e : Deliberation.Evidence),
    (0.5 <= Deliberation.calculateEvidenceWeight now e)%Q
    /\ (Deliberation.calculateEvidenceWeight now e <= 1)%Q
    /\ ((0.8 < Deliberation.calculateEvidenceWeight now e)%Q
        <-> (Deliberation.source e = "onchain"
             /\ (now - Deliberation.timestamp e < 86400000)%Z)
            \/ (Deliberation.source e = "news"
                /\ (now - Deliberation.timestamp e < 3600000)%Z)).
Proof.
  intros now e. rewrite calculateEvidenceWeight_spec.
  unfold Spec.evidence_weight, Spec.source_bonus, Spec.recency_bonus.
  destruct e as [src ts]. cbn [Deliberation.source Deliberation.timestamp].
  repeat case_decide; subst; try discriminate;
    (split; [vm_compute; discriminate|]);
    (split; [vm_compute; discriminate|]);
    (split;
     [ intros Hw; vm_compute in Hw; try discriminate;
       first [ left; split; [reflexivity|lia] | right; split; [reflexivity|lia] ]
     | intros [[Hsrc Hage]|[Hsrc Hage]]; try congruence; try lia; try discriminate;
       vm_compute; reflexivity ]).
Qed.

Section DisputeTaskFacts.

Import Deliberation.

Lemma resolveDispute_returns_iff (self : Agent) (now : Z) (task : DelibArg) :
  (exists r, resolveDispute self now task = Ret r)
  <-> exists data preds items,
        arg_data task = Some data
        /\ data_conflictingPredictions data = Some preds
        /\ data_evidence data = Some items
        /\ ((length preds <= 1)%nat \/ Forall Notions.has_body preds).
Proof.
  unfold resolveDispute, analyzeConflict. split.
  - intros [r H].
    destruct (arg_data task) as [data|]; simpl in H; [|discriminate].
    destruct (data_conflictingPredictions data) as [preds|] eqn:Ep;
      simpl in H; [|discriminate].
    destruct (all_conflicts preds []) as [cs|] eqn:Ec; simpl in H; [|discriminate].
    destruct (data_evidence data) as [items|] eqn:Ee; simpl in H; [|discriminate].
    exists data, preds, items.
    split; [reflexivity|]. split; [exact Ep|]. split; [exact Ee|].
    apply (all_conflicts_returns preds []). eauto.
  - intros (data & preds & items & -> & Hp & He & Hcase). simpl.
    rewrite Hp. simpl.
    apply (all_conflicts_returns preds []) in Hcase. destruct Hcase as [cs ->].
    simpl. rewrite He. simpl. eexists. reflexivity.
Qed.

End DisputeTaskFacts.

(** X7.  A 'resolve_dispute' task always gets a Result, and the Result
    reports success exactly when the task carries a [dispute] whose [data]
    holds both lists and whose conflicting predictions are at most one or
    all carry a [prediction] body; in every other case the Result is a
    failure. *)
Theorem resolve_dispute_succeeds_iff :
  forall (self : Deliberation.Agent) (now : Z)
         (proposals : option (list Deliberation.Prediction)) (T : option Q)
         (dispute : option Deliberation.DelibArg) (data : jsval),
    exists r,
      Deliberation.processTask self now
        {| Deliberation.task_type := "resolve_dispute";
           Deliberation.proposals := proposals;
           Deliberation.consensus_threshold := T;
           Deliberation.dispute := dispute;
           Deliberation.data := data |} = Ret r
      /\ (field "success" r = VBool true \/ field "success" r = VBool false)
      /\ (field "success" r = VBool true
          <-> exists task d preds items,
                dispute = Some task
                /\ Deliberation.arg_data task = Some d
                /\ Deliberation.data_conflictingPredictions d = Some preds
                /\ Deliberation.data_evidence d = Some items
                /\ ((length preds <= 1)%nat \/ Forall Notions.has_body preds)).
Proof.
  intros self now proposals T dispute data.
  unfold Deliberation.processTask.
  cbn [Deliberation.task_type Deliberation.dispute String.eqb Ascii.eqb Bool.eqb].
  pose proof (resolveDispute_returns_iff self now (default Deliberation.empty_arg dispute))
    as Hiff.
  destruct (Deliberation.resolveDispute self now (default Deliberation.empty_arg dispute))
    as [res|e]; simpl.
  - eexists. split; [reflexivity|]. split; [left; reflexivity|].
    split; [intros _|reflexivity].
    destruct (proj1 Hiff ltac:(eauto)) as (d & preds & items & Hd & Hrest).
    destruct dispute as [task|]; [|discriminate].
    exists task, d, preds, items. split; [reflexivity|]. split; assumption.
  - eexists. split; [reflexivity|]. split; [right; reflexivity|].
    split; [discriminate|].
    intros (task & d & preds & items & -> & Hrest).
    destruct (proj2 Hiff) as [r H]; [|discriminate].
    exists d, preds, items. exact Hrest.
Qed.

(** X8.  A 'deliberate' task is a failure for every agent, whatever its
    [deliberationType]: a facilitator and a resolver both stop at the
    missing [task.data], any other type is rejected by [deliberate]; the
    Result carries the corresponding message and no [result]. *)
Theorem deliberate_task_fails_for_every_type :
  forall (self : Deliberation.Agent) (now : Z)
         (proposals : option (list Deliberation.Prediction)) (T : option Q)
         (dispute : option Deliberation.DelibArg) (data : jsval),
    Deliberation.processTask self now
      {| Deliberation.task_type := "deliberate";
         Deliberation.proposals := proposals;
         Deliberation.consensus_threshold := T;
         Deliberation.dispute := dispute;
         Deliberation.data := data |}
    = Ret (VObj [("agentId", VStr (Deliberation.id self));
                 ("taskType", VStr "deliberate");
                 ("timestamp", VTime now);
                 ("success", VBool false);
                 ("error",
                  VStr (if String.eqb (Deliberation.deliberationType self) "facilitator"
                        then "Cannot destructure property 'predictions' of 'task.data' as it is undefined."
                        else if String.eqb (Deliberation.deliberationType self) "resolver"
                        then "Cannot destructure property 'conflictingPredictions' of 'task.data' as it is undefined."
                        else "Unknown deliberation type: "
                             ++ Deliberation.deliberationType self))]).
Proof.
  intros self now proposals T dispute data.
  unfold Deliberation.processTask, Deliberation.deliberate.
  cbn [Deliberation.task_type String.eqb Ascii.eqb Bool.eqb].
  destruct (String.eqb (Deliberation.deliberationType self) "facilitator");
    [reflexivity|].
  destruct (String.eqb (Deliberation.deliberationType self) "resolver");
    reflexivity.
Qed.

(** ** Execution *)

Section MoreRiskFacts.

Import Execution.

Local Open Scope Q_scope.

Lemma or_default_nonzero (q d : Q) : ~ q == 0 -> or_default (Some q) d = q.
Proof.
  intros Hq. simpl. destruct (Qeq_bool q 0) eqn:E; [|reflexivity].
  apply Qeq_bool_iff in E. contradiction.
Qed.

Lemma manageRisk_returns_iff (self : Agent) (now : Z) (task : Details) :
  (exists r, manageRisk self now task = Ret r)
  <-> exists data p m,
        details_data task = Some data
        /\ prediction data = Some p /\ marketData data = Some m.
Proof.
  unfold manageRisk, assessRisk. split.
  - intros [r H].
    destruct (details_data task) as [data|]; simpl in H; [|discriminate].
    destruct (prediction data) as [p|] eqn:Ep; simpl in H; [|discriminate].
    destruct (marketData data) as [m|] eqn:Em; simpl in H; [|discriminate].
    exists data, p, m. repeat split; assumption.
  - intros (data & p & m & -> & Hp & Hm). simpl. rewrite Hp. simpl.
    rewrite Hm. simpl. eexists. reflexivity.
Qed.

Lemma manageRisk_role_independent (name type type' : string) (now : Z)
    (task : Details) :
  manageRisk {| id := name; executionType := type |} now task
  = manageRisk {| id := name; executionType := type' |} now task.
Proof. reflexivity. Qed.

End MoreRiskFacts.

(** X9.  A 'manage_risk' task always gets a Result; it reports success
    exactly when the task carries [riskData] with a [data] object that holds
    both a [prediction] and [marketData].  The Result does not depend on the
    agent's [executionType]: an agent of any role assesses the risk. *)
Theorem manage_risk_succeeds_iff :
  forall (name type : string) (now : Z)
         (tradeDetails riskData bridgeData : option Execution.Details)
         (data : jsval),
    exists r,
      Execution.processTask
        {| Execution.id := name; Execution.executionType := type |} now
        {| Execution.task_type := "manage_risk";
           Execution.tradeDetails := tradeDetails;
           Execution.riskData := riskData;
           Execution.bridgeData := bridgeData;
           Execution.data := data |} = Ret r
      /\ (field "success" r = VBool true \/ field "success" r = VBool false)
      /\ (field "success" r = VBool true
          <-> exists details d p m,
                riskData = Some details
                /\ Execution.details_data details = Some d
                /\ Execution.prediction d = Some p
                /\ Execution.marketData d = Some m)
      /\ (forall type' : string,
            Execution.processTask
              {| Execution.id := name; Execution.executionType := type' |} now
              {| Execution.task_type := "manage_risk";
                 Execution.tradeDetails := tradeDetails;
                 Execution.riskData := riskData;
                 Execution.bridgeData := bridgeData;
                 Execution.data := data |} = Ret r).
Proof.
  intros name type now tradeDetails riskData bridgeData data.
  unfold Execution.processTask.
  cbn [Execution.task_type Execution.riskData String.eqb Ascii.eqb Bool.eqb].
  pose proof (manageRisk_returns_iff
                {| Execution.id := name; Execution.executionType := type |} now
                (default Execution.empty_details riskData)) as Hiff.
  destruct (Execution.manageRisk
              {| Execution.id := name; Execution.executionType := type |} now
              (default Execution.empty_details riskData)) as [res|e] eqn:E.
  - eexists. split; [reflexivity|]. split; [left; reflexivity|]. split.
    + split; [intros _|reflexivity].
      destruct (proj1 Hiff ltac:(eauto)) as (d & p & m & Hd & Hp & Hm).
      destruct riskData as [details|]; [|discriminate].
      exists details, d, p, m. repeat split; assumption.
    + intros type'.
      rewrite (manageRisk_role_independent name type' type now), E. reflexivity.
  - eexists. split; [reflexivity|]. split; [right; reflexivity|]. split.
    + split; [discriminate|].
      intros (details & d & p & m & -> & Hrest).
      destruct (proj2 Hiff) as [r H]; [|discriminate].
      exists d, p, m. exact Hrest.
    + intros type'.
      rewrite (manageRisk_role_independent name type' type now), E. reflexivity.
Qed.

(** X10.  A confidence of exactly 0 is read as absent and scored like 0.5,
    and a volatility of exactly 0 like 0.2.  Among non-zero confidences the
    overall risk never grows with the confidence. *)
Theorem zero_confidence_is_scored_as_absent :
  (forall (m : option Execution.MarketData) (rp : jsval),
      Execution.assessRisk (Some {| Execution.confidence := Some 0%Q |}) m rp
      = Execution.assessRisk (Some {| Execution.confidence := None |}) m rp
      /\ Execution.assessRisk (Some {| Execution.confidence := Some 0%Q |}) m rp
         = Execution.assessRisk (Some {| Execution.confidence := Some 0.5%Q |}) m rp)
  /\ (forall (p : option Execution.PredictionIn) (rp : jsval),
        Execution.assessRisk p (Some {| Execution.volatility := Some 0%Q |}) rp
        = Execution.assessRisk p (Some {| Execution.volatility := None |}) rp
        /\ Execution.assessRisk p (Some {| Execution.volatility := Some 0%Q |}) rp
           = Execution.assessRisk p (Some {| Execution.volatility := Some 0.2%Q |}) rp)
  /\ (forall (c1 c2 : Q) (v : option Q) (rp : jsval),
        ~ (c1 == 0)%Q -> ~ (c2 == 0)%Q -> (c1 <= c2)%Q ->
        exists r1 r2,
          Execution.assessRisk (Some {| Execution.confidence := Some c1 |})
            (Some {| Execution.volatility := v |}) rp = Ret r1
          /\ Execution.assessRisk (Some {| Execution.confidence := Some c2 |})
               (Some {| Execution.volatility := v |}) rp = Ret r2
          /\ (Execution.overall r2 <= Execution.overall r1)%Q).
Proof.
  split; [|split].
  - intros m rp. split; reflexivity.
  - intros p rp. split; reflexivity.
  - intros c1 c2 v rp H1 H2 Hle.
    unfold Execution.assessRisk. cbn [require mbind outcome_bind Execution.confidence].
    rewrite !or_default_nonzero by assumption.
    eexists _, _. split; [reflexivity|]. split; [reflexivity|].
    cbn [Execution.overall Execution.volatility].
    apply Q.min_le_compat_l.
    set (vr := (or_default v 0.2 / 0.5)%Q).
    assert (E1 : ((1 - c1 + vr) / 2 == (1 - c1 + vr) * (1 # 2))%Q) by field.
    assert (E2 : ((1 - c2 + vr) / 2 == (1 - c2 + vr) * (1 # 2))%Q) by field.
    rewrite E1, E2. lra.
Qed.

(** X10 at confidences 0.1 and 0.9. *)
Lemma zero_confidence_is_scored_as_absent_witness :
  exists r1 r2,
    Execution.assessRisk (Some {| Execution.confidence := Some 0.1%Q |})
      (Some {| Execution.volatility := None |}) VUndef = Ret r1
    /\ Execution.assessRisk (Some {| Execution.confidence := Some 0.9%Q |})
         (Some {| Execution.volatility := None |}) VUndef = Ret r2
    /\ (Execution.overall r2 <= Execution.overall r1)%Q.
Proof.
  apply (proj2 (proj2 zero_confidence_is_scored_as_absent) 0.1%Q 0.9%Q None VUndef);
    vm_compute; discriminate.
Defined.



(** ** The base agent *)

Section SortFacts.

Context {A : Type} (timestamp : A -> Z).

Local Open Scope list_scope.

Lemma insert_desc_perm (x : A) (l : list A) :
  Permutation (Gateway.insert_desc timestamp x l) (x :: l).
Proof.
  induction l as [|y l IH]; simpl; [reflexivity|].
  destruct (timestamp x <? timestamp y)%Z; [|reflexivity].
  rewrite IH. apply perm_swap.
Qed.

Lemma sort_desc_perm (l : list A) :
  Permutation (Gateway.sort_desc timestamp l) l.
Proof.
  induction l as [|x l IH]; simpl; [reflexivity|].
  rewrite insert_desc_perm, IH. reflexivity.
Qed.

Lemma insert_desc_sorted (x : A) (l : list A) :
  Notions.newest_first timestamp l ->
  Notions.newest_first timestamp (Gateway.insert_desc timestamp x l).
Proof.
  unfold Notions.newest_first. induction 1 as [|y l Hl IH Hy]; simpl.
  - repeat constructor.
  - destruct (Z.ltb_spec (timestamp x) (timestamp y)) as [Hlt|Hge].
    + constructor; [exact IH|].
      rewrite insert_desc_perm. constructor; [lia|exact Hy].
    + constructor; [constructor; assumption|].
      constructor; [exact Hge|].
      eapply Forall_impl; [exact Hy|]. intros z Hz. simpl in Hz. lia.
Qed.

Lemma sort_desc_sorted (l : list A) :
  Notions.newest_first timestamp (Gateway.sort_desc timestamp l).
Proof.
  induction l as [|x l IH]; simpl; [constructor|].
  apply insert_desc_sorted. exact IH.
Qed.

End SortFacts.

Section MoreMemoryFacts.

Import Base.

Local Open Scope list_scope.

(** The sort of the base agent is the generic one, by entry timestamp. *)
Lemma base_sort_desc (l : list AgentMemory) :
  sort_desc l = Gateway.sort_desc mem_timestamp l.
Proof.
  induction l as [|x l IH]; simpl; [reflexivity|].
  rewrite IH. generalize (Gateway.sort_desc mem_timestamp l). intros s.
  induction s as [|y s IHs]; simpl; [reflexivity|].
  rewrite IHs. reflexivity.
Qed.

Lemma storeMemory_fields (self : Agent) (now : Z) (stamp : string)
    (input : MemoryInput) :
  id (storeMemory self now stamp input) = id self
  /\ type (storeMemory self now stamp input) = type self
  /\ status (storeMemory self now stamp input) = status self
  /\ tasksCompleted (storeMemory self now stamp input) = tasksCompleted self
  /\ errorCount (storeMemory self now stamp input) = errorCount self.
Proof. unfold storeMemory. destruct (_ <? _)%nat; repeat split. Qed.

End MoreMemoryFacts.

(** X12.  [getRecentMemories] loses nothing and alters no entry: the
    agent's memory after the call holds the same entries as before,
    reordered newest first, and the call returns the first [limit] of
    them. *)
Theorem getRecentMemories_reorders_newest_first :
  forall (self : Base.Agent) (limit : nat),
    Permutation (Base.memory (Base.getRecentMemories self limit).1)
                (Base.memory self)
    /\ Notions.newest_first Base.mem_timestamp
         (Base.memory (Base.getRecentMemories self limit).1)
    /\ (Base.getRecentMemories self limit).2
       = take limit (Base.memory (Base.getRecentMemories self limit).1)
    /\ length (Base.getRecentMemories self limit).2
       = Nat.min limit (length (Base.memory self)).
Proof.
  intros self limit. unfold Base.getRecentMemories. cbn [fst snd Base.memory Base.set_memory].
  rewrite base_sort_desc.
  split; [apply sort_desc_perm|]. split; [apply sort_desc_sorted|].
  split; [reflexivity|].
  rewrite length_take. f_equal. apply Permutation_length, sort_desc_perm.
Qed.

(** X13.  [getMemoriesByType] returns the first [limit] entries of the
    agent's entries of that type ordered newest first; every entry it
    returns is an entry of the agent's memory with that type. *)
Theorem getMemoriesByType_selects_by_type :
  forall (self : Base.Agent) (type : string) (limit : nat),
    exists sorted,
      Permutation sorted
        (List.filter (fun m => String.eqb (Base.mem_type m) type) (Base.memory self))
      /\ Notions.newest_first Base.mem_timestamp sorted
      /\ Base.getMemoriesByType self type limit = take limit sorted
      /\ (length (Base.getMemoriesByType self type limit) <= limit)%nat
      /\ Forall (fun m => Base.mem_type m = type /\ In m (Base.memory self))
           (Base.getMemoriesByType self type limit).
Proof.
  intros self type limit. unfold Base.getMemoriesByType. rewrite base_sort_desc.
  set (selected := List.filter _ (Base.memory self)).
  exists (Gateway.sort_desc Base.mem_timestamp selected).
  split; [apply sort_desc_perm|]. split; [apply sort_desc_sorted|].
  split; [reflexivity|]. split; [rewrite length_take; lia|].
  apply List.Forall_forall. intros m Hm.
  assert (Hin : In m selected).
  { apply (Permutation_in m (sort_desc_perm Base.mem_timestamp selected)).
    apply list_elem_of_In. eapply subseteq_take. apply list_elem_of_In. exact Hm. }
  apply filter_In in Hin. destruct Hin as [Hin Htype].
  split; [apply String.eqb_eq; exact Htype | exact Hin].
Qed.

Section LifecycleFacts.

Import Lifecycle.

Local Open Scope Q_scope.

Lemma step_counters (self : Base.Agent) (op : Op) :
  Base.id (step self op) = Base.id self
  /\ Base.type (step self op) = Base.type self
  /\ Base.maxMemorySize (step self op) = Base.maxMemorySize self
  /\ Base.errorCount (step self op)
     = ((if is_RecordError op then 1 else 0) + Base.errorCount self)%nat
  /\ Base.tasksCompleted (step self op)
     = ((if is_RecordTaskCompletion op then 1 else 0) + Base.tasksCompleted self)%nat.
Proof.
  destruct op; simpl; try (repeat split; reflexivity).
  - unfold recoveryTimer. destruct (bool_decide _); repeat split; reflexivity.
  - unfold Base.storeMemory. destruct (_ <? _)%nat; repeat split; reflexivity.
Qed.

Lemma step_within_cap (self : Base.Agent) (op : Op) :
  (0 < Base.maxMemorySize self)%nat ->
  (length (Base.memory self) <= Base.maxMemorySize self)%nat ->
  (length (Base.memory (step self op)) <= Base.maxMemorySize self)%nat.
Proof.
  intros Hpos Hlen. destruct op; simpl; try exact Hlen.
  - unfold recoveryTimer. destruct (bool_decide _); exact Hlen.
  - apply storeMemory_within_cap. exact Hpos.
  - rewrite base_sort_desc.
    rewrite (Permutation_length (sort_desc_perm Base.mem_timestamp (Base.memory self))).
    exact Hlen.
Qed.

Lemma run_within_cap (ops : list Op) :
  forall self : Base.Agent,
    (0 < Base.maxMemorySize self)%nat ->
    (length (Base.memory self) <= Base.maxMemorySize self)%nat ->
    (length (Base.memory (run self ops)) <= Base.maxMemorySize self)%nat
    /\ Base.maxMemorySize (run self ops) = Base.maxMemorySize self.
Proof.
  unfold run. induction ops as [|op ops IH]; intros self Hpos Hlen.
  - simpl. split; [exact Hlen|reflexivity].
  - simpl fold_left.
    destruct (step_counters self op) as (_ & _ & Hmax & _).
    destruct (IH (step self op)) as [H1 H2].
    + rewrite Hmax. exact Hpos.
    + rewrite Hmax. apply step_within_cap; assumption.
    + rewrite Hmax in *. split; assumption.
Qed.

Lemma at_least_one_positive (x : Q) : 0 < Qmax x 1.
Proof.
  apply Qlt_le_trans with (y := 1); [reflexivity|apply Q.le_max_r].
Qed.

End LifecycleFacts.

(** X14.  Over any sequence of operations on an agent (method calls and
    recovery timers, in any order) the error counter grows by exactly the
    number of [recordError] calls and the task counter by exactly the number
    of [recordTaskCompletion] calls, so neither ever decreases; the id, the
    type and the memory cap never change. *)
Theorem counters_count_their_calls :
  forall (self : Base.Agent) (ops : list Lifecycle.Op),
    Base.errorCount (Lifecycle.run self ops)
    = (Base.errorCount self
       + length (List.filter Lifecycle.is_RecordError ops))%nat
    /\ Base.tasksCompleted (Lifecycle.run self ops)
       = (Base.tasksCompleted self
          + length (List.filter Lifecycle.is_RecordTaskCompletion ops))%nat
    /\ Base.id (Lifecycle.run self ops) = Base.id self
    /\ Base.type (Lifecycle.run self ops) = Base.type self
    /\ Base.maxMemorySize (Lifecycle.run self ops) = Base.maxMemorySize self.
Proof.
  intros self ops. revert self. unfold Lifecycle.run.
  induction ops as [|op ops IH]; intros self.
  - simpl. repeat split; lia.
  - simpl fold_left.
    destruct (IH (Lifecycle.step self op)) as (He & Ht & Hi & Hty & Hm).
    destruct (step_counters self op) as (Hi' & Hty' & Hm' & He' & Ht').
    rewrite He, Ht, Hi, Hty, Hm, He', Ht', Hi', Hty', Hm'.
    simpl List.filter.
    destruct (Lifecycle.is_RecordError op), (Lifecycle.is_RecordTaskCompletion op);
      simpl; repeat split; lia.
Qed.

(** X15.  Whatever is done to an agent after its construction, in any
    order, its memory never holds more than 1000 entries. *)
Theorem fresh_agent_memory_stays_within_cap :
  forall (id type : string) (ops : list Lifecycle.Op),
    (length (Base.memory (Lifecycle.run (Base.new_agent id type) ops)) <= 1000)%nat
    /\ Base.maxMemorySize (Lifecycle.run (Base.new_agent id type) ops) = 1000%nat.
Proof.
  intros id type ops.
  apply (run_within_cap ops (Base.new_agent id type)); simpl; lia.
Qed.

(** X16.  The performance score is always within [0, 100], whatever the
    counters and the clock, and it is 0 for an agent that has completed no
    task. *)
Theorem performance_score_bounds :
  forall (self : Base.Agent) (now : Z),
    (0 <= Lifecycle.calculatePerformanceScore self now)%Q
    /\ (Lifecycle.calculatePerformanceScore self now <= 100)%Q
    /\ (Base.tasksCompleted self = 0%nat ->
        (Lifecycle.calculatePerformanceScore self now == 0)%Q).
Proof.
  intros self now. unfold Lifecycle.calculatePerformanceScore.
  set (e := inject_Z (Z.of_nat (Base.errorCount self))).
  set (t := inject_Z (Z.of_nat (Base.tasksCompleted self))).
  set (u := (inject_Z (now - Base.startTime self) / 3600000)%Q).
  assert (He : (0 <= e)%Q) by (unfold e, Qle, inject_Z; simpl; lia).
  assert (Hrate : (0 <= e / Qmax t 1 * 50)%Q).
  { apply Qmult_le_0_compat; [|discriminate].
    apply Qle_shift_div_l; [apply at_least_one_positive|]. lra. }
  split; [apply Q.le_max_l|]. split.
  - apply Q.max_lub; [discriminate|].
    pose proof (Q.le_min_l 100 (t / Qmax u 1 * 10)). lra.
  - intros Hzero. unfold t. rewrite Hzero.
    change (inject_Z (Z.of_nat 0)) with 0%Q.
    assert (Hbase : (Qmin 100 (0 / Qmax u 1 * 10) == 0)%Q).
    { unfold Qdiv. rewrite !Qmult_0_l. reflexivity. }
    rewrite Hbase. apply Q.max_l.
    fold t in Hrate. unfold t in Hrate. rewrite Hzero in Hrate.
    change (inject_Z (Z.of_nat 0)) with 0%Q in Hrate. lra.
Qed.

(** X16 on a freshly constructed agent. *)
Lemma performance_score_bounds_witness :
  (Lifecycle.calculatePerformanceScore (Base.new_agent "a" "technical") 5000 == 0)%Q.
Proof.
  apply (proj2 (proj2 (performance_score_bounds (Base.new_agent "a" "technical") 5000))).
  reflexivity.
Defined.

(** X17.  After [recordError] the agent is in the [error] state and is
    unhealthy at every time; when the recovery timer fires the agent is
    active again, and healthy for as long as less than 300000 ms have passed
    since the error.  The timer never revives an agent that was stopped in
    the meantime, and it leaves an agent that is not in the [error] state as
    it is. *)
Theorem recovery_timer_revives_only_errored_agents :
  forall (self : Base.Agent) (now t : Z),
    Base.status (Lifecycle.recordError self now) = Base.error
    /\ Base.isHealthy (Lifecycle.recordError self now) t = false
    /\ Base.status (Lifecycle.recoveryTimer (Lifecycle.recordError self now))
       = Base.active
    /\ (Base.isHealthy (Lifecycle.recoveryTimer (Lifecycle.recordError self now)) t
        = true <-> (t - now < 300000)%Z)
    /\ Base.status
         (Lifecycle.recoveryTimer (Lifecycle.stopped (Lifecycle.recordError self now)))
       = Base.inactive
    /\ (Base.status self = Base.error
        \/ Lifecycle.recoveryTimer self = self).
Proof.
  intros self now t.
  split; [reflexivity|]. split; [reflexivity|]. split; [reflexivity|].
  split.
  - unfold Base.isHealthy, Lifecycle.recoveryTimer, Lifecycle.recordError. simpl.
    apply Z.ltb_lt.
  - split; [reflexivity|].
    unfold Lifecycle.recoveryTimer.
    destruct (bool_decide (Base.status self = Base.error)) eqn:E.
    + left. apply bool_decide_eq_true in E. exact E.
    + right. reflexivity.
Qed.

(** X18.  A history of stores alone, on a memory within a positive cap,
    leaves in memory the last [maxMemorySize] entries of what was held and
    what was stored, in the order of the stores: the oldest entries are the
    ones evicted. *)
Theorem store_only_history_keeps_most_recent :
  forall (self : Base.Agent) (inputs : list (Z * string * Base.MemoryInput)),
    (0 < Base.maxMemorySize self)%nat ->
    (length (Base.memory self) <= Base.maxMemorySize self)%nat ->
    Base.memory (Base.stores self inputs).1
    = Base.slice_last (Base.maxMemorySize self)
        (Base.memory self ++ (Base.stores self inputs).2)%list
    /\ (length (Base.memory (Base.stores self inputs).1)
        <= Base.maxMemorySize self)%nat.
Proof.
  intros self inputs Hpos Hlen.
  rewrite (stores_retain_most_recent inputs self Hpos Hlen).
  split; [reflexivity|].
  rewrite slice_last_drop by exact Hpos. rewrite length_drop. lia.
Qed.

(** X18 on an agent that holds one entry and stores two more. *)
Lemma store_only_history_keeps_most_recent_witness :
  Base.memory
    (Base.stores (Scenario.agent_with Scenario.earlier_entry) Cases.two_stores).1
  = Base.slice_last
      (Base.maxMemorySize (Scenario.agent_with Scenario.earlier_entry))
      (Base.memory (Scenario.agent_with Scenario.earlier_entry)
       ++ (Base.stores (Scenario.agent_with Scenario.earlier_entry)
             Cases.two_stores).2)%list
  /\ (length
        (Base.memory
           (Base.stores (Scenario.agent_with Scenario.earlier_entry)
              Cases.two_stores).1)
      <= Base.maxMemorySize (Scenario.agent_with Scenario.earlier_entry))%nat.
Proof.
  apply (store_only_history_keeps_most_recent
           (Scenario.agent_with Scenario.earlier_entry) Cases.two_stores);
    simpl; lia.
Defined.

(** ** The coordinator *)

(** X19.  [unregisterAgent] removes the id from the registry and drops its
    mailbox, pending messages included; every other entry and mailbox is as
    before.  Registering an agent and then unregistering its id leaves no
    trace of the id, also of an agent that held it before. *)
Theorem unregisterAgent_removes_agent_and_mailbox :
  forall (c : Coordinator.State) (now : Z) (a : Base.Agent) (agentId : string),
    Coordinator.agents (Coordinator.unregisterAgent c agentId).1 !! agentId = None
    /\ Coordinator.messageQueues (Coordinator.unregisterAgent c agentId).1 !! agentId
       = None
    /\ Coordinator.agents (Coordinator.unregisterAgent c agentId).1
       = delete agentId (Coordinator.agents c)
    /\ Coordinator.messageQueues (Coordinator.unregisterAgent c agentId).1
       = delete agentId (Coordinator.messageQueues c)
    /\ Coordinator.agents
         (Coordinator.unregisterAgent (Coordinator.registerAgent c now a).1
            (Base.id a)).1
       = delete (Base.id a) (Coordinator.agents c)
    /\ Coordinator.messageQueues
         (Coordinator.unregisterAgent (Coordinator.registerAgent c now a).1
            (Base.id a)).1
       = delete (Base.id a) (Coordinator.messageQueues c).
Proof.
  intros c now a agentId. unfold Coordinator.unregisterAgent, Coordinator.registerAgent.
  cbn [fst Coordinator.agents Coordinator.messageQueues].
  split; [apply lookup_delete_eq|]. split; [apply lookup_delete_eq|].
  split; [reflexivity|]. split; [reflexivity|].
  split; apply delete_insert_eq.
Qed.


Section RegistryFacts.

Import Coordinator.

Lemma step_consistent (c : State) (op : Registry.Op) :
  Notions.consistent c -> Notions.consistent (Registry.step c op).
Proof.
  intros [Hids Hown]. unfold Notions.consistent.
  destruct op as [now agent|agentId|now stamp from to message];
    cbn [Registry.step].
  - unfold registerAgent. cbn [fst agents messageQueues]. split.
    + intros id. destruct (decide (id = Base.id agent)) as [->|Hne].
      * rewrite !lookup_insert_eq. split; eauto.
      * rewrite !lookup_insert_ne by congruence. apply Hids.
    + intros id a. destruct (decide (id = Base.id agent)) as [->|Hne].
      * rewrite lookup_insert_eq. congruence.
      * rewrite lookup_insert_ne by congruence. apply Hown.
  - unfold unregisterAgent. cbn [fst agents messageQueues]. split.
    + intros id. destruct (decide (id = agentId)) as [->|Hne].
      * rewrite !lookup_delete_eq. split; intros [x Hx]; discriminate.
      * rewrite !lookup_delete_ne by congruence. apply Hids.
    + intros id a. destruct (decide (id = agentId)) as [->|Hne].
      * rewrite lookup_delete_eq. discriminate.
      * rewrite lookup_delete_ne by congruence. apply Hown.
  - unfold sendMessage. destruct (type_of_message message) as [ty|e];
      [|split; assumption].
    destruct (messageQueues c !! to) as [queue|] eqn:E;
      cbn [fst snd agents messageQueues]; [|split; assumption].
    split.
    + intros id. destruct (decide (id = to)) as [->|Hne].
      * rewrite lookup_insert_eq, lookup_alter_eq, fmap_is_Some, Hids, E.
        split; eauto.
      * rewrite lookup_insert_ne, lookup_alter_ne by congruence. apply Hids.
    + intros id a. destruct (decide (id = to)) as [->|Hne].
      * rewrite lookup_alter_eq. destruct (agents c !! to) as [a0|] eqn:Ea;
          [|discriminate].
        intros [= <-]. exact (Hown to a0 Ea).
      * rewrite lookup_alter_ne by congruence. apply Hown.
Qed.

Lemma run_consistent (ops : list Registry.Op) (c : State) :
  Notions.consistent c -> Notions.consistent (Registry.run c ops).
Proof.
  revert c. induction ops as [|op ops IH]; intros c Hc; [exact Hc|].
  apply IH, step_consistent, Hc.
Qed.

End RegistryFacts.

(** X21.  After any sequence of [registerAgent], [unregisterAgent] and
    [sendMessage] calls on a new coordinator, with or without a persistence
    gateway and whether or not the calls threw, the registry and the
    mailboxes hold the same ids and every agent is registered under its own
    id.  Hence a message sent to a registered agent is always delivered: it
    is appended to the mailbox that the agent has. *)
Theorem registry_and_mailboxes_share_ids :
  forall (dbManager : option Coordinator.Db) (ops : list Registry.Op),
    Notions.consistent (Registry.run (Registry.new_coordinator dbManager) ops)
    /\ (forall (to : string) (now : Z) (stamp from : string)
               (fields : list (string * jsval)),
          is_Some (Coordinator.agents
                     (Registry.run (Registry.new_coordinator dbManager) ops) !! to) ->
          exists queue m,
            Coordinator.messageQueues
              (Registry.run (Registry.new_coordinator dbManager) ops) !! to
            = Some queue
            /\ Coordinator.msg_data m = VObj fields
            /\ Coordinator.messageQueues
                 (Coordinator.sendMessage
                    (Registry.run (Registry.new_coordinator dbManager) ops)
                    now stamp from to (VObj fields)).1 !! to
               = Some (queue ++ [m])%list).
Proof.
  intros dbManager ops.
  assert (Hc : Notions.consistent
                 (Registry.run (Registry.new_coordinator dbManager) ops)).
  { apply run_consistent. split.
    - intros id. cbn. rewrite !lookup_empty.
      split; intros [x Hx]; discriminate.
    - intros id a. cbn. rewrite lookup_empty. discriminate. }
  split; [exact Hc|].
  intros to now stamp from fields Hreg.
  apply (proj1 Hc) in Hreg as [queue Hqueue].
  unfold Coordinator.sendMessage. cbn [Coordinator.type_of_message].
  rewrite Hqueue. cbn [fst snd Coordinator.messageQueues].
  eexists queue, _. split; [reflexivity|]. split; [|apply lookup_insert_eq].
  reflexivity.
Qed.

Section SmallRegistryFacts.

Import Coordinator.

Lemma healthy_count_all (c : State) (now : Z) :
  Spec.healthy_count c now = size (agents c) <-> Notions.all_healthy c now.
Proof.
  unfold Spec.healthy_count, Notions.all_healthy. split.
  - intros Hsize id a Ha.
    assert (Heq : filter (fun kv : string * Base.Agent => Base.isHealthy kv.2 now = true)
                    (agents c) = agents c).
    { apply map_subseteq_size_eq; [apply map_filter_subseteq|lia]. }
    rewrite <- Heq in Ha. apply map_lookup_filter_Some in Ha. exact (proj2 Ha).
  - intros Hall. f_equal. apply map_filter_id. intros i x Hx. exact (Hall i x Hx).
Qed.

End SmallRegistryFacts.

(** X22.  In a registry of one to five agents the health check passes
    exactly when every registered agent is healthy: four healthy agents out
    of five, or any single unhealthy agent among fewer, fail it. *)
Theorem small_swarm_needs_every_agent_healthy :
  forall (c : Coordinator.State) (now : Z),
    (0 < size (Coordinator.agents c))%nat ->
    (size (Coordinator.agents c) <= 5)%nat ->
    (Coordinator.healthCheck c now = true <-> Notions.all_healthy c now).
Proof.
  intros c now Hpos Hsmall.
  rewrite <- healthy_count_all.
  assert (Hcode : Coordinator.healthCheck c now = true
                  <-> (4 * size (Coordinator.agents c)
                       < 5 * Spec.healthy_count c now)%nat).
  { unfold Coordinator.healthCheck, Coordinator.healthRatio, Coordinator.totalAgents.
    rewrite healthyAgents_count, Qltb_lt.
    destruct (size (Coordinator.agents c)) as [|n] eqn:Hn; [lia|].
    change (0 <? S n)%nat with true. cbv iota.
    unfold Qlt, Qdiv, Qmult, Qinv, inject_Z. simpl Qnum. simpl Qden.
    rewrite Pos2Z.inj_mul. simpl (Z.pos 1). lia. }
  rewrite Hcode.
  pose proof (healthy_count_le c now) as Hle.
  unfold Coordinator.totalAgents in Hle. lia.
Qed.

(** X22 on three registered agents, one of them inactive. *)
Lemma small_swarm_needs_every_agent_healthy_witness :
  Coordinator.healthCheck Cases.three_agents 1000 = true
  <-> Notions.all_healthy Cases.three_agents 1000.
Proof.
  apply (small_swarm_needs_every_agent_healthy Cases.three_agents 1000);
    vm_compute; lia.
Defined.

(** X23.  [start] puts the agent, active and stamped with the time of the
    start, into the registry under its id, with an empty mailbox; the entry
    is healthy at a time [t] exactly while less than 300000 ms have passed.
    [stop] leaves the agent inactive, hence unhealthy, and its id out of the
    registry. *)
Theorem start_registers_and_stop_unregisters :
  forall (self : Base.Agent) (c : Coordinator.State) (now t : Z),
    Coordinator.agents (Lifecycle.start self c now).2.1 !! Base.id self
    = Some (Lifecycle.start self c now).1
    /\ Base.status (Lifecycle.start self c now).1 = Base.active
    /\ Coordinator.messageQueues (Lifecycle.start self c now).2.1 !! Base.id self
       = Some []
    /\ (Base.isHealthy (Lifecycle.start self c now).1 t = true
        <-> (t - now < 300000)%Z)
    /\ Coordinator.agents (Lifecycle.stop self c).2.1 !! Base.id self = None
    /\ Base.isHealthy (Lifecycle.stop self c).1 t = false
    /\ Coordinator.agents
         (Lifecycle.stop (Lifecycle.start self c now).1
            (Lifecycle.start self c now).2.1).2.1
       = delete (Base.id self) (Coordinator.agents c).
Proof.
  intros self c now t. unfold Lifecycle.start, Lifecycle.stop.
  cbn [fst snd]. unfold Coordinator.registerAgent, Coordinator.unregisterAgent.
  cbn [fst snd Coordinator.agents Coordinator.messageQueues
       Lifecycle.started Lifecycle.stopped Lifecycle.with_status Base.id Base.status].
  split; [apply lookup_insert_eq|]. split; [reflexivity|].
  split; [apply lookup_insert_eq|]. split.
  - unfold Base.isHealthy. simpl. apply Z.ltb_lt.
  - split; [apply lookup_delete_eq|]. split; [reflexivity|].
    apply delete_insert_eq.
Qed.

(** ** The orchestrator *)


Section TaskQueueFacts.

Import TaskQueue.

Lemma step_keeps_order (s : list Orchestrator.Task * list Orchestrator.Task)
    (op : Op) :
  ((step s op).2 ++ (step s op).1
   = (s.2 ++ s.1) ++ added [op])%list
  /\ (length (step s op).2 <= length s.2 + ticks [op])%nat.
Proof.
  destruct s as [queue processed], op as [task|]; cbn [step fst snd].
  - unfold addTask. cbn. split; [apply app_assoc|lia].
  - destruct queue as [|task rest]; cbn.
    + split; [now rewrite !app_nil_r|lia].
    + rewrite app_nil_r, <- app_assoc, length_app. cbn. split; [reflexivity|lia].
Qed.

Lemma added_app (ops ops' : list Op) :
  added (ops ++ ops') = (added ops ++ added ops')%list.
Proof.
  unfold added. induction ops as [|[task|] ops IH]; cbn; [reflexivity| |exact IH].
  now rewrite IH.
Qed.

Lemma ticks_app (ops ops' : list Op) :
  ticks (ops ++ ops') = (ticks ops + ticks ops')%nat.
Proof. unfold ticks. now rewrite List.filter_app, length_app. Qed.

Lemma fold_keeps_order (ops : list Op)
    (s : list Orchestrator.Task * list Orchestrator.Task) :
  ((fold_left step ops s).2 ++ (fold_left step ops s).1
   = (s.2 ++ s.1) ++ added ops)%list
  /\ (length (fold_left step ops s).2 <= length s.2 + ticks ops)%nat.
Proof.
  revert s. induction ops as [|op ops IH]; intros s.
  - cbn. split; [now rewrite app_nil_r|lia].
  - cbn [fold_left]. destruct (IH (step s op)) as [IH1 IH2].
    destruct (step_keeps_order s op) as [H1 H2].
    change (op :: ops) with ([op] ++ ops)%list.
    rewrite added_app, ticks_app. split.
    + rewrite IH1, H1. now rewrite <- !app_assoc.
    + lia.
Qed.

End TaskQueueFacts.

(** X25.  The task queue is first in, first out: after any sequence of
    [addTask] calls and ticks of the processing interval, the tasks handed
    to [processTask] followed by the tasks still queued are exactly the
    tasks added, in the order they were added; none is lost, repeated or
    overtaken, and a tick hands over at most one task. *)
Theorem task_queue_is_first_in_first_out :
  forall (ops : list TaskQueue.Op),
    ((TaskQueue.run ops).2 ++ (TaskQueue.run ops).1 = TaskQueue.added ops)%list
    /\ (length (TaskQueue.run ops).2 <= TaskQueue.ticks ops)%nat
    /\ (length (TaskQueue.run ops).1
        = length (TaskQueue.added ops) - length (TaskQueue.run ops).2)%nat.
Proof.
  intros ops. unfold TaskQueue.run.
  destruct (fold_keeps_order ops ([], [])) as [H1 H2]. cbn in H1, H2.
  split; [exact H1|]. split; [exact H2|].
  rewrite <- H1, length_app. lia.
Qed.

(** ** The analyst's indicators *)

Section IndicatorFacts.

Import Indicators.
Local Open Scope Q_scope.

Lemma rsi_loop_nonneg (rest : list (option Q)) (prev : Q) (acc : Q * Q) :
  0 <= acc.1 -> 0 <= acc.2 ->
  0 <= (rsi_loop prev rest acc).1 /\ 0 <= (rsi_loop prev rest acc).2.
Proof.
  revert prev acc. induction rest as [|p rest IH]; intros prev acc H1 H2.
  - cbn. split; assumption.
  - cbn [rsi_loop]. destruct (Qltb 0 (price_at p - prev)) eqn:E.
    + apply IH; cbn [fst snd]; [|exact H2].
      apply Qltb_lt in E. lra.
    + apply IH; cbn [fst snd]; [exact H1|].
      pose proof (Qabs_nonneg (price_at p - prev)). lra.
Qed.

Lemma rsi_loop_no_loss (rest : list (option Q)) (prev : Q) (acc : Q * Q) :
  Notions.never_falls prev rest -> (rsi_loop prev rest acc).2 == acc.2.
Proof.
  revert prev acc. induction rest as [|p rest IH]; intros prev acc Hup.
  - reflexivity.
  - cbn [rsi_loop]. destruct Hup as [Hle Hup].
    destruct (Qltb 0 (price_at p - prev)) eqn:E.
    + rewrite (IH _ _ Hup). reflexivity.
    + rewrite (IH _ _ Hup). cbn [fst snd].
      apply Qltb_false in E.
      assert (Hzero : price_at p - prev == 0) by lra.
      rewrite Hzero. change (Qabs 0) with 0. lra.
Qed.

Lemma Qdiv_nonneg (a b : Q) : 0 <= a -> 0 < b -> 0 <= a / b.
Proof. intros Ha Hb. apply Qle_shift_div_l; [exact Hb|lra]. Qed.

Lemma length_positive (A : Type) (l : list A) :
  l <> [] -> 0 < inject_Z (Z.of_nat (length l)).
Proof.
  intros Hl. destruct l as [|x l]; [congruence|].
  change 0 with (inject_Z 0). rewrite <- Zlt_Qlt. cbn [length]. lia.
Qed.




End IndicatorFacts.

(** X26.  [calculateRSI] yields a value between 0 and 100 on every price
    series, a missing or zero price being read as 0.  A series of fewer
    than two points yields the neutral 50; a series of two or more points
    that never falls yields 100, also when it never moves at all. *)
Theorem rsi_bounds_and_edges :
  forall (prices : list (option Q)),
    (0 <= Indicators.calculateRSI prices)%Q
    /\ (Indicators.calculateRSI prices <= 100)%Q
    /\ ((length prices < 2)%nat -> Indicators.calculateRSI prices = 50%Q)
    /\ (forall p0 rest,
          prices = p0 :: rest -> rest <> [] ->
          Notions.never_falls (Indicators.price_at p0) rest ->
          Indicators.calculateRSI prices = 100%Q).
Proof.
  intros prices.
  assert (Hshort : (length prices < 2)%nat -> Indicators.calculateRSI prices = 50%Q).
  { destruct prices as [|p0 [|p1 rest]]; cbn [length]; intros H;
      [reflexivity|reflexivity|lia]. }
  destruct prices as [|p0 [|p1 rest]].
  1,2: repeat split; try (cbn; lra); try exact Hshort; intros ? ? [=]; congruence.
  remember (p1 :: rest) as tl eqn:Htl.
  assert (Hne : tl <> []) by (subst tl; discriminate).
  assert (Hlen : (0 < inject_Z (Z.of_nat (length (p0 :: tl))))%Q)
    by (apply length_positive; discriminate).
  assert (Hcode : Indicators.calculateRSI (p0 :: tl)
          = let acc := Indicators.rsi_loop (Indicators.price_at p0) tl (0%Q, 0%Q) in
            let avgGain := (acc.1 / inject_Z (Z.of_nat (length (p0 :: tl))))%Q in
            let avgLoss := (acc.2 / inject_Z (Z.of_nat (length (p0 :: tl))))%Q in
            if Qeq_bool avgLoss 0 then 100%Q
            else (100 - 100 / (1 + avgGain / avgLoss))%Q).
  { subst tl. reflexivity. }
  rewrite Hcode. clear Hcode. cbv zeta.
  set (n := inject_Z (Z.of_nat (length (p0 :: tl)))) in *.
  destruct (rsi_loop_nonneg tl (Indicators.price_at p0) (0%Q, 0%Q)) as [Hg Hl];
    [cbn; lra|cbn; lra|].
  set (acc := Indicators.rsi_loop (Indicators.price_at p0) tl (0%Q, 0%Q)) in *.
  assert (Hag : (0 <= acc.1 / n)%Q) by (apply Qdiv_nonneg; assumption).
  assert (Hal : (0 <= acc.2 / n)%Q) by (apply Qdiv_nonneg; assumption).
  split; [|split; [|split]].
  - destruct (Qeq_bool (acc.2 / n) 0) eqn:E; [lra|].
    apply Qeq_bool_neq in E.
    assert (Hpos : (0 < acc.2 / n)%Q) by lra.
    assert (Hrs : (0 <= acc.1 / n / (acc.2 / n))%Q) by (apply Qdiv_nonneg; assumption).
    set (rs := (acc.1 / n / (acc.2 / n))%Q) in *.
    assert (Hq : (100 / (1 + rs) <= 100)%Q) by (apply Qle_shift_div_r; lra).
    lra.
  - destruct (Qeq_bool (acc.2 / n) 0) eqn:E; [lra|].
    apply Qeq_bool_neq in E.
    assert (Hpos : (0 < acc.2 / n)%Q) by lra.
    assert (Hrs : (0 <= acc.1 / n / (acc.2 / n))%Q) by (apply Qdiv_nonneg; assumption).
    set (rs := (acc.1 / n / (acc.2 / n))%Q) in *.
    assert (Hq : (0 <= 100 / (1 + rs))%Q) by (apply Qdiv_nonneg; lra).
    lra.
  - subst tl. cbn [length]. lia.
  - intros q0 rest' [= <- <-] _ Hup.
    assert (Hzero : (acc.2 / n == 0)%Q).
    { subst acc. rewrite (rsi_loop_no_loss _ _ _ Hup). cbn [snd].
      unfold Qdiv. ring. }
    apply Qeq_bool_iff in Hzero. now rewrite Hzero.
Qed.



Section AnalysisFacts.

Import Indicators.
Local Open Scope Q_scope.

Lemma clamp_unit (score : Q) : 0 <= Qmax 0 (Qmin 1 score) /\ Qmax 0 (Qmin 1 score) <= 1.
Proof.
  split; [apply Q.le_max_l|].
  apply Q.max_lub; [lra|apply Q.le_min_l].
Qed.

Lemma share_unit (n : nat) (d : Q) :
  0 < d -> 0 <= Qmin (inject_Z (Z.of_nat n) / d) 1 /\ Qmin (inject_Z (Z.of_nat n) / d) 1 <= 1.
Proof.
  intros Hd. split; [|apply Q.le_min_r].
  apply Q.min_glb; [|lra].
  apply Qdiv_nonneg; [|exact Hd].
  change 0 with (inject_Z 0). rewrite <- Zle_Qle. lia.
Qed.

Lemma Forall_list_filter {A} (P : A -> Prop) (f : A -> bool) (l : list A) :
  Forall P l -> Forall P (List.filter f l).
Proof.
  induction 1 as [|x l Hx Hl IH]; cbn; [constructor|].
  destruct (f x); [constructor; assumption|exact IH].
Qed.

Lemma news_fold_idle (l : list Datum) (score : Q) :
  Forall (fun d => truthy_num (sentiment d) = false) l ->
  fold_left news_step l score = score.
Proof.
  induction 1 as [|d l Hd Hl IH]; [reflexivity|].
  cbn [fold_left]. unfold news_step at 2. unfold truthy_num in Hd.
  destruct (sentiment d) as [s|]; [|exact IH].
  rewrite Hd. exact IH.
Qed.

Lemma economic_fold_idle (l : list Datum) (score : Q) :
  Forall (fun d => truthy_num (value d) && truthy_num (expected d) = false) l ->
  fold_left economic_step l score = score.
Proof.
  induction 1 as [|d l Hd Hl IH]; [reflexivity|].
  cbn [fold_left]. unfold economic_step at 2. unfold truthy_num in Hd.
  destruct (value d) as [v|]; [|exact IH].
  destruct (expected d) as [e|]; [|exact IH].
  rewrite Hd. exact IH.
Qed.

Lemma filter_has_type (t : string) (P : Datum -> Prop) (l : list Datum) :
  Forall (fun d => has_type t d = true -> P d) l ->
  Forall P (List.filter (has_type t) l).
Proof.
  induction 1 as [|d l Hd Hl IH]; cbn; [constructor|].
  destruct (has_type t d) eqn:E; [constructor; auto|exact IH].
Qed.

(** The running total of the sentiments stays within the count of the
    items that carry one. *)
Lemma sentiment_fold_bounds (l : list Datum) (acc : Q * nat) :
  Forall Notions.unit_sentiment l ->
  - inject_Z (Z.of_nat acc.2) <= acc.1 -> acc.1 <= inject_Z (Z.of_nat acc.2) ->
  - inject_Z (Z.of_nat (fold_left sentiment_step l acc).2)
    <= (fold_left sentiment_step l acc).1
  /\ (fold_left sentiment_step l acc).1
     <= inject_Z (Z.of_nat (fold_left sentiment_step l acc).2).
Proof.
  intros Hall. revert acc. induction Hall as [|d l Hd Hl IH]; intros acc H1 H2.
  - split; assumption.
  - cbn [fold_left]. unfold sentiment_step at 2 4 6 8.
    unfold Notions.unit_sentiment in Hd.
    destruct (sentiment d) as [s|]; [|apply IH; assumption].
    assert (HS : inject_Z (Z.of_nat (S acc.2)) == inject_Z (Z.of_nat acc.2) + 1).
    { rewrite Nat2Z.inj_succ, <- Z.add_1_r, inject_Z_plus. reflexivity. }
    apply IH; cbn [fst snd]; rewrite HS; lra.
Qed.

Lemma sentiment_score_unit (socialData newsData : list Datum) :
  Forall Notions.unit_sentiment socialData ->
  Forall Notions.unit_sentiment newsData ->
  0 <= calculateSentimentScore socialData newsData
  /\ calculateSentimentScore socialData newsData <= 1.
Proof.
  intros Hs Hn. unfold calculateSentimentScore.
  destruct (sentiment_fold_bounds (socialData ++ newsData) (0, O)) as [H1 H2];
    [apply Forall_app; split; assumption
    |cbn [fst snd]; change (inject_Z (Z.of_nat 0)) with 0; lra
    |cbn [fst snd]; change (inject_Z (Z.of_nat 0)) with 0; lra|].
  set (acc := fold_left sentiment_step (socialData ++ newsData)%list (0, O)) in *.
  destruct (Nat.ltb_spec 0 acc.2) as [Hpos|Hzero]; [|lra].
  assert (Hn0 : 0 < inject_Z (Z.of_nat acc.2)).
  { change 0 with (inject_Z 0). rewrite <- Zlt_Qlt. lia. }
  set (n := inject_Z (Z.of_nat acc.2)) in *.
  assert (Hlo : - (1) <= acc.1 / n) by (apply Qle_shift_div_l; [exact Hn0|lra]).
  assert (Hhi : acc.1 / n <= 1) by (apply Qle_shift_div_r; [exact Hn0|lra]).
  set (mean := acc.1 / n) in *.
  split.
  - apply Qle_shift_div_l; lra.
  - apply Qle_shift_div_r; lra.
Qed.

End AnalysisFacts.

(** X28.  The fundamental analysis reports a score and a confidence within
    [0,1] and at least one signal, on every data set.  When no news item
    has a non-zero sentiment and no economic item has both a non-zero value
    and a non-zero expectation (no such items at all, for instance), the
    score is the neutral baseline 0.5, and the overall sentiment reported
    for it is 'negative'. *)
Theorem fundamental_analysis_bounds_and_baseline :
  forall (data : list Indicators.Datum),
    (0 <= Indicators.fa_score (Indicators.performFundamentalAnalysis data))%Q
    /\ (Indicators.fa_score (Indicators.performFundamentalAnalysis data) <= 1)%Q
    /\ (0 <= Indicators.fa_confidence (Indicators.performFundamentalAnalysis data))%Q
    /\ (Indicators.fa_confidence (Indicators.performFundamentalAnalysis data) <= 1)%Q
    /\ Indicators.fa_signals (Indicators.performFundamentalAnalysis data) <> []
    /\ (Forall Notions.uninformative data ->
        Indicators.fa_score (Indicators.performFundamentalAnalysis data) = 0.5%Q
        /\ Indicators.overallSentiment (Indicators.performFundamentalAnalysis data)
           = "negative").
Proof.
  intros data. unfold Indicators.performFundamentalAnalysis.
  cbn [Indicators.fa_score Indicators.fa_confidence Indicators.fa_signals
       Indicators.overallSentiment].
  set (newsData := List.filter (Indicators.has_type "news") data).
  set (economicData := List.filter (Indicators.has_type "economic") data).
  destruct (clamp_unit
              (fold_left Indicators.economic_step economicData
                 (fold_left Indicators.news_step newsData 0.5%Q))) as [Hs0 Hs1].
  destruct (share_unit (length newsData) 10%Q) as [Hc0 Hc1]; [lra|].
  split; [exact Hs0|]. split; [exact Hs1|].
  split; [exact Hc0|]. split; [exact Hc1|]. split.
  - unfold Indicators.generateFundamentalSignals.
    destruct (5 <? length newsData)%nat, (0 <? length economicData)%nat;
      discriminate.
  - intros Hall.
    assert (Hscore : Indicators.calculateFundamentalScore newsData economicData
                     = 0.5%Q).
    { unfold Indicators.calculateFundamentalScore.
      rewrite news_fold_idle, economic_fold_idle; [reflexivity| |].
      - apply filter_has_type. eapply Forall_impl; [exact Hall|].
        intros d Hd. exact (proj2 Hd).
      - apply filter_has_type. eapply Forall_impl; [exact Hall|].
        intros d Hd. exact (proj1 Hd). }
    rewrite Hscore. split; reflexivity.
Qed.

(** X29.  The sentiment analysis of data whose sentiments lie within
    [-1,1] reports a score within [0,1] and a confidence above 0 and at
    most 1.  Its label and its signal agree: 'bullish' goes with one of the
    two positive signals, 'bearish' with one of the two negative ones, and
    'neutral' with 'Neutral sentiment' or, when there is no social and no
    news item, 'No sentiment data available'. *)
Theorem sentiment_analysis_bounds_and_labels :
  forall (data : list Indicators.Datum),
    Forall Notions.unit_sentiment data ->
    (0 <= Indicators.sa_score (Indicators.performSentimentAnalysis data))%Q
    /\ (Indicators.sa_score (Indicators.performSentimentAnalysis data) <= 1)%Q
    /\ (0 < Indicators.sa_confidence (Indicators.performSentimentAnalysis data))%Q
    /\ (Indicators.sa_confidence (Indicators.performSentimentAnalysis data) <= 1)%Q
    /\ (Indicators.sa_sentiment (Indicators.performSentimentAnalysis data) = "bullish"
        /\ (Indicators.sa_signals (Indicators.performSentimentAnalysis data)
            = ["Very positive sentiment detected"]
            \/ Indicators.sa_signals (Indicators.performSentimentAnalysis data)
               = ["Positive sentiment trend"])
        \/ Indicators.sa_sentiment (Indicators.performSentimentAnalysis data) = "bearish"
           /\ (Indicators.sa_signals (Indicators.performSentimentAnalysis data)
               = ["Very negative sentiment detected"]
               \/ Indicators.sa_signals (Indicators.performSentimentAnalysis data)
                  = ["Negative sentiment trend"])
        \/ Indicators.sa_sentiment (Indicators.performSentimentAnalysis data) = "neutral"
           /\ (Indicators.sa_signals (Indicators.performSentimentAnalysis data)
               = ["Neutral sentiment"]
               \/ Indicators.sa_signals (Indicators.performSentimentAnalysis data)
                  = ["No sentiment data available"]
                  /\ List.filter Indicators.is_social data = []
                  /\ List.filter (Indicators.has_type "news") data = [])).
Proof.
  intros data Hall. unfold Indicators.performSentimentAnalysis.
  set (socialData := List.filter Indicators.is_social data).
  set (newsData := List.filter (Indicators.has_type "news") data).
  destruct (sentiment_score_unit socialData newsData) as [Hs0 Hs1];
    [apply Forall_list_filter; exact Hall|apply Forall_list_filter; exact Hall|].
  destruct ((length socialData =? 0)%nat && (length newsData =? 0)%nat) eqn:Eempty.
  - cbn [Indicators.sa_score Indicators.sa_confidence Indicators.sa_sentiment
         Indicators.sa_signals].
    apply andb_true_iff in Eempty as [E1 E2].
    apply Nat.eqb_eq in E1, E2. apply length_zero_iff_nil in E1, E2.
    repeat (split; [lra|]). right. right. split; [reflexivity|]. right.
    split; [reflexivity|]. split; assumption.
  - cbn [Indicators.sa_score Indicators.sa_confidence Indicators.sa_sentiment
         Indicators.sa_signals].
    set (score := Indicators.calculateSentimentScore socialData newsData) in *.
    split; [exact Hs0|]. split; [exact Hs1|].
    assert (Hn : (0 < length socialData + length newsData)%nat).
    { apply andb_false_iff in Eempty as [E|E]; apply Nat.eqb_neq in E; lia. }
    split; [|split; [apply Q.le_min_r|]].
    + apply Q.min_glb_lt; [|lra].
      apply Qlt_shift_div_l; [lra|].
      assert (H1 : (1 <= inject_Z (Z.of_nat (length socialData + length newsData)))%Q).
      { change 1%Q with (inject_Z 1). rewrite <- Zle_Qle. lia. }
      lra.
    + unfold Indicators.generateSentimentSignals.
      destruct (Qltb 0.7 score) eqn:E7; [apply Qltb_lt in E7|apply Qltb_false in E7];
      destruct (Qltb 0.6 score) eqn:E6; [apply Qltb_lt in E6|apply Qltb_false in E6
                                        |apply Qltb_lt in E6|apply Qltb_false in E6];
      destruct (Qltb score 0.3) eqn:E3; [apply Qltb_lt in E3|apply Qltb_false in E3
                                        |apply Qltb_lt in E3|apply Qltb_false in E3
                                        |apply Qltb_lt in E3|apply Qltb_false in E3
                                        |apply Qltb_lt in E3|apply Qltb_false in E3];
      destruct (Qltb score 0.4) eqn:E4;
      try (apply Qltb_lt in E4); try (apply Qltb_false in E4);
      try lra; auto 6.
Qed.

(** X29 on a news item with the sentiment 0.5 and a tweet without one. *)
Lemma sentiment_analysis_bounds_and_labels_witness :
  (0 <= Indicators.sa_score (Indicators.performSentimentAnalysis Cases.mixed_feed))%Q
  /\ (Indicators.sa_score (Indicators.performSentimentAnalysis Cases.mixed_feed) == 0.75)%Q.
Proof.
  split; [|vm_compute; reflexivity].
  apply (sentiment_analysis_bounds_and_labels Cases.mixed_feed).
  repeat constructor; vm_compute; discriminate.
Defined.

(** ** The in-memory store *)

Section GatewayFacts.

Import Gateway.
Local Open Scope list_scope.

Lemma keep_last_100_snoc {A} (l : list A) (x : A) :
  exists kept, keep_last_100 (l ++ [x]) = kept ++ [x]
               /\ (length (keep_last_100 (l ++ [x])) <= 100)%nat.
Proof.
  unfold keep_last_100. rewrite length_app. cbn [length].
  destruct (Nat.ltb_spec 100 (length l + 1)) as [Hlong|Hshort].
  - exists (drop (length l + 1 - 100) l). split.
    + apply drop_app_le. lia.
    + rewrite length_drop, length_app. cbn [length]. lia.
  - exists l. split; [reflexivity|]. rewrite length_app. cbn [length]. lia.
Qed.

Lemma slice_last_keeps_last {A} (n : nat) (l : list A) (x : A) :
  exists kept, Base.slice_last n (l ++ [x]) = kept ++ [x].
Proof.
  destruct n as [|n]; [exists l; reflexivity|].
  unfold Base.slice_last. rewrite length_app. cbn [length].
  exists (drop (length l + 1 - S n) l). apply drop_app_le. lia.
Qed.

Lemma slice_last_length {A} (n : nat) (l : list A) :
  (length (Base.slice_last n l) <= length l)%nat
  /\ ((0 < n)%nat -> (length (Base.slice_last n l) <= n)%nat).
Proof.
  destruct n as [|n]; cbn [Base.slice_last]; [split; lia|].
  rewrite length_drop. split; lia.
Qed.

End GatewayFacts.

(** X30.  A memory stored through a connected store can be read back:
    [getAgentMemories] for the same agent, whatever the limit, returns a
    list that holds the memory just stored, is ordered newest first, has at
    most [limit] entries for a positive limit and never more than 100; the
    memories of the other agents are untouched.  While the store is not
    connected both calls throw 'Database not connected' and nothing is
    stored. *)
Theorem stored_memory_can_be_read_back :
  forall (db : Gateway.State) (now : Z) (agentId : string)
         (memory : Base.AgentMemory) (limit : nat),
    if Gateway.connected db then
      exists l,
        (Gateway.storeAgentMemory db now agentId memory).2 = Ret tt
        /\ Gateway.getAgentMemories
             (Gateway.storeAgentMemory db now agentId memory).1 agentId limit
           = Ret l
        /\ {| Gateway.stored_memory := memory; Gateway.memory_storedAt := now |} ∈ l
        /\ Notions.newest_first Gateway.memory_timestamp l
        /\ ((0 < limit)%nat -> (length l <= limit)%nat)
        /\ (length l <= 100)%nat
        /\ (forall other,
              other <> agentId ->
              Gateway.memoryData (Gateway.storeAgentMemory db now agentId memory).1
                !! other
              = Gateway.memoryData db !! other)
    else
      Gateway.storeAgentMemory db now agentId memory
      = (db, Throw (ErrorObj "Database not connected"))
      /\ Gateway.getAgentMemories db agentId limit
         = Throw (ErrorObj "Database not connected").
Proof.
  intros db now agentId memory limit.
  unfold Gateway.storeAgentMemory, Gateway.getAgentMemories.
  destruct (Gateway.connected db) eqn:Hconn; [|split; reflexivity].
  cbn [fst snd Gateway.connected Gateway.memoryData].
  set (memories := default [] (Gateway.memoryData db !! agentId)).
  rewrite lookup_insert_eq. cbn [default from_option]. unfold Datatypes.id.
  set (entry := {| Gateway.stored_memory := memory; Gateway.memory_storedAt := now |}).
  destruct (keep_last_100_snoc memories entry) as (kept & Hkept & Hcap).
  destruct (slice_last_keeps_last limit kept entry) as (read & Hread).
  destruct (slice_last_length limit (Gateway.keep_last_100 (memories ++ [entry])%list))
    as [Hlen Hlimit].
  assert (Hin : entry ∈ Base.slice_last limit
                         (Gateway.keep_last_100 (memories ++ [entry])%list)).
  { rewrite Hkept, Hread. apply elem_of_app. right.
    apply list_elem_of_singleton. reflexivity. }
  eexists. split; [reflexivity|]. split; [reflexivity|].
  split; [|split; [|split; [|split]]].
  - rewrite sort_desc_perm. exact Hin.
  - apply sort_desc_sorted.
  - intros Hpos. rewrite (Permutation_length (sort_desc_perm _ _)).
    exact (Hlimit Hpos).
  - rewrite (Permutation_length (sort_desc_perm _ _)). lia.
  - intros other Hother. apply lookup_insert_ne. congruence.
Qed.
